(** * Advanced Button Manager (libs/adv_button/adv_button.c)

    A shallow embedding of the gesture classifier of the button library and
    the properties of its registry, its debounce callbacks and its per-button
    timers.

    The linked list [buttons] is a Rocq list in link order (head first); a
    pointer to a node of the list is the node's [gpio], which is how
    [button_find_by_gpio] names nodes in the source.  Function pointers are
    [option callback], [None] being NULL.  Calls of handlers are recorded in
    the [dispatched] log of the state, oldest first.  A dereference of NULL
    and a loop that does not exit are results of their own.

    Every call into the library (a function of the public interface, an
    interrupt handler, a timer function) runs to its end before the next one
    starts, and a handler of the application does not call back into the
    library.  Arguments declared [uint8_t] range over 0..255; [malloc] does
    not fail. *)

From Stdlib Require Import ZArith List Bool Lia.
Import ListNotations.
Local Open Scope Z_scope.

(** ** Constants of the source *)

Definition DEBOUNCE_FRECUENCY : Z := 50.
Definition DOUBLEPRESS_TIME : Z := 400.
Definition LONGPRESS_TIME : Z := 450.
Definition VERYLONGPRESS_TIME : Z := 1200.
Definition HOLDPRESS_TIME : Z := 10000.

(** Fixed-width unsigned arithmetic: [uint8_t] and [uint32_t] wrap around. *)

Definition uint8 (z : Z) : Z := z mod 2 ^ 8.
Definition uint32 (z : Z) : Z := z mod 2 ^ 32.

(** ** Results of running the code *)

Inductive result (A : Type) : Type :=
| Ok (a : A)
| NullDeref   (* NULL was dereferenced, or called as a function *)
| OutOfFuel.  (* a loop was still running when the fuel ran out *)

Arguments Ok {A} a.
Arguments NullDeref {A}.
Arguments OutOfFuel {A}.

Definition bind {A B : Type} (r : result A) (k : A -> result B) : result B :=
  match r with
  | Ok a => k a
  | NullDeref => NullDeref
  | OutOfFuel => OutOfFuel
  end.

Notation "x <- r ;; k" := (bind r (fun x => k))
  (at level 61, r at next level, right associativity).

(** ** Data model *)

(** A handler is either the library's own [no_function_callback] or a
    function of the application, named by a number. *)
Inductive callback : Type :=
| no_function_callback
| user_callback (id : Z).

(** [button_callback_fn] is a function pointer: [None] is NULL. *)
Definition button_callback_fn : Type := option callback.

(** The functions the library installs in its [ETSTimer]s. *)
Inductive timer_fn : Type :=
| adv_button_hold_callback_fn
| adv_button_single_callback_fn.

(** An [ETSTimer]: armed for a number of milliseconds or not, and the function
    set by [sdk_os_timer_setfn]. *)
Record ETSTimer : Type := mkTimer {
  timer_armed : option Z;
  timer_func : option timer_fn
}.

Record adv_button_t : Type := mkButton {
  gpio : Z;
  singlepress_callback_fn : button_callback_fn;
  doublepress_callback_fn : button_callback_fn;
  longpress_callback_fn : button_callback_fn;
  verylongpress_callback_fn : button_callback_fn;
  holdpress_callback_fn : button_callback_fn;
  press_count : Z;
  press_timer : ETSTimer;
  hold_timer : ETSTimer;
  last_event_time : Z
}.

(** The two hardware timers shared by all buttons. *)
Inductive frc : Type := FRC1 | FRC2.

Record frc_timer : Type := mkFrc {
  frc_run : bool;
  frc_interrupts : bool;
  frc_frequency : Z
}.

Inductive isr : Type :=
| push_down_timer_callback_isr
| push_up_timer_callback_isr.

(** The state of the library ([buttons], [used_gpio]), of the platform it
    drives (timers, interrupt table, pins), and of what it reads from the
    platform (pin levels, tick count).  [leaked] holds the buttons
    [adv_button_destroy] has unlinked: the source never frees them. *)
Record state : Type := mkState {
  buttons : list adv_button_t;
  used_gpio : Z;
  leaked : list adv_button_t;
  frc_timers : frc -> frc_timer;
  isr_table : frc -> option isr;
  gpio_input : Z -> bool;
  gpio_pullup : Z -> bool;
  gpio_interrupt : Z -> bool;
  gpio_level : Z -> bool;
  tick_count : Z;
  dispatched : list (callback * Z)
}.

(** *** Field updates *)

Definition set_press_count (n : Z) (b : adv_button_t) : adv_button_t :=
  mkButton (gpio b) (singlepress_callback_fn b) (doublepress_callback_fn b)
    (longpress_callback_fn b) (verylongpress_callback_fn b)
    (holdpress_callback_fn b) n (press_timer b) (hold_timer b)
    (last_event_time b).

Definition set_press_timer (t : ETSTimer) (b : adv_button_t) : adv_button_t :=
  mkButton (gpio b) (singlepress_callback_fn b) (doublepress_callback_fn b)
    (longpress_callback_fn b) (verylongpress_callback_fn b)
    (holdpress_callback_fn b) (press_count b) t (hold_timer b)
    (last_event_time b).

Definition set_hold_timer (t : ETSTimer) (b : adv_button_t) : adv_button_t :=
  mkButton (gpio b) (singlepress_callback_fn b) (doublepress_callback_fn b)
    (longpress_callback_fn b) (verylongpress_callback_fn b)
    (holdpress_callback_fn b) (press_count b) (press_timer b) t
    (last_event_time b).

Definition set_last_event_time (t : Z) (b : adv_button_t) : adv_button_t :=
  mkButton (gpio b) (singlepress_callback_fn b) (doublepress_callback_fn b)
    (longpress_callback_fn b) (verylongpress_callback_fn b)
    (holdpress_callback_fn b) (press_count b) (press_timer b) (hold_timer b) t.

Definition set_singlepress (f : button_callback_fn) (b : adv_button_t) :=
  mkButton (gpio b) f (doublepress_callback_fn b)
    (longpress_callback_fn b) (verylongpress_callback_fn b)
    (holdpress_callback_fn b) (press_count b) (press_timer b) (hold_timer b)
    (last_event_time b).

Definition set_doublepress (f : button_callback_fn) (b : adv_button_t) :=
  mkButton (gpio b) (singlepress_callback_fn b) f
    (longpress_callback_fn b) (verylongpress_callback_fn b)
    (holdpress_callback_fn b) (press_count b) (press_timer b) (hold_timer b)
    (last_event_time b).

Definition set_longpress (f : button_callback_fn) (b : adv_button_t) :=
  mkButton (gpio b) (singlepress_callback_fn b) (doublepress_callback_fn b)
    f (verylongpress_callback_fn b)
    (holdpress_callback_fn b) (press_count b) (press_timer b) (hold_timer b)
    (last_event_time b).

Definition set_verylongpress (f : button_callback_fn) (b : adv_button_t) :=
  mkButton (gpio b) (singlepress_callback_fn b) (doublepress_callback_fn b)
    (longpress_callback_fn b) f
    (holdpress_callback_fn b) (press_count b) (press_timer b) (hold_timer b)
    (last_event_time b).

Definition set_holdpress (f : button_callback_fn) (b : adv_button_t) :=
  mkButton (gpio b) (singlepress_callback_fn b) (doublepress_callback_fn b)
    (longpress_callback_fn b) (verylongpress_callback_fn b)
    f (press_count b) (press_timer b) (hold_timer b)
    (last_event_time b).

Definition set_buttons (bs : list adv_button_t) (st : state) : state :=
  mkState bs (used_gpio st) (leaked st) (frc_timers st) (isr_table st)
    (gpio_input st) (gpio_pullup st) (gpio_interrupt st) (gpio_level st)
    (tick_count st) (dispatched st).

Definition set_used_gpio (g : Z) (st : state) : state :=
  mkState (buttons st) g (leaked st) (frc_timers st) (isr_table st)
    (gpio_input st) (gpio_pullup st) (gpio_interrupt st) (gpio_level st)
    (tick_count st) (dispatched st).

Definition set_leaked (l : list adv_button_t) (st : state) : state :=
  mkState (buttons st) (used_gpio st) l (frc_timers st) (isr_table st)
    (gpio_input st) (gpio_pullup st) (gpio_interrupt st) (gpio_level st)
    (tick_count st) (dispatched st).

Definition set_frc_timers (f : frc -> frc_timer) (st : state) : state :=
  mkState (buttons st) (used_gpio st) (leaked st) f (isr_table st)
    (gpio_input st) (gpio_pullup st) (gpio_interrupt st) (gpio_level st)
    (tick_count st) (dispatched st).

Definition set_isr_table (f : frc -> option isr) (st : state) : state :=
  mkState (buttons st) (used_gpio st) (leaked st) (frc_timers st) f
    (gpio_input st) (gpio_pullup st) (gpio_interrupt st) (gpio_level st)
    (tick_count st) (dispatched st).

Definition set_gpio_input (f : Z -> bool) (st : state) : state :=
  mkState (buttons st) (used_gpio st) (leaked st) (frc_timers st)
    (isr_table st) f (gpio_pullup st) (gpio_interrupt st) (gpio_level st)
    (tick_count st) (dispatched st).

Definition set_gpio_pullup (f : Z -> bool) (st : state) : state :=
  mkState (buttons st) (used_gpio st) (leaked st) (frc_timers st)
    (isr_table st) (gpio_input st) f (gpio_interrupt st) (gpio_level st)
    (tick_count st) (dispatched st).

Definition set_gpio_interrupt (f : Z -> bool) (st : state) : state :=
  mkState (buttons st) (used_gpio st) (leaked st) (frc_timers st)
    (isr_table st) (gpio_input st) (gpio_pullup st) f (gpio_level st)
    (tick_count st) (dispatched st).

Definition set_gpio_level (f : Z -> bool) (st : state) : state :=
  mkState (buttons st) (used_gpio st) (leaked st) (frc_timers st)
    (isr_table st) (gpio_input st) (gpio_pullup st) (gpio_interrupt st) f
    (tick_count st) (dispatched st).

Definition set_tick_count (t : Z) (st : state) : state :=
  mkState (buttons st) (used_gpio st) (leaked st) (frc_timers st)
    (isr_table st) (gpio_input st) (gpio_pullup st) (gpio_interrupt st)
    (gpio_level st) t (dispatched st).

Definition set_dispatched (l : list (callback * Z)) (st : state) : state :=
  mkState (buttons st) (used_gpio st) (leaked st) (frc_timers st)
    (isr_table st) (gpio_input st) (gpio_pullup st) (gpio_interrupt st)
    (gpio_level st) (tick_count st) l.

Definition upd {A : Type} (f : Z -> A) (k : Z) (v : A) : Z -> A :=
  fun k' => if k' =? k then v else f k'.

Definition frc_eqb (a b : frc) : bool :=
  match a, b with
  | FRC1, FRC1 | FRC2, FRC2 => true
  | _, _ => false
  end.

Definition upd_frc {A : Type} (f : frc -> A) (k : frc) (v : A) : frc -> A :=
  fun k' => if frc_eqb k' k then v else f k'.

(** ** Platform primitives the library calls *)

Definition timer_set_run (t : frc) (v : bool) (st : state) : state :=
  let old := frc_timers st t in
  set_frc_timers
    (upd_frc (frc_timers st) t (mkFrc v (frc_interrupts old) (frc_frequency old)))
    st.

Definition timer_set_interrupts (t : frc) (v : bool) (st : state) : state :=
  let old := frc_timers st t in
  set_frc_timers
    (upd_frc (frc_timers st) t (mkFrc (frc_run old) v (frc_frequency old)))
    st.

Definition timer_set_frequency (t : frc) (hz : Z) (st : state) : state :=
  let old := frc_timers st t in
  set_frc_timers
    (upd_frc (frc_timers st) t (mkFrc (frc_run old) (frc_interrupts old) hz))
    st.

Definition _xt_isr_attach (t : frc) (f : isr) (st : state) : state :=
  set_isr_table (upd_frc (isr_table st) t (Some f)) st.

(** [gpio_read] is [true] for a high level (the source's [== 1], released)
    and [false] for a low one ([== 0], pressed). *)
Definition gpio_read (pin : Z) (st : state) : bool := gpio_level st pin.

Definition gpio_enable (pin : Z) (st : state) : state :=
  set_gpio_input (upd (gpio_input st) pin true) st.

Definition gpio_disable (pin : Z) (st : state) : state :=
  set_gpio_input (upd (gpio_input st) pin false) st.

Definition gpio_set_pullup (pin : Z) (st : state) : state :=
  set_gpio_pullup (upd (gpio_pullup st) pin true) st.

(** [gpio_set_interrupt pin handler]: [true] attaches
    [adv_button_intr_callback], [false] is the source's NULL handler. *)
Definition gpio_set_interrupt (pin : Z) (handler : bool) (st : state) : state :=
  set_gpio_interrupt (upd (gpio_interrupt st) pin handler) st.

Definition xTaskGetTickCountFromISR (st : state) : Z := tick_count st.

Definition sdk_os_timer_arm (ms : Z) (t : ETSTimer) : ETSTimer :=
  mkTimer (Some ms) (timer_func t).

Definition sdk_os_timer_disarm (t : ETSTimer) : ETSTimer :=
  mkTimer None (timer_func t).

Definition sdk_os_timer_setfn (f : timer_fn) (t : ETSTimer) : ETSTimer :=
  mkTimer (timer_armed t) (Some f).

(** Calling through a function pointer: the call is logged; NULL faults. *)
Definition call_fn (f : button_callback_fn) (pin : Z) (st : state)
  : result state :=
  match f with
  | Some h => Ok (set_dispatched (dispatched st ++ [(h, pin)]) st)
  | None => NullDeref
  end.

(** ** The registry *)

(** [button_find_by_gpio]: the first node whose [gpio] is the one asked for,
    NULL ([None]) at the end of the list. *)
Fixpoint button_find_by_gpio (g : Z) (bs : list adv_button_t)
  : option adv_button_t :=
  match bs with
  | [] => None
  | button :: next =>
      if gpio button =? g then Some button else button_find_by_gpio g next
  end.

(** A write through the pointer [button_find_by_gpio g] returned: the node it
    found is replaced by its new contents. *)
Fixpoint store_button (g : Z) (b' : adv_button_t) (bs : list adv_button_t)
  : list adv_button_t :=
  match bs with
  | [] => []
  | button :: next =>
      if gpio button =? g then b' :: next else button :: store_button g b' next
  end.

Definition write_button (g : Z) (b' : adv_button_t) (st : state) : state :=
  set_buttons (store_button g b' (buttons st)) st.

(** [memset (button, 0, sizeof *button)] followed by [button->gpio = gpio]. *)
Definition zero_timer : ETSTimer := mkTimer None None.

Definition new_button (g : Z) : adv_button_t :=
  mkButton g None None None None None 0 zero_timer zero_timer 0.

(** ** Debounce callbacks and the edge interrupt *)

Definition push_down_timer_callback (st : state) : result state :=
  let st := timer_set_run FRC1 false st in
  let st := timer_set_interrupts FRC1 false st in
  if negb (gpio_read (used_gpio st) st) then
    match button_find_by_gpio (used_gpio st) (buttons st) with
    | None => NullDeref
    | Some button =>
        let button :=
          set_hold_timer (sdk_os_timer_arm HOLDPRESS_TIME (hold_timer button))
            button in
        let button :=
          set_last_event_time (xTaskGetTickCountFromISR st) button in
        Ok (write_button (used_gpio st) button st)
    end
  else Ok st.

Definition adv_button_intr_callback (g : Z) (st : state) : state :=
  match button_find_by_gpio g (buttons st) with
  | None => st
  | Some _ =>
      let st := set_used_gpio g st in
      if gpio_read (used_gpio st) st then
        let st := timer_set_frequency FRC2 DEBOUNCE_FRECUENCY st in
        let st := timer_set_interrupts FRC2 true st in
        timer_set_run FRC2 true st
      else
        let st := timer_set_interrupts FRC1 true st in
        timer_set_run FRC1 true st
  end.

(** ** Per-button timer callbacks

    [arg] is the button the timer belongs to; the callbacks work on that
    button and on the rest of the state. *)

Definition adv_button_single_callback (button : adv_button_t) (st : state)
  : result (adv_button_t * state) :=
  let button := set_press_count 0 button in
  st' <- call_fn (singlepress_callback_fn button) (gpio button) st ;;
  Ok (button, st').

Definition adv_button_hold_callback (button : adv_button_t) (st : state)
  : result (adv_button_t * state) :=
  if negb (gpio_read (gpio button) st) then
    let button := set_press_count 0 button in
    match holdpress_callback_fn button with
    | Some f => st' <- call_fn (Some f) (gpio button) st ;; Ok (button, st')
    | None =>
        st' <- call_fn (Some no_function_callback) (gpio button) st ;;
        Ok (button, st')
    end
  else Ok (button, st).

(** ** The public interface *)

Definition adv_button_create (g : Z) (st : state) : Z * state :=
  match button_find_by_gpio g (buttons st) with
  | Some _ => (-1, st)
  | None =>
      let button := new_button g in
      let st :=
        match buttons st with
        | [] =>
            let st := timer_set_interrupts FRC1 false st in
            let st := timer_set_run FRC1 false st in
            let st := timer_set_interrupts FRC2 false st in
            let st := timer_set_run FRC2 false st in
            let st := _xt_isr_attach FRC1 push_down_timer_callback_isr st in
            let st := _xt_isr_attach FRC2 push_up_timer_callback_isr st in
            timer_set_frequency FRC1 DEBOUNCE_FRECUENCY st
        | _ :: _ => st
        end in
      let st := set_buttons (button :: buttons st) st in
      let st := if gpio button =? 0 then st else gpio_enable (gpio button) st in
      let st := gpio_set_pullup (gpio button) st in
      let st := gpio_set_interrupt (gpio button) true st in
      let button :=
        set_hold_timer (sdk_os_timer_disarm (hold_timer button)) button in
      let button :=
        set_hold_timer
          (sdk_os_timer_setfn adv_button_hold_callback_fn (hold_timer button))
          button in
      let button :=
        set_press_timer (sdk_os_timer_disarm (press_timer button)) button in
      let button :=
        set_press_timer
          (sdk_os_timer_setfn adv_button_single_callback_fn (press_timer button))
          button in
      let button := set_singlepress (Some no_function_callback) button in
      (0, write_button g button st)
  end.

Definition adv_button_register_callback_fn
  (g : Z) (cb : button_callback_fn) (button_callback_type : Z) (st : state)
  : Z * state :=
  match button_find_by_gpio g (buttons st) with
  | None => (-1, st)
  | Some button =>
      match button_callback_type with
      | 1 =>
          match cb with
          | Some _ => (0, write_button g (set_singlepress cb button) st)
          | None =>
              (0, write_button g
                    (set_singlepress (Some no_function_callback) button) st)
          end
      | 2 => (0, write_button g (set_doublepress cb button) st)
      | 3 => (0, write_button g (set_longpress cb button) st)
      | 4 => (0, write_button g (set_verylongpress cb button) st)
      | 5 => (0, write_button g (set_holdpress cb button) st)
      | _ => (-2, st)
      end
  end.

(** The inner [while (b->next)] of [adv_button_destroy], with [b] at the head
    of the list and [b_next] the nodes after it.  The body never moves [b]:
    when the node after [b] is not the one looked for, the next turn of the
    loop sees what this one saw.  The result is the unlinked node and the new
    [b->next], or [None] when the loop ended with nothing unlinked. *)
Fixpoint destroy_loop (fuel : nat) (g : Z) (b_next : list adv_button_t)
  : result (option (adv_button_t * list adv_button_t)) :=
  match fuel with
  | O => OutOfFuel
  | S fuel' =>
      match b_next with
      | [] => Ok None
      | n :: n_next =>
          if gpio n =? g then Ok (Some (n, n_next))
          else destroy_loop fuel' g b_next
      end
  end.

(** What [adv_button_destroy] does with the button it has unlinked. *)
Definition destroy_unlinked (button : adv_button_t) (st : state) : state :=
  let button :=
    set_hold_timer (sdk_os_timer_disarm (hold_timer button)) button in
  let button :=
    set_press_timer (sdk_os_timer_disarm (press_timer button)) button in
  let st := gpio_set_interrupt (gpio button) false st in
  let st := if gpio button =? 0 then st else gpio_disable (gpio button) st in
  set_leaked (button :: leaked st) st.

Definition adv_button_destroy (fuel : nat) (g : Z) (st : state)
  : result state :=
  match buttons st with
  | [] => Ok st
  | head :: next =>
      if gpio head =? g then
        Ok (destroy_unlinked head (set_buttons next st))
      else
        r <- destroy_loop fuel g next ;;
        match r with
        | Some (button, next') =>
            Ok (destroy_unlinked button (set_buttons (head :: next') st))
        | None => Ok st
        end
  end.

(** ** The release classifier and the events of the system

    [portTICK_PERIOD_MS] is a macro of the operating system (the number of
    milliseconds in a tick); the source only divides by it. *)

Section Classifier.

Variable portTICK_PERIOD_MS : Z.

Definition push_up_timer_callback (st : state) : result state :=
  let st := timer_set_run FRC2 false st in
  let st := timer_set_interrupts FRC2 false st in
  if gpio_read (used_gpio st) st then
    match button_find_by_gpio (used_gpio st) (buttons st) with
    | None => NullDeref
    | Some button =>
        let button :=
          set_hold_timer (sdk_os_timer_disarm (hold_timer button)) button in
        let now := xTaskGetTickCountFromISR st in
        if uint32 (now - last_event_time button)
             >? VERYLONGPRESS_TIME / portTICK_PERIOD_MS then
          let button := set_press_count 0 button in
          let st := write_button (used_gpio st) button st in
          match verylongpress_callback_fn button with
          | Some f => call_fn (Some f) (used_gpio st) st
          | None =>
              match longpress_callback_fn button with
              | Some f => call_fn (Some f) (used_gpio st) st
              | None => call_fn (singlepress_callback_fn button) (used_gpio st) st
              end
          end
        else if uint32 (now - last_event_time button)
                  >? LONGPRESS_TIME / portTICK_PERIOD_MS then
          let button := set_press_count 0 button in
          let st := write_button (used_gpio st) button st in
          match longpress_callback_fn button with
          | Some f => call_fn (Some f) (used_gpio st) st
          | None => call_fn (singlepress_callback_fn button) (used_gpio st) st
          end
        else
          match doublepress_callback_fn button with
          | Some f =>
              let button := set_press_count (uint8 (press_count button + 1)) button in
              if press_count button >? 1 then
                let button :=
                  set_press_timer (sdk_os_timer_disarm (press_timer button))
                    button in
                let button := set_press_count 0 button in
                let st := write_button (used_gpio st) button st in
                call_fn (Some f) (used_gpio st) st
              else
                let button :=
                  set_press_timer
                    (sdk_os_timer_arm DOUBLEPRESS_TIME (press_timer button))
                    button in
                Ok (write_button (used_gpio st) button st)
          | None =>
              let st := write_button (used_gpio st) button st in
              call_fn (singlepress_callback_fn button) (used_gpio st) st
          end
    end
  else Ok st.

(** The calls the application and the platform make into the library.  A
    timer event is the platform calling the timer's function; the events of a
    per-button timer name the button by its pin.  [Level] and [Tick] are the
    outside world changing what [gpio_read] and the tick counter return. *)
Inductive event : Type :=
| Create (g : Z)
| Register (g : Z) (cb : button_callback_fn) (button_callback_type : Z)
| Destroy (g : Z)
| Edge (g : Z)
| DownDebounce
| UpDebounce
| PressTimer (g : Z)
| HoldTimer (g : Z)
| Level (g : Z) (high : bool)
| Tick (t : Z).

(** A per-button timer calls its function with the button as argument.  The
    timers of a button that is not in the registry are disarmed (they were
    never armed, or [adv_button_destroy] has disarmed them). *)
Definition timer_fires
  (f : adv_button_t -> state -> result (adv_button_t * state))
  (g : Z) (st : state) : result state :=
  match button_find_by_gpio g (buttons st) with
  | None => Ok st
  | Some button =>
      r <- f button st ;;
      Ok (write_button g (fst r) (snd r))
  end.

Definition step (fuel : nat) (e : event) (st : state) : result state :=
  match e with
  | Create g => Ok (snd (adv_button_create g st))
  | Register g cb k => Ok (snd (adv_button_register_callback_fn g cb k st))
  | Destroy g => adv_button_destroy fuel g st
  | Edge g => Ok (adv_button_intr_callback g st)
  | DownDebounce => push_down_timer_callback st
  | UpDebounce => push_up_timer_callback st
  | PressTimer g => timer_fires adv_button_single_callback g st
  | HoldTimer g => timer_fires adv_button_hold_callback g st
  | Level g high => Ok (set_gpio_level (upd (gpio_level st) g high) st)
  | Tick t => Ok (set_tick_count (uint32 t) st)
  end.

Fixpoint run (fuel : nat) (es : list event) (st : state) : result state :=
  match es with
  | [] => Ok st
  | e :: es' => st' <- step fuel e st ;; run fuel es' st'
  end.

End Classifier.

(** The state at start-up: statics are zero, nothing is configured. *)
Definition initial_state : state :=
  mkState [] 0 []
    (fun _ => mkFrc false false 0) (fun _ => None)
    (fun _ => false) (fun _ => false) (fun _ => false)
    (fun _ => true) 0 [].

(** The button registered for pin [g], if any. *)
Definition registered (g : Z) (st : state) : option adv_button_t :=
  button_find_by_gpio g (buttons st).

(** The handlers called since state [st0], oldest first. *)
Definition dispatched_since (st0 st : state) (l : list (callback * Z)) : Prop :=
  dispatched st = dispatched st0 ++ l.

(** ** Vocabulary of the properties *)

(** Time between the confirmed press and now, as the source computes it
    (an unsigned 32-bit difference of tick counts), and in milliseconds. *)
Definition elapsed_ticks (st : state) (b : adv_button_t) : Z :=
  uint32 (xTaskGetTickCountFromISR st - last_event_time b).

Definition elapsed_ms (tick_ms : Z) (st : state) (b : adv_button_t) : Z :=
  elapsed_ticks st b * tick_ms.

(** A release is confirmed for button [b] when the up-debounce timer fires
    while [used_gpio] is [b]'s pin and the pin reads high. *)
Definition confirmed_release (st : state) (b : adv_button_t) : Prop :=
  registered (used_gpio st) st = Some b /\ gpio_read (used_gpio st) st = true.

(** The button [adv_button_create] leaves in the registry. *)
Definition created_button (g : Z) : adv_button_t :=
  mkButton g (Some no_function_callback) None None None None 0
    (mkTimer None (Some adv_button_single_callback_fn))
    (mkTimer None (Some adv_button_hold_callback_fn)) 0.

(** The button once a press has been confirmed at tick [t]. *)
Definition pressed_at (t : Z) (b : adv_button_t) : adv_button_t :=
  set_last_event_time t
    (set_hold_timer (sdk_os_timer_arm HOLDPRESS_TIME (hold_timer b)) b).

(** The button once the release has disarmed its hold timer. *)
Definition released (b : adv_button_t) : adv_button_t :=
  set_hold_timer (sdk_os_timer_disarm (hold_timer b)) b.

(** The button [adv_button_destroy] leaves behind, timers disarmed. *)
Definition disarmed (b : adv_button_t) : adv_button_t :=
  set_press_timer (sdk_os_timer_disarm (press_timer b))
    (set_hold_timer (sdk_os_timer_disarm (hold_timer b)) b).

(** The handler of a gesture, with the fallbacks; [s] is the single-press
    handler. *)
Definition long_handler (b : adv_button_t) (s : callback) : callback :=
  match longpress_callback_fn b with
  | Some f => f
  | None => s
  end.

Definition very_long_handler (b : adv_button_t) (s : callback) : callback :=
  match verylongpress_callback_fn b with
  | Some f => f
  | None => long_handler b s
  end.

Definition hold_handler (b : adv_button_t) : callback :=
  match holdpress_callback_fn b with
  | Some f => f
  | None => no_function_callback
  end.

(** The slot a kind of gesture names in [adv_button_register_callback_fn]. *)
Definition callback_slot (k : Z) (b : adv_button_t) : button_callback_fn :=
  match k with
  | 1 => singlepress_callback_fn b
  | 2 => doublepress_callback_fn b
  | 3 => longpress_callback_fn b
  | 4 => verylongpress_callback_fn b
  | 5 => holdpress_callback_fn b
  | _ => None
  end.

(** The pins of the registry, head first. *)
Definition pins (st : state) : list Z := map gpio (buttons st).

(** *** Invariants

    Every button, registered or unlinked, has a single-press handler and a
    [press_count] of 0 or 1. *)
Definition single_bound (b : adv_button_t) : Prop :=
  singlepress_callback_fn b <> None.

Definition count_small (b : adv_button_t) : Prop :=
  press_count b = 0 \/ press_count b = 1.

Definition button_ok (b : adv_button_t) : Prop :=
  single_bound b /\ count_small b.

Definition state_ok (st : state) : Prop :=
  Forall button_ok (buttons st) /\ Forall button_ok (leaked st).

(** ** Timelines *)

(** The state a timeline leads to from start-up (with fuel for two turns of
    the loop of [adv_button_destroy]). *)
Definition state_after (tick_ms : Z) (es : list event) : state :=
  match run tick_ms 2 es initial_state with
  | Ok st => st
  | _ => initial_state
  end.

(** Pin [g] goes low at tick [t_press] and high again at tick [t_release];
    both edges raise the interrupt and the down-debounce timer fires in
    between.  The up-debounce timer then fires. *)
Definition press_and_release_edges (g t_press t_release : Z) : list event :=
  [Level g false; Tick t_press; Edge g; DownDebounce;
   Level g true; Tick t_release; Edge g].

Definition press_release_pair (g t_press t_release : Z) : list event :=
  press_and_release_edges g t_press t_release ++ [UpDebounce].

(** Pin 7 with handlers 1 (single), 3 (long) and 4 (very long), ticks of
    10 ms: a press confirmed at tick 1000, and the release edge at tick
    [release_tick], before the up-debounce timer fires. *)
Definition press_and_release (release_tick : Z) : list event :=
  [Create 7;
   Register 7 (Some (user_callback 1)) 1;
   Register 7 (Some (user_callback 3)) 3;
   Register 7 (Some (user_callback 4)) 4;
   Level 7 false; Tick 1000; Edge 7; DownDebounce;
   Level 7 true; Tick release_tick; Edge 7].

(** The button of pin 7 in [press_and_release]: pressed at tick 1000, hold
    timer armed until the release is confirmed. *)
Definition pin7_pressed : adv_button_t :=
  mkButton 7 (Some (user_callback 1)) None (Some (user_callback 3))
    (Some (user_callback 4)) None 0
    (mkTimer None (Some adv_button_single_callback_fn))
    (mkTimer (Some HOLDPRESS_TIME) (Some adv_button_hold_callback_fn))
    1000.

(** Pin 7 with handlers 1 (single) and 2 (double), nothing pressed yet. *)
Definition single_and_double_bound : list event :=
  [Create 7;
   Register 7 (Some (user_callback 1)) 1;
   Register 7 (Some (user_callback 2)) 2].

Definition pin7_idle : adv_button_t :=
  mkButton 7 (Some (user_callback 1)) (Some (user_callback 2)) None None None 0
    (mkTimer None (Some adv_button_single_callback_fn))
    (mkTimer None (Some adv_button_hold_callback_fn))
    0.

(** Pin 7 of [single_and_double_bound] after a first short release: one
    press counted, press timer armed. *)
Definition pin7_waiting : adv_button_t :=
  mkButton 7 (Some (user_callback 1)) (Some (user_callback 2)) None None None 1
    (mkTimer (Some DOUBLEPRESS_TIME) (Some adv_button_single_callback_fn))
    (mkTimer None (Some adv_button_hold_callback_fn))
    0.

(** Pin 7 with handler 1 (single) only: a press confirmed at tick 1000, and
    then the release edge at tick [release_tick]. *)
Definition single_only_press : list event :=
  [Create 7;
   Register 7 (Some (user_callback 1)) 1;
   Level 7 false; Tick 1000; Edge 7; DownDebounce].

Definition single_only_release (release_tick : Z) : list event :=
  single_only_press ++ [Level 7 true; Tick release_tick; Edge 7].

Definition pin7_single_only : adv_button_t :=
  mkButton 7 (Some (user_callback 1)) None None None None 0
    (mkTimer None (Some adv_button_single_callback_fn))
    (mkTimer (Some HOLDPRESS_TIME) (Some adv_button_hold_callback_fn))
    1000.

(** Registries of two and of three buttons; the last created is the head. *)
Definition two_buttons : list event := [Create 1; Create 2].

Definition three_buttons : list event := [Create 1; Create 2; Create 3].

(** Pin 1 goes low and raises its interrupt; its button is destroyed before
    the down-debounce timer fires. *)
Definition edge_then_destroy : list event :=
  [Create 1; Level 1 false; Edge 1; Destroy 1].

(** Pin [g] goes low at tick [t_press]; the press is confirmed and the hold
    timer fires while the pin is still low; the pin goes high at tick
    [t_release] and the release is confirmed. *)
Definition hold_and_release (g t_press t_release : Z) : list event :=
  [Level g false; Tick t_press; Edge g; DownDebounce; HoldTimer g;
   Level g true; Tick t_release; Edge g; UpDebounce].

(** The configuration of a pin: enabled as an input, pull-up on, edge
    interrupt attached. *)
Definition pin_config (st : state) (p : Z) : bool * bool * bool :=
  (gpio_input st p, gpio_pullup st p, gpio_interrupt st p).

(** The events that are not a creation or a destruction of pin [p]. *)
Definition leaves_pin (p : Z) (e : event) : Prop :=
  e <> Create p /\ e <> Destroy p.

(** Pin 7 with handler 1 (single) only, ticks of 10 ms: a press confirmed at
    tick 2^32 - 3, and the release edge at tick [release_tick] after the tick
    counter has wrapped around. *)
Definition press_before_wrap (release_tick : Z) : list event :=
  [Create 7;
   Register 7 (Some (user_callback 1)) 1;
   Level 7 false; Tick 4294967293; Edge 7; DownDebounce;
   Level 7 true; Tick release_tick; Edge 7].

Definition pin7_before_wrap : adv_button_t :=
  mkButton 7 (Some (user_callback 1)) None None None None 0
    (mkTimer None (Some adv_button_single_callback_fn))
    (mkTimer (Some HOLDPRESS_TIME) (Some adv_button_hold_callback_fn))
    4294967293.

(** The debounce timers are set up: both interrupt handlers are attached and
    FRC1 has the debounce frequency. *)
Definition debounce_ready (st : state) : Prop :=
  isr_table st FRC1 = Some push_down_timer_callback_isr
  /\ isr_table st FRC2 = Some push_up_timer_callback_isr
  /\ frc_frequency (frc_timers st FRC1) = DEBOUNCE_FRECUENCY.

(** * Properties *)

(** ** The registry: lookup and writes *)

Lemma find_gpio (g : Z) (bs : list adv_button_t) (b : adv_button_t) :
  button_find_by_gpio g bs = Some b -> gpio b = g.
Proof.
  induction bs as [|x bs IH]; simpl; [discriminate|].
  destruct (gpio x =? g) eqn:E.
  - intros [= <-]. now apply Z.eqb_eq.
  - exact IH.
Qed.

Lemma find_In (g : Z) (bs : list adv_button_t) (b : adv_button_t) :
  button_find_by_gpio g bs = Some b -> In b bs.
Proof.
  induction bs as [|x bs IH]; simpl; [discriminate|].
  destruct (gpio x =? g).
  - intros [= <-]. now left.
  - intros H. right. now apply IH.
Qed.

Lemma find_store_same (g : Z) (b' : adv_button_t) (bs : list adv_button_t) :
  gpio b' = g ->
  button_find_by_gpio g bs <> None ->
  button_find_by_gpio g (store_button g b' bs) = Some b'.
Proof.
  intros Hg. induction bs as [|x bs IH]; simpl; [congruence|].
  destruct (gpio x =? g) eqn:E; simpl.
  - intros _. rewrite Hg, Z.eqb_refl. reflexivity.
  - rewrite E. exact IH.
Qed.

Lemma find_store_other (g g' : Z) (b' : adv_button_t) (bs : list adv_button_t) :
  gpio b' = g -> g' <> g ->
  button_find_by_gpio g' (store_button g b' bs) = button_find_by_gpio g' bs.
Proof.
  intros Hg Hne. induction bs as [|x bs IH]; simpl; [reflexivity|].
  destruct (gpio x =? g) eqn:E; simpl.
  - apply Z.eqb_eq in E. rewrite Hg, E.
    destruct (g =? g') eqn:E'; [apply Z.eqb_eq in E'; congruence|reflexivity].
  - rewrite IH. reflexivity.
Qed.

Lemma store_found_same (g : Z) (b : adv_button_t) (bs : list adv_button_t) :
  button_find_by_gpio g bs = Some b -> store_button g b bs = bs.
Proof.
  induction bs as [|x bs IH]; simpl; [reflexivity|].
  destruct (gpio x =? g).
  - now intros [= ->].
  - intros H. now rewrite IH.
Qed.

Lemma store_Forall (P : adv_button_t -> Prop) (g : Z) (b' : adv_button_t)
      (bs : list adv_button_t) :
  P b' -> Forall P bs -> Forall P (store_button g b' bs).
Proof.
  intros Hb. induction 1 as [|x bs Hx HF IH]; simpl; [constructor|].
  destruct (gpio x =? g); constructor; assumption.
Qed.

Lemma find_Forall (P : adv_button_t -> Prop) (g : Z) (b : adv_button_t)
      (bs : list adv_button_t) :
  Forall P bs -> button_find_by_gpio g bs = Some b -> P b.
Proof.
  intros HF Hfind. apply find_In in Hfind.
  rewrite Forall_forall in HF. now apply HF.
Qed.

Lemma set_buttons_same (st : state) : set_buttons (buttons st) st = st.
Proof. now destruct st. Qed.

Lemma write_found_same (g : Z) (b : adv_button_t) (st : state) :
  registered g st = Some b -> write_button g b st = st.
Proof.
  intros H. unfold write_button. rewrite (store_found_same _ _ _ H).
  apply set_buttons_same.
Qed.

(** ** Creating a pin twice *)

(** C5: [adv_button_create] on a pin that is already registered returns -1
    (AlreadyExists) and returns the state it was given: the registry, with the
    existing button's callback slots, [press_count], [last_event_time] and
    position, and everything else are as before. *)
Theorem create_existing_pin_unchanged (g : Z) (st : state) (b : adv_button_t) :
  registered g st = Some b ->
  adv_button_create g st = (-1, st)
  /\ registered g (snd (adv_button_create g st)) = Some b
  /\ buttons (snd (adv_button_create g st)) = buttons st.
Proof.
  unfold registered, adv_button_create. intros H. rewrite H. simpl.
  rewrite H. repeat split.
Qed.

(** ** Registering with a kind outside 1..5 *)

(** The [switch] on the kind takes its [default] outside 1..5. *)
Lemma kind_default {A : Type} (k : Z) (a1 a2 a3 a4 a5 d : A) :
  ~ (1 <= k <= 5) ->
  match k with 1 => a1 | 2 => a2 | 3 => a3 | 4 => a4 | 5 => a5 | _ => d end = d.
Proof.
  intros Hk. destruct k as [|p|p]; [reflexivity| |reflexivity].
  destruct p as [[[|p|]|[|p|]|]|[[|p|]|[|p|]|]|]; try reflexivity; lia.
Qed.

(** C6: on a registered pin, [adv_button_register_callback_fn] with a kind
    that is none of 1..5 returns -2 (InvalidKind) and the state it was given,
    so none of the five slots of the button changes; -2 is not the -1
    (NotFound) returned, with the state unchanged as well, for a pin that is
    not registered. *)
Theorem register_invalid_kind (g : Z) (cb : button_callback_fn) (k : Z)
        (st : state) (b : adv_button_t) :
  registered g st = Some b ->
  ~ (1 <= k <= 5) ->
  adv_button_register_callback_fn g cb k st = (-2, st)
  /\ registered g (snd (adv_button_register_callback_fn g cb k st)) = Some b
  /\ (forall g' cb' k', registered g' st = None ->
        adv_button_register_callback_fn g' cb' k' st = (-1, st))
  /\ -2 <> -1.
Proof.
  intros H Hk.
  assert (E : adv_button_register_callback_fn g cb k st = (-2, st)).
  { unfold adv_button_register_callback_fn. unfold registered in H.
    rewrite H. now apply kind_default. }
  rewrite E. simpl. repeat split; try assumption; try lia.
  intros g' cb' k' H'. unfold adv_button_register_callback_fn.
  unfold registered in H'. now rewrite H'.
Qed.

(** ** The hold timer *)

Lemma hold_callback_pressed (button : adv_button_t) (st : state) :
  gpio_read (gpio button) st = false ->
  adv_button_hold_callback button st =
  Ok (set_press_count 0 button,
      set_dispatched (dispatched st ++ [(hold_handler button, gpio button)]) st).
Proof.
  unfold adv_button_hold_callback, hold_handler. intros ->. simpl.
  now destruct (holdpress_callback_fn button).
Qed.

Lemma hold_callback_released (button : adv_button_t) (st : state) :
  gpio_read (gpio button) st = true ->
  adv_button_hold_callback button st = Ok (button, st).
Proof. unfold adv_button_hold_callback. now intros ->. Qed.

(** The same at the level of events: the hold timer of a registered button
    fires. *)
Lemma hold_event_pressed (tick_ms : Z) (fuel : nat) (g : Z) (st : state)
      (b : adv_button_t) :
  registered g st = Some b ->
  gpio_read g st = false ->
  exists st',
    step tick_ms fuel (HoldTimer g) st = Ok st'
    /\ dispatched_since st st' [(hold_handler b, g)]
    /\ registered g st' = Some (set_press_count 0 b).
Proof.
  intros Hreg Hlow. pose proof (find_gpio _ _ _ Hreg) as Hg.
  unfold registered in *. simpl. unfold timer_fires. rewrite Hreg.
  rewrite hold_callback_pressed by now rewrite Hg.
  simpl. eexists. split; [reflexivity|]. split.
  - unfold dispatched_since. simpl. now rewrite Hg.
  - simpl. apply find_store_same; [exact Hg|]. rewrite Hreg. discriminate.
Qed.

Lemma hold_event_released (tick_ms : Z) (fuel : nat) (g : Z) (st : state)
      (b : adv_button_t) :
  registered g st = Some b ->
  gpio_read g st = true ->
  step tick_ms fuel (HoldTimer g) st = Ok st.
Proof.
  intros Hreg Hhigh. pose proof (find_gpio _ _ _ Hreg) as Hg.
  simpl. unfold timer_fires. unfold registered in Hreg. rewrite Hreg.
  rewrite hold_callback_released by now rewrite Hg.
  simpl. now rewrite write_found_same.
Qed.

(** C8: when the hold timer's function runs, the pin of its button is read
    again.  If it reads low (pressed), [press_count] becomes 0 and exactly one
    handler is called with the pin: the hold-press handler if one is bound,
    [no_function_callback] otherwise.  If it reads high, the button and the
    state are returned as they were: nothing is called, nothing changes. *)
Theorem hold_timer_fire (button : adv_button_t) (st : state) :
  (gpio_read (gpio button) st = false ->
   exists st',
     adv_button_hold_callback button st = Ok (set_press_count 0 button, st')
     /\ press_count (set_press_count 0 button) = 0
     /\ dispatched_since st st' [(hold_handler button, gpio button)]
     /\ (holdpress_callback_fn button = None ->
         hold_handler button = no_function_callback)
     /\ (forall f, holdpress_callback_fn button = Some f ->
         hold_handler button = f))
  /\ (gpio_read (gpio button) st = true ->
      adv_button_hold_callback button st = Ok (button, st)).
Proof.
  split; intros H.
  - rewrite (hold_callback_pressed _ _ H). eexists.
    split; [reflexivity|]. unfold dispatched_since, hold_handler. simpl.
    repeat split.
    + now intros ->.
    + now intros f ->.
  - now apply hold_callback_released.
Qed.

(** ** The release classifier *)

(** The source compares ticks with a threshold in milliseconds divided by the
    tick period; that is a strict comparison of milliseconds. *)
Lemma over_threshold (tick_ms T e : Z) :
  0 < tick_ms -> (e >? T / tick_ms) = (T <? e * tick_ms).
Proof.
  intros HP. rewrite Z.gtb_ltb.
  destruct (T <? e * tick_ms) eqn:E.
  - apply Z.ltb_lt in E. apply Z.ltb_lt.
    apply Z.div_lt_upper_bound; lia.
  - apply Z.ltb_ge in E. apply Z.ltb_ge.
    apply Z.div_le_lower_bound; lia.
Qed.

(** Opens [push_up_timer_callback] at a confirmed release and rewrites the
    two threshold tests to milliseconds. *)
Ltac open_release HP Hrel :=
  let Hreg := fresh "Hreg" in
  let Hhigh := fresh "Hhigh" in
  let Hg := fresh "Hg" in
  destruct Hrel as [Hreg Hhigh];
  pose proof (find_gpio _ _ _ Hreg) as Hg;
  unfold push_up_timer_callback, dispatched_since, registered, gpio_read,
    elapsed_ms, elapsed_ticks, xTaskGetTickCountFromISR in *;
  simpl; rewrite Hhigh, Hreg;
  rewrite !(over_threshold _ _ _ HP).

Ltac close_release Hreg Hg :=
  eexists; split; [reflexivity|]; split; [reflexivity|];
  simpl; apply find_store_same; [exact Hg|rewrite Hreg; discriminate].

Lemma push_up_very_long (tick_ms : Z) (st : state) (b : adv_button_t)
      (s : callback) :
  0 < tick_ms ->
  confirmed_release st b ->
  singlepress_callback_fn b = Some s ->
  VERYLONGPRESS_TIME < elapsed_ms tick_ms st b ->
  exists st',
    push_up_timer_callback tick_ms st = Ok st'
    /\ dispatched_since st st' [(very_long_handler b s, used_gpio st)]
    /\ registered (used_gpio st) st' = Some (set_press_count 0 (released b)).
Proof.
  intros HP Hrel Hs Hlong. open_release HP Hrel.
  apply Z.ltb_lt in Hlong. rewrite Hlong.
  unfold very_long_handler, long_handler.
  destruct (verylongpress_callback_fn b);
    [|destruct (longpress_callback_fn b); [|rewrite Hs]];
    simpl; close_release Hreg Hg.
Qed.

Lemma push_up_long (tick_ms : Z) (st : state) (b : adv_button_t)
      (s : callback) :
  0 < tick_ms ->
  confirmed_release st b ->
  singlepress_callback_fn b = Some s ->
  LONGPRESS_TIME < elapsed_ms tick_ms st b <= VERYLONGPRESS_TIME ->
  exists st',
    push_up_timer_callback tick_ms st = Ok st'
    /\ dispatched_since st st' [(long_handler b s, used_gpio st)]
    /\ registered (used_gpio st) st' = Some (set_press_count 0 (released b)).
Proof.
  intros HP Hrel Hs [Hlong Hvery]. open_release HP Hrel.
  apply Z.ltb_lt in Hlong. apply Z.ltb_ge in Hvery. rewrite Hlong, Hvery.
  unfold long_handler.
  destruct (longpress_callback_fn b); [|rewrite Hs];
    simpl; close_release Hreg Hg.
Qed.

Lemma push_up_short_single (tick_ms : Z) (st : state) (b : adv_button_t)
      (s : callback) :
  0 < tick_ms ->
  confirmed_release st b ->
  singlepress_callback_fn b = Some s ->
  elapsed_ms tick_ms st b <= LONGPRESS_TIME ->
  doublepress_callback_fn b = None ->
  exists st',
    push_up_timer_callback tick_ms st = Ok st'
    /\ dispatched_since st st' [(s, used_gpio st)]
    /\ registered (used_gpio st) st' = Some (released b).
Proof.
  intros HP Hrel Hs Hshort Hd. open_release HP Hrel.
  assert (Hvery : (VERYLONGPRESS_TIME <?
                   uint32 (tick_count st - last_event_time b) * tick_ms) = false)
    by (apply Z.ltb_ge; unfold VERYLONGPRESS_TIME, LONGPRESS_TIME in *; lia).
  apply Z.ltb_ge in Hshort. rewrite Hvery, Hshort, Hd, Hs.
  simpl; close_release Hreg Hg.
Qed.

Lemma push_up_short_double (tick_ms : Z) (st : state) (b : adv_button_t)
      (d : callback) :
  0 < tick_ms ->
  confirmed_release st b ->
  elapsed_ms tick_ms st b <= LONGPRESS_TIME ->
  doublepress_callback_fn b = Some d ->
  exists st',
    push_up_timer_callback tick_ms st = Ok st'
    /\ (if uint8 (press_count b + 1) >? 1 then
          dispatched_since st st' [(d, used_gpio st)]
          /\ registered (used_gpio st) st' =
             Some (set_press_count 0
                     (set_press_timer (sdk_os_timer_disarm (press_timer b))
                        (released b)))
        else
          dispatched_since st st' []
          /\ registered (used_gpio st) st' =
             Some (set_press_timer
                     (sdk_os_timer_arm DOUBLEPRESS_TIME (press_timer b))
                     (set_press_count (uint8 (press_count b + 1))
                        (released b)))).
Proof.
  intros HP Hrel Hshort Hd. open_release HP Hrel.
  assert (Hvery : (VERYLONGPRESS_TIME <?
                   uint32 (tick_count st - last_event_time b) * tick_ms) = false)
    by (apply Z.ltb_ge; unfold VERYLONGPRESS_TIME, LONGPRESS_TIME in *; lia).
  apply Z.ltb_ge in Hshort. rewrite Hvery, Hshort, Hd.
  destruct (uint8 (press_count b + 1) >? 1); simpl;
    (eexists; split; [reflexivity|]; split;
     [now rewrite ?app_nil_r|
      simpl; apply find_store_same; [exact Hg|rewrite Hreg; discriminate]]).
Qed.

(** C2, as amended: on a confirmed release of a button whose single-press
    slot is bound, with elapsed the 32-bit tick difference between now and
    [last_event_time] taken in milliseconds: if elapsed > 1200 the very-long
    handler is called if bound, else the long handler if bound, else the
    single handler; else if elapsed > 450 the long handler is called if bound,
    else the single handler.  In both cases exactly one call is made, with the
    pin, and [press_count] is 0 afterwards. *)
Theorem release_long_or_very_long (tick_ms : Z) (st : state)
        (b : adv_button_t) (s : callback) :
  0 < tick_ms ->
  confirmed_release st b ->
  singlepress_callback_fn b = Some s ->
  (VERYLONGPRESS_TIME < elapsed_ms tick_ms st b ->
   exists st' b',
     push_up_timer_callback tick_ms st = Ok st'
     /\ dispatched_since st st' [(very_long_handler b s, used_gpio st)]
     /\ registered (used_gpio st) st' = Some b'
     /\ press_count b' = 0)
  /\ (LONGPRESS_TIME < elapsed_ms tick_ms st b <= VERYLONGPRESS_TIME ->
      exists st' b',
        push_up_timer_callback tick_ms st = Ok st'
        /\ dispatched_since st st' [(long_handler b s, used_gpio st)]
        /\ registered (used_gpio st) st' = Some b'
        /\ press_count b' = 0).
Proof.
  intros HP Hrel Hs. split; intros He.
  - destruct (push_up_very_long _ _ _ _ HP Hrel Hs He) as (st' & E & Hd & Hb).
    exists st', (set_press_count 0 (released b)). now repeat split.
  - destruct (push_up_long _ _ _ _ HP Hrel Hs He) as (st' & E & Hd & Hb).
    exists st', (set_press_count 0 (released b)). now repeat split.
Qed.

Lemma release_long_or_very_long_witness :
  0 < 10
  /\ confirmed_release (state_after 10 (press_and_release 1121)) pin7_pressed
  /\ singlepress_callback_fn pin7_pressed = Some (user_callback 1)
  /\ VERYLONGPRESS_TIME
       < elapsed_ms 10 (state_after 10 (press_and_release 1121)) pin7_pressed
  /\ exists st' b',
       push_up_timer_callback 10 (state_after 10 (press_and_release 1121))
         = Ok st'
       /\ dispatched_since (state_after 10 (press_and_release 1121)) st'
            [(user_callback 4, 7)]
       /\ registered 7 st' = Some b'
       /\ press_count b' = 0.
Proof.
  assert (HP : 0 < 10) by lia.
  assert (Hrel : confirmed_release (state_after 10 (press_and_release 1121))
                   pin7_pressed) by (split; reflexivity).
  assert (He : VERYLONGPRESS_TIME
               < elapsed_ms 10 (state_after 10 (press_and_release 1121))
                   pin7_pressed) by (vm_compute; reflexivity).
  split; [exact HP|]. split; [exact Hrel|]. split; [reflexivity|].
  split; [exact He|].
  exact (proj1 (release_long_or_very_long 10 _ _ _ HP Hrel eq_refl) He).
Defined.

(** C2 as stated fails at the thresholds themselves.  With ticks of 10 ms and
    handlers 1 (single), 3 (long) and 4 (very long) on pin 7: a release
    confirmed 1200 ms after the press calls the long handler 3, not the
    very-long handler 4 the claim asks for from 1200 ms on; a release
    confirmed 450 ms after the press calls the single handler 1, not the long
    handler 3 the claim asks for from 450 ms on. *)
Lemma release_at_threshold_counterexample :
  (run 10 2 (press_and_release 1120) initial_state
     = Ok (state_after 10 (press_and_release 1120))
   /\ confirmed_release (state_after 10 (press_and_release 1120)) pin7_pressed
   /\ elapsed_ms 10 (state_after 10 (press_and_release 1120)) pin7_pressed
        >= VERYLONGPRESS_TIME
   /\ very_long_handler pin7_pressed (user_callback 1) = user_callback 4
   /\ exists st',
        push_up_timer_callback 10 (state_after 10 (press_and_release 1120))
          = Ok st'
        /\ dispatched_since (state_after 10 (press_and_release 1120)) st'
             [(user_callback 3, 7)]
        /\ ~ dispatched_since (state_after 10 (press_and_release 1120)) st'
               [(user_callback 4, 7)])
  /\ (run 10 2 (press_and_release 1045) initial_state
        = Ok (state_after 10 (press_and_release 1045))
      /\ confirmed_release (state_after 10 (press_and_release 1045))
           pin7_pressed
      /\ LONGPRESS_TIME
           <= elapsed_ms 10 (state_after 10 (press_and_release 1045))
                pin7_pressed
           < VERYLONGPRESS_TIME
      /\ long_handler pin7_pressed (user_callback 1) = user_callback 3
      /\ exists st',
           push_up_timer_callback 10 (state_after 10 (press_and_release 1045))
             = Ok st'
           /\ dispatched_since (state_after 10 (press_and_release 1045)) st'
                [(user_callback 1, 7)]
           /\ ~ dispatched_since (state_after 10 (press_and_release 1045)) st'
                  [(user_callback 3, 7)]).
Proof.
  split.
  - split; [vm_compute; reflexivity|]. split; [split; vm_compute; reflexivity|].
    split; [vm_compute; discriminate|]. split; [reflexivity|].
    exists (state_after 10 (press_and_release 1120 ++ [UpDebounce])).
    split; [|split]; vm_compute; (reflexivity || discriminate).
  - split; [vm_compute; reflexivity|]. split; [split; vm_compute; reflexivity|].
    split; [split; vm_compute; [discriminate|reflexivity]|].
    split; [reflexivity|].
    exists (state_after 10 (press_and_release 1045 ++ [UpDebounce])).
    split; [|split]; vm_compute; (reflexivity || discriminate).
Qed.

(** ** Timelines of events *)

Lemma run_app (tick_ms : Z) (fuel : nat) (es1 es2 : list event) (st : state) :
  run tick_ms fuel (es1 ++ es2) st =
  (st1 <- run tick_ms fuel es1 st ;; run tick_ms fuel es2 st1).
Proof.
  revert st. induction es1 as [|e es1 IH]; intros st; simpl; [reflexivity|].
  destruct (step tick_ms fuel e st); simpl; auto.
Qed.


(** What the events of a timeline leave alone. *)
Lemma edge_registered (g : Z) (st : state) (b : adv_button_t) :
  registered g st = Some b ->
  buttons (adv_button_intr_callback g st) = buttons st
  /\ used_gpio (adv_button_intr_callback g st) = g
  /\ gpio_level (adv_button_intr_callback g st) = gpio_level st
  /\ tick_count (adv_button_intr_callback g st) = tick_count st
  /\ dispatched (adv_button_intr_callback g st) = dispatched st.
Proof.
  unfold registered, adv_button_intr_callback. intros ->.
  destruct (gpio_read _ _); repeat split.
Qed.

Lemma push_down_confirmed (st : state) (b : adv_button_t) :
  registered (used_gpio st) st = Some b ->
  gpio_read (used_gpio st) st = false ->
  exists st',
    push_down_timer_callback st = Ok st'
    /\ registered (used_gpio st) st' = Some (pressed_at (tick_count st) b)
    /\ used_gpio st' = used_gpio st
    /\ gpio_level st' = gpio_level st
    /\ tick_count st' = tick_count st
    /\ dispatched st' = dispatched st.
Proof.
  intros Hreg Hlow. pose proof (find_gpio _ _ _ Hreg) as Hg.
  unfold push_down_timer_callback, registered, gpio_read in *. simpl.
  rewrite Hlow, Hreg. simpl. eexists. split; [reflexivity|].
  split; [|repeat split].
  simpl. apply find_store_same; [exact Hg|rewrite Hreg; discriminate].
Qed.

Lemma press_and_release_edges_run (tick_ms : Z) (fuel : nat) (g t0 t1 : Z)
      (st : state) (b : adv_button_t) :
  registered g st = Some b ->
  exists st1,
    run tick_ms fuel (press_and_release_edges g t0 t1) st = Ok st1
    /\ confirmed_release st1 (pressed_at (uint32 t0) b)
    /\ used_gpio st1 = g
    /\ tick_count st1 = uint32 t1
    /\ dispatched st1 = dispatched st.
Proof.
  intros Hreg.
  unfold press_and_release_edges.
  set (s1 := set_tick_count (uint32 t0)
               (set_gpio_level (upd (gpio_level st) g false) st)).
  assert (Hreg1 : registered g s1 = Some b) by exact Hreg.
  destruct (edge_registered g s1 b Hreg1) as (Eb & Eu & El & Et & Ed).
  destruct (push_down_confirmed (adv_button_intr_callback g s1) b)
    as (s2 & E2 & Hreg2 & Eu2 & El2 & Et2 & Ed2).
  { unfold registered. now rewrite Eu, Eb. }
  { unfold gpio_read. rewrite Eu, El. simpl. unfold upd.
    now rewrite Z.eqb_refl. }
  rewrite Eu in Hreg2, Eu2. rewrite Et in Hreg2.
  set (s3 := set_tick_count (uint32 t1)
               (set_gpio_level (upd (gpio_level s2) g true) s2)).
  assert (Hreg3 : registered g s3 = Some (pressed_at (uint32 t0) b))
    by exact Hreg2.
  destruct (edge_registered g s3 _ Hreg3) as (Eb3 & Eu3 & El3 & Et3 & Ed3).
  exists (adv_button_intr_callback g s3).
  split.
  - cbn [run step bind]. fold s1. rewrite E2. cbn [bind]. reflexivity.
  - split; [split|].
    + unfold registered. now rewrite Eu3, Eb3.
    + unfold gpio_read. rewrite Eu3, El3. simpl. unfold upd.
      now rewrite Z.eqb_refl.
    + split; [exact Eu3|]. split; [now rewrite Et3|].
      rewrite Ed3. simpl. rewrite Ed2, Ed. reflexivity.
Qed.

Lemma uint32_diff (t0 t1 : Z) :
  0 <= t0 <= t1 -> t1 < 2 ^ 32 -> uint32 (uint32 t1 - uint32 t0) = t1 - t0.
Proof.
  intros H0 H1. unfold uint32.
  rewrite (Z.mod_small t1), (Z.mod_small t0), Z.mod_small; lia.
Qed.

(** A press and a short release of a button with a double-press handler, from
    a state where its [press_count] is [n]. *)
Lemma short_pair_run (tick_ms : Z) (fuel : nat) (g t0 t1 : Z) (st : state)
      (b : adv_button_t) (d : callback) :
  0 < tick_ms ->
  registered g st = Some b ->
  doublepress_callback_fn b = Some d ->
  0 <= t0 <= t1 -> t1 < 2 ^ 32 ->
  (t1 - t0) * tick_ms < LONGPRESS_TIME ->
  exists st',
    run tick_ms fuel (press_release_pair g t0 t1) st = Ok st'
    /\ (if uint8 (press_count b + 1) >? 1 then
          dispatched_since st st' [(d, g)]
          /\ registered g st' =
             Some (set_press_count 0
                     (set_press_timer (sdk_os_timer_disarm (press_timer b))
                        (released (pressed_at (uint32 t0) b))))
        else
          dispatched_since st st' []
          /\ registered g st' =
             Some (set_press_timer
                     (sdk_os_timer_arm DOUBLEPRESS_TIME (press_timer b))
                     (set_press_count (uint8 (press_count b + 1))
                        (released (pressed_at (uint32 t0) b))))).
Proof.
  intros HP Hreg Hd Ht0 Ht1 Hshort.
  destruct (press_and_release_edges_run tick_ms fuel g t0 t1 st b Hreg)
    as (st1 & E1 & Hrel & Hu & Ht & Hdis).
  destruct (push_up_short_double tick_ms st1 (pressed_at (uint32 t0) b) d HP Hrel)
    as (st' & E' & Hres).
  { unfold elapsed_ms, elapsed_ticks, xTaskGetTickCountFromISR. rewrite Ht.
    simpl. rewrite uint32_diff by assumption. lia. }
  { exact Hd. }
  exists st'. split.
  - unfold press_release_pair. rewrite run_app, E1. simpl. rewrite E'.
    reflexivity.
  - rewrite Hu in Hres. unfold dispatched_since in *. rewrite Hdis in Hres.
    exact Hres.
Qed.

(** C4: on a confirmed release less than 450 ms after the press, of a button
    with a double-press handler [d], [press_count] is incremented (as the
    [uint8_t] it is).  If it is then above 1, the press timer is disarmed,
    [press_count] is 0 and [d] is called once, with the pin, and nothing else
    is called; otherwise nothing is called and the press timer is armed for
    400 ms.  Hence two press/release pairs in a row, each release short, with
    the press timer armed by the first release not having fired in between,
    call [d] once and no other handler when [press_count] was 0 at the
    start. *)
Theorem double_press_dispatch (tick_ms : Z) :
  0 < tick_ms ->
  (forall (st : state) (b : adv_button_t) (d : callback),
      confirmed_release st b ->
      elapsed_ms tick_ms st b < LONGPRESS_TIME ->
      doublepress_callback_fn b = Some d ->
      exists st' b',
        push_up_timer_callback tick_ms st = Ok st'
        /\ registered (used_gpio st) st' = Some b'
        /\ (1 < uint8 (press_count b + 1) ->
            timer_armed (press_timer b') = None
            /\ press_count b' = 0
            /\ dispatched_since st st' [(d, used_gpio st)])
        /\ (uint8 (press_count b + 1) <= 1 ->
            timer_armed (press_timer b') = Some DOUBLEPRESS_TIME
            /\ press_count b' = uint8 (press_count b + 1)
            /\ dispatched_since st st' []))
  /\ (forall (fuel : nat) (st : state) (g : Z) (b : adv_button_t)
             (d : callback) (t0 t1 t2 t3 : Z),
         registered g st = Some b ->
         doublepress_callback_fn b = Some d ->
         press_count b = 0 ->
         0 <= t0 <= t1 -> t1 <= t2 <= t3 -> t3 < 2 ^ 32 ->
         (t1 - t0) * tick_ms < LONGPRESS_TIME ->
         (t3 - t2) * tick_ms < LONGPRESS_TIME ->
         exists st' b',
           run tick_ms fuel
             (press_release_pair g t0 t1 ++ press_release_pair g t2 t3) st
             = Ok st'
           /\ dispatched_since st st' [(d, g)]
           /\ registered g st' = Some b'
           /\ press_count b' = 0
           /\ timer_armed (press_timer b') = None).
Proof.
  intros HP. split.
  - intros st b d Hrel Hshort Hd.
    destruct (push_up_short_double tick_ms st b d HP Hrel) as (st' & E & Hres);
      [lia|exact Hd|].
    destruct (uint8 (press_count b + 1) >? 1) eqn:En;
      destruct Hres as [Hdis Hreg]; eexists; eexists;
      (split; [exact E|]); (split; [exact Hreg|]); split; intros Hn;
      try (apply Z.gtb_lt in En; lia);
      try (rewrite Z.gtb_ltb in En; apply Z.ltb_ge in En; lia);
      now repeat split.
  - intros fuel st g b d t0 t1 t2 t3 Hreg Hd Hpc H01 H23 H3 Hs1 Hs2.
    destruct (short_pair_run tick_ms fuel g t0 t1 st b d)
      as (st1 & E1 & Hres1); try assumption; try lia.
    rewrite Hpc in Hres1. change (uint8 (0 + 1) >? 1) with false in Hres1.
    change (uint8 (0 + 1)) with 1 in Hres1.
    destruct Hres1 as [Hdis1 Hreg1].
    destruct (short_pair_run tick_ms fuel g t2 t3 st1 _ d HP Hreg1)
      as (st2 & E2 & Hres2); try assumption; try lia.
    cbn [press_count set_press_timer set_press_count] in Hres2.
    change (uint8 (1 + 1) >? 1) with true in Hres2.
    destruct Hres2 as [Hdis2 Hreg2].
    eexists; eexists. split; [rewrite run_app, E1; exact E2|].
    split; [|split; [exact Hreg2|split; reflexivity]].
    unfold dispatched_since in *. rewrite Hdis2, Hdis1, app_nil_r.
    reflexivity.
Qed.

Lemma double_press_dispatch_witness :
  0 < 10
  /\ (confirmed_release
        (state_after 10 (single_and_double_bound ++ press_and_release_edges 7 0 5))
        (pressed_at 0 pin7_idle)
      /\ elapsed_ms 10
           (state_after 10
              (single_and_double_bound ++ press_and_release_edges 7 0 5))
           (pressed_at 0 pin7_idle) < LONGPRESS_TIME
      /\ doublepress_callback_fn (pressed_at 0 pin7_idle)
           = Some (user_callback 2)
      /\ exists st' b',
           push_up_timer_callback 10
             (state_after 10
                (single_and_double_bound ++ press_and_release_edges 7 0 5))
             = Ok st'
           /\ registered 7 st' = Some b'
           /\ timer_armed (press_timer b') = Some DOUBLEPRESS_TIME
           /\ press_count b' = 1
           /\ dispatched st' = [])
  /\ (registered 7 (state_after 10 single_and_double_bound) = Some pin7_idle
      /\ doublepress_callback_fn pin7_idle = Some (user_callback 2)
      /\ press_count pin7_idle = 0
      /\ 0 <= 0 <= 5 /\ 5 <= 15 <= 20 /\ 20 < 2 ^ 32
      /\ (5 - 0) * 10 < LONGPRESS_TIME
      /\ (20 - 15) * 10 < LONGPRESS_TIME
      /\ exists st' b',
           run 10 2 (press_release_pair 7 0 5 ++ press_release_pair 7 15 20)
             (state_after 10 single_and_double_bound) = Ok st'
           /\ dispatched st' = [(user_callback 2, 7)]
           /\ registered 7 st' = Some b'
           /\ press_count b' = 0
           /\ timer_armed (press_timer b') = None).
Proof.
  assert (HP : 0 < 10) by lia.
  destruct (double_press_dispatch 10 HP) as [HA HB].
  split; [exact HP|]. split.
  - assert (Hrel : confirmed_release
        (state_after 10 (single_and_double_bound ++ press_and_release_edges 7 0 5))
        (pressed_at 0 pin7_idle)) by (split; vm_compute; reflexivity).
    assert (He : elapsed_ms 10
           (state_after 10
              (single_and_double_bound ++ press_and_release_edges 7 0 5))
           (pressed_at 0 pin7_idle) < LONGPRESS_TIME)
      by (vm_compute; reflexivity).
    split; [exact Hrel|]. split; [exact He|]. split; [reflexivity|].
    destruct (HA _ _ (user_callback 2) Hrel He eq_refl)
      as (st' & b' & E & Hreg & _ & Hfirst).
    destruct Hfirst as (Ht & Hc & Hd); [vm_compute; discriminate|].
    exists st', b'. split; [exact E|]. split; [exact Hreg|].
    split; [exact Ht|]. split; [exact Hc|]. exact Hd.
  - assert (Hreg : registered 7 (state_after 10 single_and_double_bound)
                   = Some pin7_idle) by (vm_compute; reflexivity).
    split; [exact Hreg|]. split; [reflexivity|]. split; [reflexivity|].
    split; [lia|]. split; [lia|]. split; [lia|].
    split; [vm_compute; reflexivity|]. split; [vm_compute; reflexivity|].
    destruct (HB 2%nat _ 7 pin7_idle (user_callback 2) 0 5 15 20 Hreg eq_refl eq_refl)
      as (st' & b' & E & Hd & Hr & Hc & Ht);
      try lia; try (vm_compute; reflexivity).
    exists st', b'. split; [exact E|]. split; [exact Hd|].
    split; [exact Hr|]. split; [exact Hc|exact Ht].
Defined.

(** ** Invariants of the state *)

Lemma call_fn_frame (f : button_callback_fn) (g : Z) (st st' : state) :
  call_fn f g st = Ok st' ->
  buttons st' = buttons st /\ leaked st' = leaked st.
Proof. destruct f; simpl; [intros [= <-]; now split|discriminate]. Qed.

Lemma destroy_loop_unlinks (fuel : nat) (g : Z) (l : list adv_button_t)
      (n : adv_button_t) (rest : list adv_button_t) :
  destroy_loop fuel g l = Ok (Some (n, rest)) -> l = n :: rest /\ gpio n = g.
Proof.
  induction fuel as [|fuel IH]; simpl; [discriminate|].
  destruct l as [|x l]; [discriminate|].
  destruct (gpio x =? g) eqn:E; [|exact IH].
  intros [= <- <-]. split; [reflexivity|now apply Z.eqb_eq].
Qed.

Lemma destroy_loop_nothing (fuel : nat) (g : Z) (l : list adv_button_t) :
  destroy_loop fuel g l = Ok None -> l = [].
Proof.
  induction fuel as [|fuel IH]; simpl; [discriminate|].
  destruct l as [|x l]; [reflexivity|].
  destruct (gpio x =? g); [discriminate|exact IH].
Qed.

Lemma store_ok (g : Z) (b' : adv_button_t) (st : state) :
  button_ok b' -> state_ok st -> state_ok (write_button g b' st).
Proof.
  intros Hb [HB HL]. split; simpl; [now apply store_Forall|exact HL].
Qed.

Lemma create_ok (g : Z) (st : state) :
  state_ok st -> state_ok (snd (adv_button_create g st)).
Proof.
  intros [HB HL]. unfold adv_button_create.
  destruct (button_find_by_gpio g (buttons st)); [now split|].
  assert (Hnew : button_ok
                   (mkButton g (Some no_function_callback) None None None None
                      0 (mkTimer None (Some adv_button_single_callback_fn))
                      (mkTimer None (Some adv_button_hold_callback_fn)) 0)).
  { split; [discriminate|now left]. }
  destruct (buttons st) eqn:Eb; simpl; rewrite ?Eb;
    destruct (g =? 0); unfold state_ok, write_button; simpl;
    rewrite Z.eqb_refl; (split; [constructor; assumption|exact HL]).
Qed.

Lemma register_ok (g : Z) (cb : button_callback_fn) (k : Z) (st : state) :
  state_ok st -> state_ok (snd (adv_button_register_callback_fn g cb k st)).
Proof.
  intros Hok. unfold adv_button_register_callback_fn.
  destruct (button_find_by_gpio g (buttons st)) as [b|] eqn:Hfind;
    [|exact Hok].
  destruct (find_Forall _ _ _ _ (proj1 Hok) Hfind) as [Hs Hc].
  destruct k as [|p|p]; try exact Hok.
  destruct p as [[[|p|]|[|p|]|]|[[|p|]|[|p|]|]|]; try exact Hok;
    try destruct cb; simpl; apply store_ok; try exact Hok;
    split; try exact Hc; try exact Hs; discriminate.
Qed.

Lemma destroy_ok (fuel : nat) (g : Z) (st st' : state) :
  adv_button_destroy fuel g st = Ok st' -> state_ok st -> state_ok st'.
Proof.
  unfold adv_button_destroy. intros H [HB HL].
  destruct (buttons st) as [|head next] eqn:Eb.
  { inversion H; subst. split; [now rewrite Eb|exact HL]. }
  inversion HB as [|? ? Hh Hn]; subst.
  assert (Hdis : forall b, button_ok b ->
            button_ok
              (set_press_timer (sdk_os_timer_disarm (press_timer b))
                 (set_hold_timer (sdk_os_timer_disarm (hold_timer b)) b)))
    by (intros b Hb; exact Hb).
  destruct (gpio head =? g).
  - inversion H; subst. unfold destroy_unlinked.
    destruct (gpio _ =? 0); split; simpl; try exact Hn;
      constructor; auto.
  - destruct (destroy_loop fuel g next) as [[[button next']|]| |] eqn:El;
      simpl in H; try discriminate.
    + apply destroy_loop_unlinks in El. destruct El as [-> _].
      inversion Hn as [|? ? Hb Hn']; subst.
      inversion H; subst. unfold destroy_unlinked.
      destruct (gpio _ =? 0); split; simpl;
        try (constructor; assumption); constructor; auto.
    + inversion H; subst. split; [now rewrite Eb|exact HL].
Qed.

Lemma intr_ok (g : Z) (st : state) :
  state_ok st -> state_ok (adv_button_intr_callback g st).
Proof.
  intros Hok. unfold adv_button_intr_callback.
  destruct (button_find_by_gpio g (buttons st)); [|exact Hok].
  destruct (gpio_read _ _); exact Hok.
Qed.

Lemma push_down_ok (st st' : state) :
  push_down_timer_callback st = Ok st' -> state_ok st -> state_ok st'.
Proof.
  unfold push_down_timer_callback. simpl. intros H Hok.
  destruct (negb _); [|inversion H; subst; exact Hok].
  destruct (button_find_by_gpio _ _) as [b|] eqn:Hfind; [|discriminate].
  destruct (find_Forall _ _ _ _ (proj1 Hok) Hfind) as [Hs Hc].
  inversion H; subst. apply store_ok; [now split|exact Hok].
Qed.

Lemma count_after_increment (n : Z) :
  n = 0 \/ n = 1 ->
  (uint8 (n + 1) >? 1) = false -> uint8 (n + 1) = 0 \/ uint8 (n + 1) = 1.
Proof. intros [-> | ->]; [now right|discriminate]. Qed.

Lemma set_dispatched_ok (l : list (callback * Z)) (st : state) :
  state_ok st -> state_ok (set_dispatched l st).
Proof. intros H. exact H. Qed.

Lemma push_up_ok (tick_ms : Z) (st st' : state) :
  push_up_timer_callback tick_ms st = Ok st' -> state_ok st -> state_ok st'.
Proof.
  unfold push_up_timer_callback, call_fn. cbv zeta. intros H Hok.
  destruct (gpio_read _ _); [|inversion H; subst; exact Hok].
  destruct (button_find_by_gpio _ _) as [b|] eqn:Hfind; [|discriminate].
  change (button_find_by_gpio (used_gpio st) (buttons st) = Some b) in Hfind.
  destruct (find_Forall _ _ _ _ (proj1 Hok) Hfind) as [Hs Hc].
  repeat match type of H with
         | context [if ?c then _ else _] => destruct c eqn:?
         | context [match ?x with Some _ => _ | None => _ end] =>
             destruct x eqn:?
         end;
    try discriminate; inversion H; subst; clear H;
    try apply set_dispatched_ok; (apply store_ok; [|exact Hok]);
    (split; [exact Hs|]);
    first [now left | exact Hc
          | unfold count_small; simpl; now apply count_after_increment].
Qed.

Lemma timer_fires_single_ok (g : Z) (st st' : state) :
  timer_fires adv_button_single_callback g st = Ok st' ->
  state_ok st -> state_ok st'.
Proof.
  unfold timer_fires, adv_button_single_callback. intros H Hok.
  destruct (button_find_by_gpio _ _) as [b|] eqn:Hfind;
    [|inversion H; subst; exact Hok].
  destruct (find_Forall _ _ _ _ (proj1 Hok) Hfind) as [Hs Hc].
  simpl in H. destruct (singlepress_callback_fn b) eqn:E; [|discriminate].
  inversion H; subst. apply store_ok; [|exact Hok].
  split; [unfold single_bound; simpl; now rewrite E|now left].
Qed.

Lemma timer_fires_hold_ok (g : Z) (st st' : state) :
  timer_fires adv_button_hold_callback g st = Ok st' ->
  state_ok st -> state_ok st'.
Proof.
  unfold timer_fires, adv_button_hold_callback. intros H Hok.
  destruct (button_find_by_gpio _ _) as [b|] eqn:Hfind;
    [|inversion H; subst; exact Hok].
  destruct (find_Forall _ _ _ _ (proj1 Hok) Hfind) as [Hs Hc].
  destruct (negb _); simpl in H; [destruct (holdpress_callback_fn b)|];
    inversion H; subst; apply store_ok; try exact Hok;
    split; try exact Hs; try exact Hc; now left.
Qed.

Lemma step_ok (tick_ms : Z) (fuel : nat) (e : event) (st st' : state) :
  step tick_ms fuel e st = Ok st' -> state_ok st -> state_ok st'.
Proof.
  destruct e; simpl; intros H Hok;
    try (inversion H; subst; clear H).
  - now apply create_ok.
  - now apply register_ok.
  - eapply destroy_ok; eassumption.
  - now apply intr_ok.
  - eapply push_down_ok; eassumption.
  - eapply push_up_ok; eassumption.
  - eapply timer_fires_single_ok; eassumption.
  - eapply timer_fires_hold_ok; eassumption.
  - exact Hok.
  - exact Hok.
Qed.

Lemma run_ok (tick_ms : Z) (fuel : nat) (es : list event) (st st' : state) :
  run tick_ms fuel es st = Ok st' -> state_ok st -> state_ok st'.
Proof.
  revert st. induction es as [|e es IH]; simpl; intros st H Hok.
  - now inversion H; subst.
  - destruct (step tick_ms fuel e st) as [s1| |] eqn:E; try discriminate.
    simpl in H. eapply IH; [exact H|]. eapply step_ok; eassumption.
Qed.

Lemma initial_ok : state_ok initial_state.
Proof. split; constructor. Qed.

Lemma press_timer_event (tick_ms : Z) (fuel : nat) (g : Z) (st : state)
      (b : adv_button_t) (s : callback) :
  registered g st = Some b ->
  singlepress_callback_fn b = Some s ->
  exists st',
    step tick_ms fuel (PressTimer g) st = Ok st'
    /\ dispatched_since st st' [(s, g)]
    /\ registered g st' = Some (set_press_count 0 b).
Proof.
  intros Hreg Hs. pose proof (find_gpio _ _ _ Hreg) as Hg.
  unfold registered in Hreg. simpl.
  unfold timer_fires, adv_button_single_callback, call_fn. rewrite Hreg.
  simpl. rewrite Hs. simpl. eexists. split; [reflexivity|]. split.
  - unfold dispatched_since. simpl. now rewrite Hg.
  - unfold registered. simpl.
    apply find_store_same; [exact Hg|rewrite Hreg; discriminate].
Qed.

(** C9: after any sequence of events from start-up that the code runs
    through (creations, registrations, destructions, edges, debounce, press
    and hold timer fires, changes of pin levels and of the tick count), the
    [press_count] of every button, in the registry or unlinked from it, is 0
    or 1.  In such a state the one place that increments it, a confirmed
    short release of a button with a double-press handler, takes it from 0 to
    1 calling nothing and arming the press timer, and from 1 back to 0
    calling the double-press handler once; and every other path that writes
    it ends with it at 0 after one call: a confirmed release more than 450 ms
    after the press, the fire of the press timer, and the fire of the hold
    timer while the pin is low. *)
Theorem press_count_zero_or_one (tick_ms : Z) (fuel : nat) (es : list event)
        (st : state) :
  run tick_ms fuel es initial_state = Ok st ->
  (forall b,
      In b (buttons st) \/ In b (leaked st) ->
      press_count b = 0 \/ press_count b = 1)
  /\ (forall b d,
         0 < tick_ms ->
         confirmed_release st b ->
         elapsed_ms tick_ms st b <= LONGPRESS_TIME ->
         doublepress_callback_fn b = Some d ->
         exists st' b',
           push_up_timer_callback tick_ms st = Ok st'
           /\ registered (used_gpio st) st' = Some b'
           /\ (press_count b = 0 ->
               press_count b' = 1
               /\ timer_armed (press_timer b') = Some DOUBLEPRESS_TIME
               /\ dispatched_since st st' [])
           /\ (press_count b = 1 ->
               press_count b' = 0
               /\ timer_armed (press_timer b') = None
               /\ dispatched_since st st' [(d, used_gpio st)]))
  /\ (forall b,
         0 < tick_ms ->
         confirmed_release st b ->
         LONGPRESS_TIME < elapsed_ms tick_ms st b ->
         exists st' b' h,
           push_up_timer_callback tick_ms st = Ok st'
           /\ registered (used_gpio st) st' = Some b'
           /\ press_count b' = 0
           /\ dispatched_since st st' [(h, used_gpio st)])
  /\ (forall g b,
         registered g st = Some b ->
         exists st' b' s,
           singlepress_callback_fn b = Some s
           /\ step tick_ms fuel (PressTimer g) st = Ok st'
           /\ registered g st' = Some b'
           /\ press_count b' = 0
           /\ dispatched_since st st' [(s, g)])
  /\ (forall g b,
         registered g st = Some b ->
         gpio_read g st = false ->
         exists st' b',
           step tick_ms fuel (HoldTimer g) st = Ok st'
           /\ registered g st' = Some b'
           /\ press_count b' = 0
           /\ dispatched_since st st' [(hold_handler b, g)]).
Proof.
  intros Hrun.
  destruct (run_ok _ _ _ _ _ Hrun initial_ok) as [HB HL].
  assert (Hsingle : forall g b, registered g st = Some b ->
                                exists s, singlepress_callback_fn b = Some s).
  { intros g b Hreg.
    destruct (find_Forall _ _ _ _ HB Hreg) as [Hs _]. unfold single_bound in Hs.
    destruct (singlepress_callback_fn b) as [s|]; [now exists s|congruence]. }
  split; [|split; [|split; [|split]]].
  - intros b Hin. rewrite Forall_forall in HB, HL.
    destruct Hin as [Hin|Hin];
      [exact (proj2 (HB b Hin))|exact (proj2 (HL b Hin))].
  - intros b d HP Hrel Hshort Hd.
    destruct (push_up_short_double tick_ms st b d HP Hrel Hshort Hd)
      as (st' & E & Hres).
    destruct (press_count b =? 0) eqn:E0.
    + apply Z.eqb_eq in E0. rewrite E0 in Hres.
      change (uint8 (0 + 1) >? 1) with false in Hres.
      destruct Hres as [Hdis Hreg].
      eexists; eexists. split; [exact E|]. split; [exact Hreg|]. split.
      * intros _. split; [reflexivity|]. split; [reflexivity|exact Hdis].
      * intros H1. rewrite E0 in H1. discriminate.
    + apply Z.eqb_neq in E0.
      destruct (find_Forall _ _ _ _ HB (proj1 Hrel)) as [_ [Hc|Hc]];
        [contradiction|].
      rewrite Hc in Hres. change (uint8 (1 + 1) >? 1) with true in Hres.
      destruct Hres as [Hdis Hreg].
      eexists; eexists. split; [exact E|]. split; [exact Hreg|]. split.
      * intros H0. contradiction.
      * intros _. split; [reflexivity|]. split; [reflexivity|exact Hdis].
  - intros b HP Hrel Hlong.
    destruct (Hsingle _ _ (proj1 Hrel)) as [s Hs].
    destruct (Z_lt_le_dec VERYLONGPRESS_TIME (elapsed_ms tick_ms st b))
      as [Hvery|Hvery].
    + destruct (push_up_very_long tick_ms st b s HP Hrel Hs Hvery)
        as (st' & E & Hdis & Hreg).
      exists st', (set_press_count 0 (released b)), (very_long_handler b s).
      now repeat split.
    + destruct (push_up_long tick_ms st b s HP Hrel Hs (conj Hlong Hvery))
        as (st' & E & Hdis & Hreg).
      exists st', (set_press_count 0 (released b)), (long_handler b s).
      now repeat split.
  - intros g b Hreg. destruct (Hsingle g b Hreg) as [s Hs].
    destruct (press_timer_event tick_ms fuel g st b s Hreg Hs)
      as (st' & E & Hdis & Hreg').
    exists st', (set_press_count 0 b), s. now repeat split.
  - intros g b Hreg Hlow.
    destruct (hold_event_pressed tick_ms fuel g st b Hreg Hlow)
      as (st' & E & Hdis & Hreg').
    exists st', (set_press_count 0 b). now repeat split.
Qed.

Lemma press_count_zero_or_one_witness :
  (run 10 2 (single_and_double_bound ++ press_release_pair 7 0 5) initial_state
     = Ok (state_after 10 (single_and_double_bound ++ press_release_pair 7 0 5))
   /\ In pin7_waiting
        (buttons
           (state_after 10 (single_and_double_bound ++ press_release_pair 7 0 5)))
   /\ (press_count pin7_waiting = 0 \/ press_count pin7_waiting = 1)
   /\ registered 7
        (state_after 10 (single_and_double_bound ++ press_release_pair 7 0 5))
      = Some pin7_waiting
   /\ exists st' b',
        step 10 2 (PressTimer 7)
          (state_after 10 (single_and_double_bound ++ press_release_pair 7 0 5))
        = Ok st'
        /\ registered 7 st' = Some b'
        /\ press_count b' = 0
        /\ dispatched st' = [(user_callback 1, 7)])
  /\ (run 10 2
        (single_and_double_bound ++ press_release_pair 7 0 5
           ++ press_and_release_edges 7 15 20) initial_state
      = Ok (state_after 10
              (single_and_double_bound ++ press_release_pair 7 0 5
                 ++ press_and_release_edges 7 15 20))
      /\ 0 < 10
      /\ confirmed_release
           (state_after 10
              (single_and_double_bound ++ press_release_pair 7 0 5
                 ++ press_and_release_edges 7 15 20))
           (pressed_at 15 pin7_waiting)
      /\ elapsed_ms 10
           (state_after 10
              (single_and_double_bound ++ press_release_pair 7 0 5
                 ++ press_and_release_edges 7 15 20))
           (pressed_at 15 pin7_waiting) <= LONGPRESS_TIME
      /\ doublepress_callback_fn (pressed_at 15 pin7_waiting)
         = Some (user_callback 2)
      /\ press_count (pressed_at 15 pin7_waiting) = 1
      /\ exists st' b',
           push_up_timer_callback 10
             (state_after 10
                (single_and_double_bound ++ press_release_pair 7 0 5
                   ++ press_and_release_edges 7 15 20)) = Ok st'
           /\ registered 7 st' = Some b'
           /\ press_count b' = 0
           /\ timer_armed (press_timer b') = None
           /\ dispatched st' = [(user_callback 2, 7)])
  /\ (run 10 2 (single_only_release 1060) initial_state
      = Ok (state_after 10 (single_only_release 1060))
      /\ confirmed_release (state_after 10 (single_only_release 1060))
           pin7_single_only
      /\ LONGPRESS_TIME
           < elapsed_ms 10 (state_after 10 (single_only_release 1060))
               pin7_single_only
      /\ exists st' b',
           push_up_timer_callback 10 (state_after 10 (single_only_release 1060))
           = Ok st'
           /\ registered 7 st' = Some b'
           /\ press_count b' = 0)
  /\ (run 10 2 single_only_press initial_state
      = Ok (state_after 10 single_only_press)
      /\ registered 7 (state_after 10 single_only_press) = Some pin7_single_only
      /\ gpio_read 7 (state_after 10 single_only_press) = false
      /\ exists st' b',
           step 10 2 (HoldTimer 7) (state_after 10 single_only_press) = Ok st'
           /\ registered 7 st' = Some b'
           /\ press_count b' = 0
           /\ dispatched st' = [(no_function_callback, 7)]).
Proof.
  assert (HP : 0 < 10) by lia.
  split; [|split; [|split]].
  - assert (Hrun : run 10 2 (single_and_double_bound ++ press_release_pair 7 0 5)
                     initial_state
                   = Ok (state_after 10
                           (single_and_double_bound ++ press_release_pair 7 0 5)))
      by (vm_compute; reflexivity).
    assert (Hin : In pin7_waiting
                    (buttons
                       (state_after 10
                          (single_and_double_bound ++ press_release_pair 7 0 5))))
      by (vm_compute; left; reflexivity).
    assert (Hreg : registered 7
                     (state_after 10
                        (single_and_double_bound ++ press_release_pair 7 0 5))
                   = Some pin7_waiting) by (vm_compute; reflexivity).
    destruct (press_count_zero_or_one 10 2 _ _ Hrun)
      as (Hcount & _ & _ & Htimer & _).
    split; [exact Hrun|]. split; [exact Hin|].
    split; [exact (Hcount pin7_waiting (or_introl Hin))|].
    split; [exact Hreg|].
    destruct (Htimer 7 pin7_waiting Hreg) as (st' & b' & s & Hs & E & Hr & Hc & Hd).
    exists st', b'. split; [exact E|]. split; [exact Hr|]. split; [exact Hc|].
    injection Hs as <-. exact Hd.
  - assert (Hrun : run 10 2
                     (single_and_double_bound ++ press_release_pair 7 0 5
                        ++ press_and_release_edges 7 15 20) initial_state
                   = Ok (state_after 10
                           (single_and_double_bound ++ press_release_pair 7 0 5
                              ++ press_and_release_edges 7 15 20)))
      by (vm_compute; reflexivity).
    assert (Hrel : confirmed_release
                     (state_after 10
                        (single_and_double_bound ++ press_release_pair 7 0 5
                           ++ press_and_release_edges 7 15 20))
                     (pressed_at 15 pin7_waiting))
      by (split; vm_compute; reflexivity).
    assert (He : elapsed_ms 10
                   (state_after 10
                      (single_and_double_bound ++ press_release_pair 7 0 5
                         ++ press_and_release_edges 7 15 20))
                   (pressed_at 15 pin7_waiting) <= LONGPRESS_TIME)
      by (vm_compute; discriminate).
    destruct (press_count_zero_or_one 10 2 _ _ Hrun) as (_ & Hinc & _).
    split; [exact Hrun|]. split; [exact HP|]. split; [exact Hrel|].
    split; [exact He|]. split; [reflexivity|]. split; [reflexivity|].
    destruct (Hinc _ (user_callback 2) HP Hrel He eq_refl)
      as (st' & b' & E & Hr & _ & Hone).
    destruct (Hone eq_refl) as (Hc & Ht & Hd).
    exists st', b'. split; [exact E|]. split; [exact Hr|].
    split; [exact Hc|]. split; [exact Ht|exact Hd].
  - assert (Hrun : run 10 2 (single_only_release 1060) initial_state
                   = Ok (state_after 10 (single_only_release 1060)))
      by (vm_compute; reflexivity).
    assert (Hrel : confirmed_release (state_after 10 (single_only_release 1060))
                     pin7_single_only) by (split; vm_compute; reflexivity).
    assert (He : LONGPRESS_TIME
                 < elapsed_ms 10 (state_after 10 (single_only_release 1060))
                     pin7_single_only) by (vm_compute; reflexivity).
    destruct (press_count_zero_or_one 10 2 _ _ Hrun) as (_ & _ & Hlong & _).
    split; [exact Hrun|]. split; [exact Hrel|]. split; [exact He|].
    destruct (Hlong _ HP Hrel He) as (st' & b' & h & E & Hr & Hc & _).
    exists st', b'. split; [exact E|]. split; [exact Hr|exact Hc].
  - assert (Hrun : run 10 2 single_only_press initial_state
                   = Ok (state_after 10 single_only_press))
      by (vm_compute; reflexivity).
    assert (Hreg : registered 7 (state_after 10 single_only_press)
                   = Some pin7_single_only) by (vm_compute; reflexivity).
    assert (Hlow : gpio_read 7 (state_after 10 single_only_press) = false)
      by (vm_compute; reflexivity).
    destruct (press_count_zero_or_one 10 2 _ _ Hrun) as (_ & _ & _ & _ & Hhold).
    split; [exact Hrun|]. split; [exact Hreg|]. split; [exact Hlow|].
    destruct (Hhold 7 _ Hreg Hlow) as (st' & b' & E & Hr & Hc & Hd).
    exists st', b'. split; [exact E|]. split; [exact Hr|].
    split; [exact Hc|exact Hd].
Defined.

(** ** The single-press slot *)

Lemma create_fresh (g : Z) (st : state) :
  registered g st = None ->
  fst (adv_button_create g st) = 0
  /\ buttons (snd (adv_button_create g st)) = created_button g :: buttons st.
Proof.
  unfold registered, adv_button_create. intros ->.
  destruct (buttons st) eqn:Eb; simpl; rewrite ?Eb;
    destruct (g =? 0); unfold write_button; simpl;
    rewrite Z.eqb_refl; split; reflexivity.
Qed.

Lemma register_single_null (g : Z) (st : state) (b : adv_button_t) :
  registered g st = Some b ->
  adv_button_register_callback_fn g None 1 st =
  (0, write_button g (set_singlepress (Some no_function_callback) b) st).
Proof.
  unfold registered, adv_button_register_callback_fn. now intros ->.
Qed.

(** C7: [adv_button_create] of a pin that is not registered returns 0 and
    puts at the head of the registry a button of that pin whose single-press
    slot holds [no_function_callback]; registering NULL as the single-press
    handler (kind 1) of a registered pin returns 0 and leaves
    [no_function_callback] in the slot; and after any sequence of events from
    start-up that the code runs through, every button in the registry has a
    single-press handler. *)
Theorem single_press_always_bound :
  (forall (g : Z) (st : state),
      registered g st = None ->
      exists b,
        fst (adv_button_create g st) = 0
        /\ registered g (snd (adv_button_create g st)) = Some b
        /\ gpio b = g
        /\ singlepress_callback_fn b = Some no_function_callback)
  /\ (forall (g : Z) (st : state) (b : adv_button_t),
         registered g st = Some b ->
         exists b',
           fst (adv_button_register_callback_fn g None 1 st) = 0
           /\ registered g (snd (adv_button_register_callback_fn g None 1 st))
              = Some b'
           /\ singlepress_callback_fn b' = Some no_function_callback)
  /\ (forall (tick_ms : Z) (fuel : nat) (es : list event) (st : state)
             (b : adv_button_t),
         run tick_ms fuel es initial_state = Ok st ->
         In b (buttons st) ->
         singlepress_callback_fn b <> None).
Proof.
  split; [|split].
  - intros g st Hfree. destruct (create_fresh g st Hfree) as [Hret Hb].
    exists (created_button g). split; [exact Hret|].
    unfold registered. rewrite Hb. simpl. rewrite Z.eqb_refl. now repeat split.
  - intros g st b Hreg. rewrite (register_single_null g st b Hreg).
    exists (set_singlepress (Some no_function_callback) b).
    split; [reflexivity|]. split; [|reflexivity].
    simpl. apply find_store_same.
    + exact (find_gpio _ _ _ Hreg).
    + unfold registered in Hreg. rewrite Hreg. discriminate.
  - intros tick_ms fuel es st b Hrun Hin.
    destruct (run_ok _ _ _ _ _ Hrun initial_ok) as [HB _].
    rewrite Forall_forall in HB. exact (proj1 (HB b Hin)).
Qed.

Lemma single_press_always_bound_witness :
  (registered 7 initial_state = None
   /\ exists b,
        fst (adv_button_create 7 initial_state) = 0
        /\ registered 7 (snd (adv_button_create 7 initial_state)) = Some b
        /\ gpio b = 7
        /\ singlepress_callback_fn b = Some no_function_callback)
  /\ (registered 7 (state_after 10 single_and_double_bound) = Some pin7_idle
      /\ exists b',
           fst (adv_button_register_callback_fn 7 None 1
                  (state_after 10 single_and_double_bound)) = 0
           /\ registered 7
                (snd (adv_button_register_callback_fn 7 None 1
                        (state_after 10 single_and_double_bound)))
              = Some b'
           /\ singlepress_callback_fn b' = Some no_function_callback)
  /\ (run 10 2 single_and_double_bound initial_state
        = Ok (state_after 10 single_and_double_bound)
      /\ In pin7_idle (buttons (state_after 10 single_and_double_bound))
      /\ singlepress_callback_fn pin7_idle <> None).
Proof.
  destruct single_press_always_bound as (Hcreate & Hnull & Hinv).
  split; [|split].
  - split; [reflexivity|]. exact (Hcreate 7 initial_state eq_refl).
  - assert (Hreg : registered 7 (state_after 10 single_and_double_bound)
                   = Some pin7_idle) by (vm_compute; reflexivity).
    split; [exact Hreg|]. exact (Hnull 7 _ _ Hreg).
  - assert (Hrun : run 10 2 single_and_double_bound initial_state
                   = Ok (state_after 10 single_and_double_bound))
      by (vm_compute; reflexivity).
    assert (Hin : In pin7_idle
                    (buttons (state_after 10 single_and_double_bound)))
      by (vm_compute; left; reflexivity).
    split; [exact Hrun|]. split; [exact Hin|].
    exact (Hinv 10 2%nat _ _ _ Hrun Hin).
Defined.

(** ** Clearing an optional slot *)

Lemma register_clear (g k : Z) (st : state) (b : adv_button_t) :
  registered g st = Some b ->
  2 <= k <= 5 ->
  exists b',
    adv_button_register_callback_fn g None k st = (0, write_button g b' st)
    /\ callback_slot k b' = None
    /\ (forall k', k' <> k -> callback_slot k' b' = callback_slot k' b)
    /\ press_count b' = press_count b
    /\ press_timer b' = press_timer b
    /\ hold_timer b' = hold_timer b
    /\ last_event_time b' = last_event_time b
    /\ gpio b' = gpio b.
Proof.
  unfold registered, adv_button_register_callback_fn. intros -> Hk.
  assert (Hcases : k = 2 \/ k = 3 \/ k = 4 \/ k = 5) by lia.
  destruct Hcases as [-> | [-> | [-> | ->]]];
    eexists; (split; [reflexivity|]); (split; [reflexivity|]);
    (split; [|now repeat split]);
    intros k' Hk'; destruct k' as [|p|p]; try reflexivity;
    destruct p as [[[|p|]|[|p|]|]|[[|p|]|[|p|]|]|]; try reflexivity;
    congruence.
Qed.

(** C10: registering NULL for kind 2, 3, 4 or 5 on a registered pin returns 0
    and leaves that slot NULL; the other slots, [press_count], the timers and
    [last_event_time] of the button are as before.  With the slot NULL the
    gesture falls back: a short release with no double-press handler calls
    the single-press handler at once; a long release with no long-press
    handler calls the single-press handler; a very long release with no
    very-long-press handler calls the long-press handler if bound, else the
    single-press handler; a hold with no hold-press handler calls
    [no_function_callback]. *)
Theorem clear_optional_slot :
  (forall (g k : Z) (st : state) (b : adv_button_t),
      registered g st = Some b ->
      2 <= k <= 5 ->
      exists b',
        fst (adv_button_register_callback_fn g None k st) = 0
        /\ registered g (snd (adv_button_register_callback_fn g None k st))
           = Some b'
        /\ callback_slot k b' = None
        /\ (forall k', k' <> k -> callback_slot k' b' = callback_slot k' b)
        /\ press_count b' = press_count b
        /\ press_timer b' = press_timer b
        /\ hold_timer b' = hold_timer b
        /\ last_event_time b' = last_event_time b)
  /\ (forall (tick_ms : Z) (st : state) (b : adv_button_t) (s : callback),
         0 < tick_ms ->
         confirmed_release st b ->
         singlepress_callback_fn b = Some s ->
         (callback_slot 2 b = None ->
          elapsed_ms tick_ms st b <= LONGPRESS_TIME ->
          exists st',
            push_up_timer_callback tick_ms st = Ok st'
            /\ dispatched_since st st' [(s, used_gpio st)])
         /\ (callback_slot 3 b = None ->
             LONGPRESS_TIME < elapsed_ms tick_ms st b <= VERYLONGPRESS_TIME ->
             exists st',
               push_up_timer_callback tick_ms st = Ok st'
               /\ dispatched_since st st' [(s, used_gpio st)])
         /\ (callback_slot 4 b = None ->
             VERYLONGPRESS_TIME < elapsed_ms tick_ms st b ->
             exists st',
               push_up_timer_callback tick_ms st = Ok st'
               /\ dispatched_since st st' [(long_handler b s, used_gpio st)]))
  /\ (forall (button : adv_button_t) (st : state),
         callback_slot 5 button = None ->
         gpio_read (gpio button) st = false ->
         exists st',
           adv_button_hold_callback button st
             = Ok (set_press_count 0 button, st')
           /\ dispatched_since st st' [(no_function_callback, gpio button)]).
Proof.
  split; [|split].
  - intros g k st b Hreg Hk.
    destruct (register_clear g k st b Hreg Hk)
      as (b' & E & Hslot & Hother & Hc & Hp & Hh & Hl & Hg).
    exists b'. rewrite E. simpl.
    split; [reflexivity|]. split; [|now repeat split].
    apply find_store_same.
    + rewrite Hg. exact (find_gpio _ _ _ Hreg).
    + unfold registered in Hreg. rewrite Hreg. discriminate.
  - intros tick_ms st b s HP Hrel Hs. simpl. split; [|split].
    + intros Hd He.
      destruct (push_up_short_single _ _ _ _ HP Hrel Hs He Hd)
        as (st' & E & Hdis & _).
      now exists st'.
    + intros Hl He.
      destruct (push_up_long _ _ _ _ HP Hrel Hs He) as (st' & E & Hdis & _).
      exists st'. split; [exact E|].
      unfold long_handler in Hdis. now rewrite Hl in Hdis.
    + intros Hv He.
      destruct (push_up_very_long _ _ _ _ HP Hrel Hs He)
        as (st' & E & Hdis & _).
      exists st'. split; [exact E|].
      unfold very_long_handler in Hdis. now rewrite Hv in Hdis.
  - intros button st Hh Hlow. simpl in Hh.
    rewrite (hold_callback_pressed _ _ Hlow). eexists.
    split; [reflexivity|]. unfold dispatched_since, hold_handler.
    now rewrite Hh.
Qed.

Lemma clear_optional_slot_witness :
  (registered 7 (state_after 10 single_and_double_bound) = Some pin7_idle
   /\ 2 <= 2 <= 5
   /\ exists b',
        fst (adv_button_register_callback_fn 7 None 2
               (state_after 10 single_and_double_bound)) = 0
        /\ registered 7
             (snd (adv_button_register_callback_fn 7 None 2
                     (state_after 10 single_and_double_bound))) = Some b'
        /\ doublepress_callback_fn b' = None
        /\ singlepress_callback_fn b' = Some (user_callback 1))
  /\ (confirmed_release (state_after 10 (single_only_release 1010))
        pin7_single_only
      /\ elapsed_ms 10 (state_after 10 (single_only_release 1010))
           pin7_single_only <= LONGPRESS_TIME
      /\ exists st',
           push_up_timer_callback 10 (state_after 10 (single_only_release 1010))
             = Ok st'
           /\ dispatched st' = [(user_callback 1, 7)])
  /\ (confirmed_release (state_after 10 (single_only_release 1060))
        pin7_single_only
      /\ LONGPRESS_TIME
           < elapsed_ms 10 (state_after 10 (single_only_release 1060))
               pin7_single_only <= VERYLONGPRESS_TIME
      /\ exists st',
           push_up_timer_callback 10 (state_after 10 (single_only_release 1060))
             = Ok st'
           /\ dispatched st' = [(user_callback 1, 7)])
  /\ (confirmed_release (state_after 10 (single_only_release 1130))
        pin7_single_only
      /\ VERYLONGPRESS_TIME
           < elapsed_ms 10 (state_after 10 (single_only_release 1130))
               pin7_single_only
      /\ exists st',
           push_up_timer_callback 10 (state_after 10 (single_only_release 1130))
             = Ok st'
           /\ dispatched st' = [(user_callback 1, 7)])
  /\ (gpio_read 7 (state_after 10 single_only_press) = false
      /\ exists st',
           adv_button_hold_callback pin7_single_only
             (state_after 10 single_only_press)
             = Ok (set_press_count 0 pin7_single_only, st')
           /\ dispatched st' = [(no_function_callback, 7)]).
Proof.
  destruct clear_optional_slot as (Hclear & Hrelease & Hhold).
  assert (HP : 0 < 10) by lia.
  split; [|split; [|split; [|split]]].
  - assert (Hreg : registered 7 (state_after 10 single_and_double_bound)
                   = Some pin7_idle) by (vm_compute; reflexivity).
    assert (Hk : 2 <= 2 <= 5) by lia.
    split; [exact Hreg|]. split; [exact Hk|].
    destruct (Hclear 7 2 _ _ Hreg Hk) as (b' & Hret & Hb' & Hslot & Hother & _).
    exists b'. split; [exact Hret|]. split; [exact Hb'|].
    split; [exact Hslot|].
    assert (H12 : 1 <> 2) by lia. exact (Hother 1 H12).
  - assert (Hrel : confirmed_release (state_after 10 (single_only_release 1010))
                     pin7_single_only) by (split; vm_compute; reflexivity).
    assert (He : elapsed_ms 10 (state_after 10 (single_only_release 1010))
                   pin7_single_only <= LONGPRESS_TIME)
      by (vm_compute; discriminate).
    split; [exact Hrel|]. split; [exact He|].
    exact (proj1 (Hrelease 10 _ _ (user_callback 1) HP Hrel eq_refl) eq_refl He).
  - assert (Hrel : confirmed_release (state_after 10 (single_only_release 1060))
                     pin7_single_only) by (split; vm_compute; reflexivity).
    assert (He : LONGPRESS_TIME
                 < elapsed_ms 10 (state_after 10 (single_only_release 1060))
                     pin7_single_only <= VERYLONGPRESS_TIME)
      by (split; vm_compute; [reflexivity|discriminate]).
    split; [exact Hrel|]. split; [exact He|].
    exact (proj1 (proj2 (Hrelease 10 _ _ (user_callback 1) HP Hrel eq_refl))
             eq_refl He).
  - assert (Hrel : confirmed_release (state_after 10 (single_only_release 1130))
                     pin7_single_only) by (split; vm_compute; reflexivity).
    assert (He : VERYLONGPRESS_TIME
                 < elapsed_ms 10 (state_after 10 (single_only_release 1130))
                     pin7_single_only)
      by (vm_compute; reflexivity).
    split; [exact Hrel|]. split; [exact He|].
    exact (proj2 (proj2 (Hrelease 10 _ _ (user_callback 1) HP Hrel eq_refl))
             eq_refl He).
  - assert (Hlow : gpio_read (gpio pin7_single_only)
                     (state_after 10 single_only_press) = false)
      by (vm_compute; reflexivity).
    split; [exact Hlow|].
    exact (Hhold pin7_single_only _ eq_refl Hlow).
Defined.

(** ** Destroying a button *)

(** The loop of [adv_button_destroy] never moves on: when the node after the
    head is not the one looked for, no amount of fuel lets it exit. *)
Lemma destroy_loop_spins (fuel : nat) (g : Z) (n : adv_button_t)
      (rest : list adv_button_t) :
  gpio n <> g -> destroy_loop fuel g (n :: rest) = OutOfFuel.
Proof.
  intros Hne. apply Z.eqb_neq in Hne.
  induction fuel as [|fuel IH]; simpl; [reflexivity|].
  now rewrite Hne.
Qed.

Lemma destroy_spins (fuel : nat) (g : Z) (st : state)
      (head second : adv_button_t) (rest : list adv_button_t) :
  buttons st = head :: second :: rest ->
  gpio head <> g -> gpio second <> g ->
  adv_button_destroy fuel g st = OutOfFuel.
Proof.
  intros Eb Hh Hs. unfold adv_button_destroy. rewrite Eb.
  apply Z.eqb_neq in Hh. rewrite Hh.
  now rewrite destroy_loop_spins.
Qed.

(** X19: when [adv_button_destroy] returns for a pin that is not registered, it
    returns the state it was given; it returns when the registry has at most
    one button. *)
Lemma destroy_unregistered_returns (fuel : nat) (g : Z) (st st' : state) :
  registered g st = None ->
  adv_button_destroy fuel g st = Ok st' -> st' = st.
Proof.
  unfold registered, adv_button_destroy. intros Hfree H.
  destruct (buttons st) as [|head next]; [now inversion H|].
  simpl in Hfree. destruct (gpio head =? g); [discriminate|].
  destruct (destroy_loop fuel g next) as [[[button next']|]| |] eqn:El;
    simpl in H; try discriminate; [|now inversion H].
  apply destroy_loop_unlinks in El. destruct El as [-> Hg].
  simpl in Hfree. apply Z.eqb_eq in Hg. rewrite Hg in Hfree. discriminate.
Qed.

Lemma destroy_unregistered_short (fuel : nat) (g : Z) (st : state) :
  registered g st = None ->
  (length (buttons st) <= 1)%nat ->
  adv_button_destroy (S fuel) g st = Ok st.
Proof.
  unfold registered, adv_button_destroy. intros Hfree Hlen.
  destruct (buttons st) as [|head [|second rest]]; simpl in *;
    [reflexivity| |lia].
  now destruct (gpio head =? g).
Qed.

(** X17: [adv_button_destroy] returns exactly when the registry is empty, when the
    pin is that of the head or of the node after the head, or when there is
    no node after the head. *)
Lemma destroy_returns_iff (g : Z) (st : state) :
  (exists fuel st', adv_button_destroy fuel g st = Ok st') <->
  match buttons st with
  | [] => True
  | head :: next =>
      gpio head = g \/
      match next with
      | [] => True
      | second :: _ => gpio second = g
      end
  end.
Proof.
  unfold adv_button_destroy.
  destruct (buttons st) as [|head [|second rest]]; simpl.
  - split; [trivial|]. intros _. now exists 0%nat, st.
  - split; [tauto|]. intros _. exists 1%nat.
    destruct (gpio head =? g); simpl; eexists; reflexivity.
  - destruct (gpio head =? g) eqn:Eh.
    + apply Z.eqb_eq in Eh. split; [tauto|]. intros _.
      exists 0%nat. eexists; reflexivity.
    + apply Z.eqb_neq in Eh. destruct (Z.eq_dec (gpio second) g) as [Es|Es].
      * split; [tauto|]. intros _. exists 1%nat. simpl.
        apply Z.eqb_eq in Es. rewrite Es. simpl. eexists; reflexivity.
      * split; [|tauto]. intros (fuel & st' & H).
        rewrite destroy_loop_spins in H by exact Es. discriminate.
Qed.

(** *** At most one button per pin *)

Lemma store_pins (g : Z) (b' : adv_button_t) (bs : list adv_button_t) :
  gpio b' = g -> map gpio (store_button g b' bs) = map gpio bs.
Proof.
  intros Hg. induction bs as [|x bs IH]; simpl; [reflexivity|].
  destruct (gpio x =? g) eqn:E; simpl.
  - apply Z.eqb_eq in E. now rewrite Hg, E.
  - now rewrite IH.
Qed.

Lemma find_none_pins (g : Z) (bs : list adv_button_t) :
  button_find_by_gpio g bs = None <-> ~ In g (map gpio bs).
Proof.
  induction bs as [|x bs IH]; simpl; [tauto|].
  destruct (gpio x =? g) eqn:E.
  - apply Z.eqb_eq in E. split; [discriminate|tauto].
  - apply Z.eqb_neq in E. rewrite IH. tauto.
Qed.

Lemma timer_fires_pins
      (f : adv_button_t -> state -> result (adv_button_t * state))
      (g : Z) (st st' : state) :
  (forall b b' s s', f b s = Ok (b', s') ->
                     gpio b' = gpio b /\ buttons s' = buttons s) ->
  timer_fires f g st = Ok st' -> pins st' = pins st.
Proof.
  unfold timer_fires, pins. intros Hf H.
  destruct (button_find_by_gpio g (buttons st)) as [b|] eqn:Hfind;
    [|now inversion H].
  destruct (f b st) as [[b' s']| |] eqn:E; simpl in H; try discriminate.
  inversion H; subst. destruct (Hf _ _ _ _ E) as [Hg Hb]. simpl.
  rewrite store_pins, Hb; [reflexivity|].
  rewrite Hg. exact (find_gpio _ _ _ Hfind).
Qed.

Lemma push_down_pins (st st' : state) :
  push_down_timer_callback st = Ok st' -> pins st' = pins st.
Proof.
  unfold push_down_timer_callback, pins. cbv zeta. intros H.
  destruct (negb _); [|now inversion H].
  destruct (button_find_by_gpio _ _) as [b|] eqn:Hfind; [|discriminate].
  inversion H; subst. simpl. apply store_pins. exact (find_gpio _ _ _ Hfind).
Qed.

Lemma push_up_pins (tick_ms : Z) (st st' : state) :
  push_up_timer_callback tick_ms st = Ok st' -> pins st' = pins st.
Proof.
  unfold push_up_timer_callback, call_fn, pins. cbv zeta. intros H.
  destruct (gpio_read _ _); [|now inversion H].
  destruct (button_find_by_gpio _ _) as [b|] eqn:Hfind; [|discriminate].
  pose proof (find_gpio _ _ _ Hfind) as Hg.
  repeat match type of H with
         | context [if ?c then _ else _] => destruct c eqn:?
         | context [match ?x with Some _ => _ | None => _ end] =>
             destruct x eqn:?
         end;
    try discriminate; inversion H; subst; clear H; simpl;
    apply store_pins; exact Hg.
Qed.

Lemma register_pins (g : Z) (cb : button_callback_fn) (k : Z) (st : state) :
  pins (snd (adv_button_register_callback_fn g cb k st)) = pins st.
Proof.
  unfold adv_button_register_callback_fn, pins.
  destruct (button_find_by_gpio g (buttons st)) as [b|] eqn:Hfind;
    [|reflexivity].
  pose proof (find_gpio _ _ _ Hfind) as Hg.
  destruct k as [|p|p]; try reflexivity.
  destruct p as [[[|p|]|[|p|]|]|[[|p|]|[|p|]|]|]; try reflexivity;
    try destruct cb; simpl; apply store_pins; exact Hg.
Qed.

Lemma intr_pins (g : Z) (st : state) :
  pins (adv_button_intr_callback g st) = pins st.
Proof.
  unfold adv_button_intr_callback, pins.
  destruct (button_find_by_gpio g (buttons st)); [|reflexivity].
  now destruct (gpio_read _ _).
Qed.

Lemma create_unique (g : Z) (st : state) :
  NoDup (pins st) -> NoDup (pins (snd (adv_button_create g st))).
Proof.
  intros Hu. destruct (button_find_by_gpio g (buttons st)) eqn:Hfind.
  - unfold adv_button_create. now rewrite Hfind.
  - unfold pins. rewrite (proj2 (create_fresh g st Hfind)). simpl.
    constructor; [now apply find_none_pins|exact Hu].
Qed.

Lemma destroy_unique (fuel : nat) (g : Z) (st st' : state) :
  adv_button_destroy fuel g st = Ok st' ->
  NoDup (pins st) -> NoDup (pins st').
Proof.
  unfold adv_button_destroy, pins. intros H Hu.
  destruct (buttons st) as [|head next] eqn:Eb.
  { inversion H; subst. now rewrite Eb. }
  simpl in Hu. inversion Hu as [|? ? Hh Hn]; subst.
  destruct (gpio head =? g).
  - inversion H; subst. unfold destroy_unlinked.
    now destruct (gpio _ =? 0).
  - destruct (destroy_loop fuel g next) as [[[button next']|]| |] eqn:El;
      simpl in H; try discriminate.
    + apply destroy_loop_unlinks in El. destruct El as [-> _].
      simpl in Hh, Hn. inversion Hn; subst.
      inversion H; subst. unfold destroy_unlinked.
      destruct (gpio _ =? 0); simpl; constructor; tauto.
    + inversion H; subst. now rewrite Eb.
Qed.

Lemma single_callback_frame (b b' : adv_button_t) (s s' : state) :
  adv_button_single_callback b s = Ok (b', s') ->
  gpio b' = gpio b /\ buttons s' = buttons s.
Proof.
  unfold adv_button_single_callback, call_fn. simpl.
  destruct (singlepress_callback_fn b); simpl; [|discriminate].
  intros [= <- <-]. now split.
Qed.

Lemma hold_callback_frame (b b' : adv_button_t) (s s' : state) :
  adv_button_hold_callback b s = Ok (b', s') ->
  gpio b' = gpio b /\ buttons s' = buttons s.
Proof.
  unfold adv_button_hold_callback, call_fn.
  destruct (negb _); [simpl; destruct (holdpress_callback_fn b)|]; simpl;
    intros [= <- <-]; now split.
Qed.

Lemma step_unique (tick_ms : Z) (fuel : nat) (e : event) (st st' : state) :
  step tick_ms fuel e st = Ok st' -> NoDup (pins st) -> NoDup (pins st').
Proof.
  destruct e; simpl; intros H Hu.
  - inversion H; subst. now apply create_unique.
  - inversion H; subst. now rewrite register_pins.
  - eapply destroy_unique; eassumption.
  - inversion H; subst. now rewrite intr_pins.
  - now rewrite (push_down_pins _ _ H).
  - now rewrite (push_up_pins _ _ _ H).
  - now rewrite (timer_fires_pins _ _ _ _ single_callback_frame H).
  - now rewrite (timer_fires_pins _ _ _ _ hold_callback_frame H).
  - inversion H; subst. exact Hu.
  - inversion H; subst. exact Hu.
Qed.

Lemma run_unique (tick_ms : Z) (fuel : nat) (es : list event) (st st' : state) :
  run tick_ms fuel es st = Ok st' -> NoDup (pins st) -> NoDup (pins st').
Proof.
  revert st. induction es as [|e es IH]; simpl; intros st H Hu.
  - now inversion H; subst.
  - destruct (step tick_ms fuel e st) as [s1| |] eqn:E; try discriminate.
    simpl in H. eapply IH; [exact H|]. eapply step_unique; eassumption.
Qed.

(** *** What a destruction that returns has done *)

Lemma destroy_unlinked_spec (b : adv_button_t) (s : state) :
  button_find_by_gpio (gpio b) (buttons s) = None ->
  registered (gpio b) (destroy_unlinked b s) = None
  /\ leaked (destroy_unlinked b s) = disarmed b :: leaked s
  /\ gpio_interrupt (destroy_unlinked b s) (gpio b) = false
  /\ (gpio b <> 0 -> gpio_input (destroy_unlinked b s) (gpio b) = false)
  /\ (gpio b = 0 -> gpio_input (destroy_unlinked b s) = gpio_input s)
  /\ dispatched (destroy_unlinked b s) = dispatched s
  /\ adv_button_intr_callback (gpio b) (destroy_unlinked b s)
     = destroy_unlinked b s.
Proof.
  intros Hnone.
  unfold destroy_unlinked, registered, adv_button_intr_callback.
  cbn -[button_find_by_gpio Z.eqb].
  destruct (gpio b =? 0) eqn:E0; cbn -[button_find_by_gpio Z.eqb];
    unfold upd; rewrite ?Z.eqb_refl, Hnone;
    [apply Z.eqb_eq in E0|apply Z.eqb_neq in E0];
    repeat split; intros; try reflexivity; contradiction.
Qed.

(** X18: when [adv_button_destroy] of a registered pin returns, in a registry with
    one button per pin: the pin is no longer found, the button has been
    unlinked with both timers disarmed, the edge interrupt of the pin is
    detached, the input is disabled unless the pin is 0, and a later edge on
    the pin changes nothing. *)
Lemma destroy_registered_returns (fuel : nat) (g : Z) (st st' : state)
      (b : adv_button_t) :
  NoDup (pins st) ->
  registered g st = Some b ->
  adv_button_destroy fuel g st = Ok st' ->
  registered g st' = None
  /\ leaked st' = disarmed b :: leaked st
  /\ timer_armed (hold_timer (disarmed b)) = None
  /\ timer_armed (press_timer (disarmed b)) = None
  /\ gpio_interrupt st' g = false
  /\ (g <> 0 -> gpio_input st' g = false)
  /\ (g = 0 -> gpio_input st' = gpio_input st)
  /\ dispatched st' = dispatched st
  /\ adv_button_intr_callback g st' = st'.
Proof.
  unfold registered at 1, adv_button_destroy, pins. intros Hu Hreg H.
  pose proof (find_gpio _ _ _ Hreg) as Hg. subst g.
  assert (Hspec : forall s,
             button_find_by_gpio (gpio b) (buttons s) = None ->
             leaked s = leaked st -> gpio_input s = gpio_input st ->
             dispatched s = dispatched st ->
             st' = destroy_unlinked b s ->
             registered (gpio b) st' = None
             /\ leaked st' = disarmed b :: leaked st
             /\ timer_armed (hold_timer (disarmed b)) = None
             /\ timer_armed (press_timer (disarmed b)) = None
             /\ gpio_interrupt st' (gpio b) = false
             /\ (gpio b <> 0 -> gpio_input st' (gpio b) = false)
             /\ (gpio b = 0 -> gpio_input st' = gpio_input st)
             /\ dispatched st' = dispatched st
             /\ adv_button_intr_callback (gpio b) st' = st').
  { intros s Hnone El Ei Ed ->.
    destruct (destroy_unlinked_spec b s Hnone)
      as (H1 & H2 & H3 & H4 & H5 & H6 & H7).
    rewrite El in H2. rewrite Ei in H5. rewrite Ed in H6.
    now repeat split. }
  destruct (buttons st) as [|head next] eqn:Eb; [discriminate|].
  simpl in Hu. inversion Hu as [|x l Hh Hn]; subst x l.
  simpl in Hreg. destruct (gpio head =? gpio b) eqn:Eh.
  - inversion Hreg; subst head. inversion H; subst st'. clear H.
    apply (Hspec (set_buttons next st)); try reflexivity.
    now apply find_none_pins.
  - destruct (destroy_loop fuel (gpio b) next) as [[[button next']|]| |] eqn:El;
      simpl in H; try discriminate.
    + apply destroy_loop_unlinks in El. destruct El as [-> Hgb].
      simpl in Hreg. rewrite <- Hgb, Z.eqb_refl in Hreg.
      inversion Hreg; subst button.
      inversion H; subst st'. clear H.
      simpl in Hh, Hn. inversion Hn as [|x l Hb Hn']; subst x l.
      apply (Hspec (set_buttons (head :: next') st)); try reflexivity.
      simpl. rewrite Eh. now apply find_none_pins.
    + apply destroy_loop_nothing in El. subst next. discriminate.
Qed.

(** C1, evaluated where it fails: with pins 1 and 2 registered, pin 3 is not
    registered, and [adv_button_destroy] of pin 3 does not return whatever
    the fuel: the loop over the registry tests the node after the head again
    and again. *)
Theorem destroy_unregistered_never_returns :
  run 10 2 two_buttons initial_state = Ok (state_after 10 two_buttons)
  /\ map gpio (buttons (state_after 10 two_buttons)) = [2; 1]
  /\ registered 3 (state_after 10 two_buttons) = None
  /\ forall fuel : nat,
       adv_button_destroy fuel 3 (state_after 10 two_buttons) = OutOfFuel.
Proof.
  split; [vm_compute; reflexivity|]. split; [vm_compute; reflexivity|].
  split; [vm_compute; reflexivity|].
  intros fuel.
  apply (destroy_spins fuel 3 _ (created_button 2) (created_button 1) []);
    [vm_compute; reflexivity|discriminate|discriminate].
Qed.

(** C3, evaluated where it fails: with pins 1, 2 and 3 registered in that
    order, pin 1 is the third node of the registry, and [adv_button_destroy]
    of pin 1 does not return whatever the fuel; the button stays registered,
    with its interrupt attached. *)
Theorem destroy_third_never_returns :
  run 10 2 three_buttons initial_state = Ok (state_after 10 three_buttons)
  /\ map gpio (buttons (state_after 10 three_buttons)) = [3; 2; 1]
  /\ registered 1 (state_after 10 three_buttons) = Some (created_button 1)
  /\ gpio_interrupt (state_after 10 three_buttons) 1 = true
  /\ forall fuel : nat,
       adv_button_destroy fuel 1 (state_after 10 three_buttons) = OutOfFuel.
Proof.
  split; [vm_compute; reflexivity|]. split; [vm_compute; reflexivity|].
  split; [vm_compute; reflexivity|]. split; [vm_compute; reflexivity|].
  intros fuel.
  apply (destroy_spins fuel 1 _ (created_button 3) (created_button 2)
           [created_button 1]);
    [vm_compute; reflexivity|discriminate|discriminate].
Qed.

(** ** Instances on concrete states *)

Lemma create_existing_pin_unchanged_witness :
  registered 7 (state_after 10 single_and_double_bound) = Some pin7_idle
  /\ adv_button_create 7 (state_after 10 single_and_double_bound)
     = (-1, state_after 10 single_and_double_bound).
Proof.
  assert (Hreg : registered 7 (state_after 10 single_and_double_bound)
                 = Some pin7_idle) by (vm_compute; reflexivity).
  split; [exact Hreg|].
  exact (proj1 (create_existing_pin_unchanged 7 _ _ Hreg)).
Defined.

Lemma register_invalid_kind_witness :
  registered 7 (state_after 10 single_and_double_bound) = Some pin7_idle
  /\ ~ (1 <= 6 <= 5)
  /\ adv_button_register_callback_fn 7 (Some (user_callback 9)) 6
       (state_after 10 single_and_double_bound)
     = (-2, state_after 10 single_and_double_bound)
  /\ (registered 8 (state_after 10 single_and_double_bound) = None
      /\ adv_button_register_callback_fn 8 (Some (user_callback 9)) 6
           (state_after 10 single_and_double_bound)
         = (-1, state_after 10 single_and_double_bound)).
Proof.
  assert (Hreg : registered 7 (state_after 10 single_and_double_bound)
                 = Some pin7_idle) by (vm_compute; reflexivity).
  assert (Hk : ~ (1 <= 6 <= 5)) by lia.
  assert (Hfree : registered 8 (state_after 10 single_and_double_bound) = None)
    by (vm_compute; reflexivity).
  destruct (register_invalid_kind 7 (Some (user_callback 9)) 6 _ _ Hreg Hk)
    as (Hret & _ & Hnot & _).
  split; [exact Hreg|]. split; [exact Hk|]. split; [exact Hret|].
  split; [exact Hfree|]. exact (Hnot 8 _ 6 Hfree).
Defined.

Lemma hold_timer_fire_witness :
  (gpio_read (gpio pin7_single_only) (state_after 10 single_only_press) = false
   /\ exists st',
        adv_button_hold_callback pin7_single_only
          (state_after 10 single_only_press)
          = Ok (set_press_count 0 pin7_single_only, st')
        /\ dispatched st' = [(no_function_callback, 7)])
  /\ (gpio_read (gpio pin7_single_only)
        (state_after 10 (single_only_release 1010)) = true
      /\ adv_button_hold_callback pin7_single_only
           (state_after 10 (single_only_release 1010))
         = Ok (pin7_single_only, state_after 10 (single_only_release 1010))).
Proof.
  split.
  - assert (Hlow : gpio_read (gpio pin7_single_only)
                     (state_after 10 single_only_press) = false)
      by (vm_compute; reflexivity).
    split; [exact Hlow|].
    destruct (proj1 (hold_timer_fire pin7_single_only
                       (state_after 10 single_only_press)) Hlow)
      as (st' & E & _ & Hd & _).
    exists st'. split; [exact E|exact Hd].
  - assert (Hhigh : gpio_read (gpio pin7_single_only)
                      (state_after 10 (single_only_release 1010)) = true)
      by (vm_compute; reflexivity).
    split; [exact Hhigh|].
    exact (proj2 (hold_timer_fire pin7_single_only
                    (state_after 10 (single_only_release 1010))) Hhigh).
Defined.

(** * Further properties of the code *)

(** ** Lookup *)

(** X1: [button_find_by_gpio] returns the first button of the list that has
    the pin asked for, and NULL exactly when no button of the list has it. *)
Theorem find_first_match (g : Z) (bs : list adv_button_t) :
  (forall b,
      button_find_by_gpio g bs = Some b <->
      exists pre post,
        bs = pre ++ b :: post /\ gpio b = g /\ ~ In g (map gpio pre))
  /\ (button_find_by_gpio g bs = None <-> ~ In g (map gpio bs)).
Proof.
  split; [|apply find_none_pins].
  induction bs as [|x bs IH]; intros b; simpl.
  - split; [discriminate|]. intros (pre & post & E & _).
    destruct pre; discriminate.
  - destruct (gpio x =? g) eqn:Ex.
    + apply Z.eqb_eq in Ex. split.
      * intros [= ->]. exists [], bs. simpl. tauto.
      * intros (pre & post & E & Hg & Hpre).
        destruct pre as [|y pre]; simpl in *.
        -- now inversion E.
        -- inversion E; subst y. tauto.
    + apply Z.eqb_neq in Ex. rewrite IH. split.
      * intros (pre & post & -> & Hg & Hpre).
        exists (x :: pre), post. simpl. tauto.
      * intros (pre & post & E & Hg & Hpre).
        destruct pre as [|y pre]; simpl in *.
        -- inversion E; subst x. contradiction.
        -- inversion E; subst. exists pre, post. tauto.
Qed.

Lemma find_first_match_witness :
  button_find_by_gpio 2 (buttons (state_after 10 three_buttons))
  = Some (created_button 2).
Proof.
  apply (proj1 (find_first_match 2 (buttons (state_after 10 three_buttons)))).
  exists [created_button 3], [created_button 1].
  split; [vm_compute; reflexivity|]. split; [reflexivity|].
  simpl. intros [H|[]]. discriminate H.
Defined.

(** ** One button per pin *)

Lemma find_unique_In (bs : list adv_button_t) (b : adv_button_t) :
  NoDup (map gpio bs) -> In b bs -> button_find_by_gpio (gpio b) bs = Some b.
Proof.
  induction bs as [|x bs IH]; simpl; [tauto|].
  intros Hu [-> | Hin].
  - now rewrite Z.eqb_refl.
  - inversion Hu as [|? ? Hx Hu']; subst.
    destruct (gpio x =? gpio b) eqn:E; [|now apply IH].
    apply Z.eqb_eq in E. exfalso. apply Hx. rewrite E. now apply in_map.
Qed.

(** X2: after any sequence of events from start-up that the code runs
    through, no two buttons of the registry have the same pin, and every
    button of the registry is the one [button_find_by_gpio] finds for its
    pin. *)
Theorem one_button_per_pin (tick_ms : Z) (fuel : nat) (es : list event)
        (st : state) :
  run tick_ms fuel es initial_state = Ok st ->
  NoDup (pins st)
  /\ forall b, In b (buttons st) -> registered (gpio b) st = Some b.
Proof.
  intros Hrun.
  assert (Hu : NoDup (pins st)).
  { eapply run_unique; [exact Hrun|]. constructor. }
  split; [exact Hu|]. intros b Hin. now apply find_unique_In.
Qed.

Lemma one_button_per_pin_witness :
  run 10 2 (three_buttons ++ [Create 2; Create 1]) initial_state
    = Ok (state_after 10 three_buttons)
  /\ pins (state_after 10 three_buttons) = [3; 2; 1]
  /\ NoDup (pins (state_after 10 three_buttons)).
Proof.
  assert (Hrun : run 10 2 (three_buttons ++ [Create 2; Create 1]) initial_state
                 = Ok (state_after 10 three_buttons))
    by (vm_compute; reflexivity).
  split; [exact Hrun|]. split; [vm_compute; reflexivity|].
  exact (proj1 (one_button_per_pin 10 2 _ _ Hrun)).
Defined.

(** ** Creation *)

Lemma upd_same {A : Type} (f : Z -> A) (k : Z) (v : A) : upd f k v k = v.
Proof. unfold upd. now rewrite Z.eqb_refl. Qed.

Lemma upd_other {A : Type} (f : Z -> A) (k k' : Z) (v : A) :
  k' <> k -> upd f k v k' = f k'.
Proof. intros H. unfold upd. apply Z.eqb_neq in H. now rewrite H. Qed.

(** X3: [adv_button_create] of a pin that is not registered returns 0 and
    puts the new button at the head of the registry, in front of the buttons
    already there, which are found as before.  It attaches the edge interrupt
    of the pin and turns its pull-up on; it enables the pin as an input
    unless the pin is 0.  The configuration of the other pins, [used_gpio],
    the unlinked buttons and the log of calls are as before. *)
Theorem create_registers_pin (g : Z) (st : state) :
  registered g st = None ->
  fst (adv_button_create g st) = 0
  /\ buttons (snd (adv_button_create g st)) = created_button g :: buttons st
  /\ (forall g', g' <> g ->
        registered g' (snd (adv_button_create g st)) = registered g' st)
  /\ gpio_interrupt (snd (adv_button_create g st)) g = true
  /\ gpio_pullup (snd (adv_button_create g st)) g = true
  /\ (g <> 0 -> gpio_input (snd (adv_button_create g st)) g = true)
  /\ (g = 0 -> gpio_input (snd (adv_button_create g st)) 0 = gpio_input st 0)
  /\ (forall p, p <> g ->
        gpio_interrupt (snd (adv_button_create g st)) p = gpio_interrupt st p
        /\ gpio_pullup (snd (adv_button_create g st)) p = gpio_pullup st p
        /\ gpio_input (snd (adv_button_create g st)) p = gpio_input st p)
  /\ used_gpio (snd (adv_button_create g st)) = used_gpio st
  /\ leaked (snd (adv_button_create g st)) = leaked st
  /\ dispatched (snd (adv_button_create g st)) = dispatched st.
Proof.
  intros Hfree. destruct (create_fresh g st Hfree) as [Hret Hb].
  split; [exact Hret|]. split; [exact Hb|]. split.
  { intros g' Hne. unfold registered. rewrite Hb. simpl.
    apply Z.eqb_neq in Hne. now rewrite Z.eqb_sym, Hne. }
  unfold registered in Hfree. unfold adv_button_create. rewrite Hfree.
  destruct (buttons st) eqn:Eb; cbn -[Z.eqb upd];
    (destruct (g =? 0) eqn:E0;
     [apply Z.eqb_eq in E0|apply Z.eqb_neq in E0]);
    cbn -[Z.eqb upd]; rewrite ?upd_same;
    repeat split; intros; subst; rewrite ?upd_same, ?upd_other by assumption;
    try reflexivity; contradiction.
Qed.

Lemma create_registers_pin_witness :
  registered 3 (state_after 10 two_buttons) = None
  /\ fst (adv_button_create 3 (state_after 10 two_buttons)) = 0
  /\ pins (snd (adv_button_create 3 (state_after 10 two_buttons))) = [3; 2; 1]
  /\ gpio_input (snd (adv_button_create 3 (state_after 10 two_buttons))) 3
     = true.
Proof.
  assert (Hfree : registered 3 (state_after 10 two_buttons) = None)
    by (vm_compute; reflexivity).
  destruct (create_registers_pin 3 _ Hfree)
    as (Hret & Hb & _ & _ & _ & Hin & _).
  split; [exact Hfree|]. split; [exact Hret|]. split.
  - unfold pins. rewrite Hb. vm_compute. reflexivity.
  - apply Hin. discriminate.
Defined.

(** The first creation (empty registry) stops both debounce timers with
    their interrupts off, sets the frequency of FRC1 to 50 and attaches the
    two interrupt handlers; the frequency of FRC2 is left as it was.  A
    creation in a registry that already has a button leaves the debounce
    timers and the interrupt table alone, as does a creation that fails. *)
Lemma create_debounce_setup (g : Z) (st : state) :
  (buttons st = [] ->
   frc_timers (snd (adv_button_create g st)) FRC1
     = mkFrc false false DEBOUNCE_FRECUENCY
   /\ frc_timers (snd (adv_button_create g st)) FRC2
      = mkFrc false false (frc_frequency (frc_timers st FRC2))
   /\ isr_table (snd (adv_button_create g st)) FRC1
      = Some push_down_timer_callback_isr
   /\ isr_table (snd (adv_button_create g st)) FRC2
      = Some push_up_timer_callback_isr)
  /\ (buttons st <> [] ->
      frc_timers (snd (adv_button_create g st)) = frc_timers st
      /\ isr_table (snd (adv_button_create g st)) = isr_table st).
Proof.
  unfold adv_button_create. split.
  - intros Eb. rewrite Eb. simpl. rewrite Eb.
    destruct (g =? 0); repeat split.
  - intros Hne.
    destruct (button_find_by_gpio g (buttons st)); [split; reflexivity|].
    destruct (buttons st) as [|x l]; [contradiction|].
    cbn -[Z.eqb]. destruct (g =? 0); split; reflexivity.
Qed.

(** ** Registration *)

Lemma write_other (g g' : Z) (b' : adv_button_t) (st : state) :
  gpio b' = g -> g' <> g ->
  registered g' (write_button g b' st) = registered g' st.
Proof. intros Hg Hne. unfold registered. simpl. now apply find_store_other. Qed.

Lemma write_same (g : Z) (b b' : adv_button_t) (st : state) :
  registered g st = Some b -> gpio b' = g ->
  registered g (write_button g b' st) = Some b'.
Proof.
  unfold registered. intros Hreg Hg. simpl.
  apply find_store_same; [exact Hg|]. rewrite Hreg. discriminate.
Qed.

(** Closes [forall k', k' <> k -> callback_slot k' b' = callback_slot k' b]
    when [b'] is [b] with the slot of the kind [k] changed. *)
Ltac other_slots :=
  let k' := fresh "k" in
  let Hk' := fresh "Hk" in
  let p := fresh "p" in
  intros k' Hk'; destruct k' as [|p|p]; try reflexivity;
  destruct p as [[[|p|]|[|p|]|]|[[|p|]|[|p|]|]|]; try reflexivity;
  congruence.

(** X5: registering a handler [h] for a kind 1..5 on a registered pin returns
    0 and changes the registry only: the button of the pin now has [h] in the
    slot of that kind, its other slots, [press_count], timers and
    [last_event_time] are as before, and so are the buttons of the other
    pins. *)
Theorem register_sets_slot (g k : Z) (h : callback) (st : state)
        (b : adv_button_t) :
  registered g st = Some b ->
  1 <= k <= 5 ->
  exists b',
    adv_button_register_callback_fn g (Some h) k st = (0, write_button g b' st)
    /\ registered g (write_button g b' st) = Some b'
    /\ callback_slot k b' = Some h
    /\ (forall k', k' <> k -> callback_slot k' b' = callback_slot k' b)
    /\ press_count b' = press_count b
    /\ press_timer b' = press_timer b
    /\ hold_timer b' = hold_timer b
    /\ last_event_time b' = last_event_time b
    /\ (forall g', g' <> g ->
          registered g' (write_button g b' st) = registered g' st).
Proof.
  intros Hreg Hk. pose proof (find_gpio _ _ _ Hreg) as Hg.
  assert (Hcases : k = 1 \/ k = 2 \/ k = 3 \/ k = 4 \/ k = 5) by lia.
  unfold adv_button_register_callback_fn. unfold registered in Hreg.
  rewrite Hreg.
  destruct Hcases as [-> | [-> | [-> | [-> | ->]]]];
    eexists; (split; [reflexivity|]);
    (split; [apply (write_same _ b); [exact Hreg|exact Hg]|]);
    (split; [reflexivity|]);
    (split; [other_slots|]);
    (split; [reflexivity|]); (split; [reflexivity|]);
    (split; [reflexivity|]); (split; [reflexivity|]);
    intros g' Hne; (apply write_other; [exact Hg|exact Hne]).
Qed.

Lemma register_sets_slot_witness :
  registered 7 (state_after 10 single_and_double_bound) = Some pin7_idle
  /\ 1 <= 4 <= 5
  /\ exists b',
       fst (adv_button_register_callback_fn 7 (Some (user_callback 8)) 4
              (state_after 10 single_and_double_bound)) = 0
       /\ registered 7
            (snd (adv_button_register_callback_fn 7 (Some (user_callback 8)) 4
                    (state_after 10 single_and_double_bound))) = Some b'
       /\ verylongpress_callback_fn b' = Some (user_callback 8)
       /\ doublepress_callback_fn b' = Some (user_callback 2).
Proof.
  assert (Hreg : registered 7 (state_after 10 single_and_double_bound)
                 = Some pin7_idle) by (vm_compute; reflexivity).
  assert (Hk : 1 <= 4 <= 5) by lia.
  split; [exact Hreg|]. split; [exact Hk|].
  destruct (register_sets_slot 7 4 (user_callback 8) _ _ Hreg Hk)
    as (b' & E & Hb' & Hslot & Hother & _).
  exists b'. rewrite E. split; [reflexivity|]. split; [exact Hb'|].
  split; [exact Hslot|].
  assert (H24 : 2 <> 4) by lia. exact (Hother 2 H24).
Defined.

(** ** The edge interrupt *)

(** X6: the edge interrupt of a pin that has no button returns the state it
    was given: [used_gpio] is not overwritten and no timer is started.  For a
    pin with a button it records the pin in [used_gpio] and starts one
    debounce timer, leaving the other alone: FRC2 at 50 Hz when the pin reads
    high, FRC1 at the frequency it already has when the pin reads low.  It
    changes no button and calls no handler. *)
Theorem edge_starts_debounce (g : Z) (st : state) :
  (registered g st = None -> adv_button_intr_callback g st = st)
  /\ (forall b,
         registered g st = Some b ->
         used_gpio (adv_button_intr_callback g st) = g
         /\ buttons (adv_button_intr_callback g st) = buttons st
         /\ dispatched (adv_button_intr_callback g st) = dispatched st
         /\ (gpio_read g st = true ->
             frc_timers (adv_button_intr_callback g st) FRC2
               = mkFrc true true DEBOUNCE_FRECUENCY
             /\ frc_timers (adv_button_intr_callback g st) FRC1
                = frc_timers st FRC1)
         /\ (gpio_read g st = false ->
             frc_timers (adv_button_intr_callback g st) FRC1
               = mkFrc true true (frc_frequency (frc_timers st FRC1))
             /\ frc_timers (adv_button_intr_callback g st) FRC2
                = frc_timers st FRC2)).
Proof.
  unfold registered, adv_button_intr_callback, gpio_read. split.
  - now intros ->.
  - intros b ->. simpl.
    destruct (gpio_level st g); simpl; repeat split; discriminate.
Qed.

Lemma edge_starts_debounce_witness :
  (registered 9 (state_after 10 two_buttons) = None
   /\ adv_button_intr_callback 9 (state_after 10 two_buttons)
      = state_after 10 two_buttons)
  /\ (registered 1 (state_after 10 (two_buttons ++ [Level 1 false]))
        = Some (created_button 1)
      /\ gpio_read 1 (state_after 10 (two_buttons ++ [Level 1 false])) = false
      /\ used_gpio
           (adv_button_intr_callback 1
              (state_after 10 (two_buttons ++ [Level 1 false]))) = 1
      /\ frc_timers
           (adv_button_intr_callback 1
              (state_after 10 (two_buttons ++ [Level 1 false]))) FRC1
         = mkFrc true true 50).
Proof.
  split.
  - assert (Hfree : registered 9 (state_after 10 two_buttons) = None)
      by (vm_compute; reflexivity).
    split; [exact Hfree|].
    exact (proj1 (edge_starts_debounce 9 _) Hfree).
  - assert (Hreg : registered 1 (state_after 10 (two_buttons ++ [Level 1 false]))
                   = Some (created_button 1)) by (vm_compute; reflexivity).
    assert (Hlow : gpio_read 1 (state_after 10 (two_buttons ++ [Level 1 false]))
                   = false) by (vm_compute; reflexivity).
    destruct (proj2 (edge_starts_debounce 1 _) _ Hreg)
      as (Hu & _ & _ & _ & Hl).
    split; [exact Hreg|]. split; [exact Hlow|]. split; [exact Hu|].
    rewrite (proj1 (Hl Hlow)). vm_compute. reflexivity.
Defined.

(** ** The debounce timers *)

(** X7: when the down-debounce function returns, FRC1 is stopped with its
    interrupt off, FRC2 and [used_gpio] are as before and no handler has been
    called.  If the active pin reads high (a bounce) no button has changed.
    If it reads low and has a button, that button has its hold timer armed
    for 10000 ms and [last_event_time] set to the tick count; its slots and
    [press_count] and the buttons of the other pins are as before. *)
Theorem down_debounce_fire (st st' : state) :
  push_down_timer_callback st = Ok st' ->
  frc_timers st' FRC1 = mkFrc false false (frc_frequency (frc_timers st FRC1))
  /\ frc_timers st' FRC2 = frc_timers st FRC2
  /\ used_gpio st' = used_gpio st
  /\ dispatched st' = dispatched st
  /\ (gpio_read (used_gpio st) st = true -> buttons st' = buttons st)
  /\ (gpio_read (used_gpio st) st = false ->
      exists b,
        registered (used_gpio st) st = Some b
        /\ registered (used_gpio st) st'
           = Some (pressed_at (xTaskGetTickCountFromISR st) b)
        /\ timer_armed (hold_timer (pressed_at (xTaskGetTickCountFromISR st) b))
           = Some HOLDPRESS_TIME
        /\ (forall k, callback_slot k (pressed_at (xTaskGetTickCountFromISR st) b)
                      = callback_slot k b)
        /\ press_count (pressed_at (xTaskGetTickCountFromISR st) b)
           = press_count b
        /\ forall g', g' <> used_gpio st ->
                      registered g' st' = registered g' st).
Proof.
  unfold push_down_timer_callback, gpio_read. cbv zeta. intros H.
  change (gpio_level (timer_set_interrupts FRC1 false
                        (timer_set_run FRC1 false st))
            (used_gpio (timer_set_interrupts FRC1 false
                          (timer_set_run FRC1 false st))))
    with (gpio_level st (used_gpio st)) in H.
  destruct (gpio_level st (used_gpio st)) eqn:Hlevel; simpl in H.
  - inversion H; subst st'. clear H. simpl.
    repeat split; try reflexivity. discriminate.
  - destruct (button_find_by_gpio (used_gpio st) (buttons st)) as [b|] eqn:Hfind;
      [|discriminate].
    pose proof (find_gpio _ _ _ Hfind) as Hg.
    inversion H; subst st'. clear H.
    split; [reflexivity|]. split; [reflexivity|]. split; [reflexivity|].
    split; [reflexivity|]. split; [discriminate|]. intros _.
    exists b. split; [exact Hfind|]. split.
    { apply (write_same _ b); [exact Hfind|exact Hg]. }
    split; [reflexivity|]. split.
    { intros k. reflexivity. }
    split; [reflexivity|].
    intros g' Hne.
    etransitivity; [apply write_other; [exact Hg|exact Hne]|reflexivity].
Qed.

Lemma down_debounce_fire_witness :
  push_down_timer_callback
    (state_after 10 (two_buttons ++ [Level 1 false; Tick 33; Edge 1]))
  = Ok (state_after 10
          (two_buttons ++ [Level 1 false; Tick 33; Edge 1; DownDebounce]))
  /\ frc_timers
       (state_after 10
          (two_buttons ++ [Level 1 false; Tick 33; Edge 1; DownDebounce])) FRC1
     = mkFrc false false 50
  /\ registered 1
       (state_after 10
          (two_buttons ++ [Level 1 false; Tick 33; Edge 1; DownDebounce]))
     = Some (pressed_at 33 (created_button 1)).
Proof.
  assert (H : push_down_timer_callback
                (state_after 10 (two_buttons ++ [Level 1 false; Tick 33; Edge 1]))
              = Ok (state_after 10
                      (two_buttons
                         ++ [Level 1 false; Tick 33; Edge 1; DownDebounce])))
    by (vm_compute; reflexivity).
  destruct (down_debounce_fire _ _ H) as (H1 & _ & _ & _ & _ & Hlow).
  split; [exact H|]. split.
  - rewrite H1. vm_compute. reflexivity.
  - vm_compute. reflexivity.
Defined.

(** X8: when the up-debounce function returns, FRC2 is stopped with its
    interrupt off and FRC1 and [used_gpio] are as before.  If the active pin
    reads low (a bounce), no button has changed and no handler has been
    called.  If it reads high, the button of the active pin has its hold
    timer disarmed, whatever the gesture; its slots and [last_event_time]
    and the buttons of the other pins are as before, and at most one handler
    has been called, with the active pin. *)
Theorem up_debounce_fire (tick_ms : Z) (st st' : state) :
  push_up_timer_callback tick_ms st = Ok st' ->
  frc_timers st' FRC2 = mkFrc false false (frc_frequency (frc_timers st FRC2))
  /\ frc_timers st' FRC1 = frc_timers st FRC1
  /\ used_gpio st' = used_gpio st
  /\ (gpio_read (used_gpio st) st = false ->
      buttons st' = buttons st /\ dispatched st' = dispatched st)
  /\ (gpio_read (used_gpio st) st = true ->
      exists b b',
        registered (used_gpio st) st = Some b
        /\ registered (used_gpio st) st' = Some b'
        /\ timer_armed (hold_timer b') = None
        /\ last_event_time b' = last_event_time b
        /\ (forall k, callback_slot k b' = callback_slot k b)
        /\ (forall g', g' <> used_gpio st ->
                       registered g' st' = registered g' st)
        /\ (dispatched st' = dispatched st
            \/ exists h, dispatched st' = dispatched st ++ [(h, used_gpio st)])).
Proof.
  unfold push_up_timer_callback, call_fn, gpio_read. cbv zeta. intros H.
  change (gpio_level (timer_set_interrupts FRC2 false
                        (timer_set_run FRC2 false st))
            (used_gpio (timer_set_interrupts FRC2 false
                          (timer_set_run FRC2 false st))))
    with (gpio_level st (used_gpio st)) in H.
  destruct (gpio_level st (used_gpio st)) eqn:Hlevel.
  2: { inversion H; subst st'. clear H. simpl.
       repeat split; try reflexivity. discriminate. }
  destruct (button_find_by_gpio _ _) as [b|] eqn:Hfind; [|discriminate].
  change (button_find_by_gpio (used_gpio st) (buttons st) = Some b) in Hfind.
  pose proof (find_gpio _ _ _ Hfind) as Hg.
  repeat match type of H with
         | context [if ?c then _ else _] => destruct c eqn:?
         | context [match ?x with Some _ => _ | None => _ end] =>
             destruct x eqn:?
         end;
    try discriminate; inversion H; subst st'; clear H;
    (split; [reflexivity|]); (split; [reflexivity|]); (split; [reflexivity|]);
    (split; [discriminate|]); intros _; exists b; eexists;
    (split; [exact Hfind|]);
    (split; [unfold registered; simpl;
             apply find_store_same; [exact Hg|rewrite Hfind; discriminate]|]);
    (split; [reflexivity|]); (split; [reflexivity|]);
    (split; [intros k; reflexivity|]);
    (split;
     [intros g' Hne; unfold registered; simpl;
      apply find_store_other; [exact Hg|exact Hne]|]);
    first [left; simpl; reflexivity | right; eexists; simpl; reflexivity].
Qed.

Lemma up_debounce_fire_witness :
  push_up_timer_callback 10 (state_after 10 (single_only_release 1060))
  = Ok (state_after 10 (single_only_release 1060 ++ [UpDebounce]))
  /\ frc_timers (state_after 10 (single_only_release 1060 ++ [UpDebounce])) FRC2
     = mkFrc false false 50
  /\ exists b',
       registered 7 (state_after 10 (single_only_release 1060 ++ [UpDebounce]))
       = Some b'
       /\ timer_armed (hold_timer b') = None.
Proof.
  assert (H : push_up_timer_callback 10
                (state_after 10 (single_only_release 1060))
              = Ok (state_after 10 (single_only_release 1060 ++ [UpDebounce])))
    by (vm_compute; reflexivity).
  destruct (up_debounce_fire 10 _ _ H) as (H2 & _ & _ & _ & Hhigh).
  split; [exact H|]. split.
  - rewrite H2. vm_compute. reflexivity.
  - destruct Hhigh as (b & b' & _ & Hb' & Ht & _); [vm_compute; reflexivity|].
    exists b'. split; [exact Hb'|exact Ht].
Defined.

(** ** Faults *)

Lemma push_down_null (st : state) :
  push_down_timer_callback st = NullDeref <->
  gpio_read (used_gpio st) st = false /\ registered (used_gpio st) st = None.
Proof.
  unfold push_down_timer_callback, gpio_read, registered. cbv zeta.
  change (gpio_level (timer_set_interrupts FRC1 false
                        (timer_set_run FRC1 false st))
            (used_gpio (timer_set_interrupts FRC1 false
                          (timer_set_run FRC1 false st))))
    with (gpio_level st (used_gpio st)).
  change (buttons (timer_set_interrupts FRC1 false
                     (timer_set_run FRC1 false st)))
    with (buttons st).
  change (used_gpio (timer_set_interrupts FRC1 false
                       (timer_set_run FRC1 false st)))
    with (used_gpio st).
  destruct (gpio_level st (used_gpio st)); simpl.
  - split; [discriminate|]. intros [H _]. discriminate.
  - destruct (button_find_by_gpio (used_gpio st) (buttons st)); simpl.
    + split; [discriminate|]. intros [_ H]. discriminate.
    + tauto.
Qed.

Lemma push_up_null (tick_ms : Z) (st : state) :
  state_ok st ->
  (push_up_timer_callback tick_ms st = NullDeref <->
   gpio_read (used_gpio st) st = true /\ registered (used_gpio st) st = None).
Proof.
  intros Hok.
  unfold push_up_timer_callback, call_fn, gpio_read, registered. cbv zeta.
  change (gpio_level (timer_set_interrupts FRC2 false
                        (timer_set_run FRC2 false st))
            (used_gpio (timer_set_interrupts FRC2 false
                          (timer_set_run FRC2 false st))))
    with (gpio_level st (used_gpio st)).
  change (buttons (timer_set_interrupts FRC2 false
                     (timer_set_run FRC2 false st)))
    with (buttons st).
  change (used_gpio (timer_set_interrupts FRC2 false
                       (timer_set_run FRC2 false st)))
    with (used_gpio st).
  destruct (gpio_level st (used_gpio st)).
  2: { split; [discriminate|]. intros [H _]. discriminate. }
  destruct (button_find_by_gpio (used_gpio st) (buttons st)) as [b|] eqn:Hfind;
    [|tauto].
  destruct (find_Forall _ _ _ _ (proj1 Hok) Hfind) as [Hs _].
  unfold single_bound in Hs.
  split; [|intros [_ H]; discriminate].
  intros H. exfalso.
  repeat match type of H with
         | context [if ?c then _ else _] => destruct c eqn:?
         | context [match ?x with Some _ => _ | None => _ end] =>
             destruct x eqn:?
         end;
    try discriminate; simpl in *; congruence.
Qed.

Lemma timer_fires_single_runs (g : Z) (st : state) :
  state_ok st ->
  exists st', timer_fires adv_button_single_callback g st = Ok st'.
Proof.
  intros Hok. unfold timer_fires, adv_button_single_callback, call_fn.
  destruct (button_find_by_gpio g (buttons st)) as [b|] eqn:Hfind;
    [|eexists; reflexivity].
  destruct (find_Forall _ _ _ _ (proj1 Hok) Hfind) as [Hs _].
  unfold single_bound in Hs. simpl.
  destruct (singlepress_callback_fn b); [|congruence].
  simpl. eexists; reflexivity.
Qed.

Lemma timer_fires_hold_runs (g : Z) (st : state) :
  exists st', timer_fires adv_button_hold_callback g st = Ok st'.
Proof.
  unfold timer_fires, adv_button_hold_callback, call_fn.
  destruct (button_find_by_gpio g (buttons st)) as [b|];
    [|eexists; reflexivity].
  destruct (negb _); simpl; [destruct (holdpress_callback_fn b)|]; simpl;
    eexists; reflexivity.
Qed.

Lemma destroy_no_null (fuel : nat) (g : Z) (st : state) :
  adv_button_destroy fuel g st <> NullDeref.
Proof.
  unfold adv_button_destroy.
  destruct (buttons st) as [|head next]; [discriminate|].
  destruct (gpio head =? g); [discriminate|].
  assert (Hloop : destroy_loop fuel g next <> NullDeref).
  { induction fuel as [|fuel IH]; simpl; [discriminate|].
    destruct next as [|n rest]; [discriminate|].
    destruct (gpio n =? g); [discriminate|exact IH]. }
  destruct (destroy_loop fuel g next) as [[[button next']|]| |];
    simpl; try discriminate. contradiction.
Qed.

(** X9: in a state where every button has a single-press handler and a
    [press_count] of 0 or 1 (every state reached from start-up), an event
    fails in two ways only.  A debounce fire dereferences NULL exactly when
    it confirms the level of an active pin that has no button: low for the
    down-debounce, high for the up-debounce.  [adv_button_destroy] may not
    return.  Every other event returns. *)
Theorem event_failures (tick_ms : Z) (fuel : nat) (e : event) (st : state) :
  state_ok st ->
  (step tick_ms fuel e st = NullDeref <->
   (e = DownDebounce /\ gpio_read (used_gpio st) st = false
    /\ registered (used_gpio st) st = None)
   \/ (e = UpDebounce /\ gpio_read (used_gpio st) st = true
       /\ registered (used_gpio st) st = None))
  /\ (step tick_ms fuel e st = OutOfFuel -> exists g, e = Destroy g).
Proof.
  intros Hok.
  destruct e; simpl.
  1,2,4,9,10:
    (split; [split; [discriminate|intros [[H _]|[H _]]; discriminate]
            |discriminate]).
  - split.
    + split; [intros H; now apply destroy_no_null in H
             |intros [[H _]|[H _]]; discriminate].
    + intros _. now exists g.
  - split.
    + rewrite push_down_null. split; [tauto|].
      intros [[_ H]|[H _]]; [exact H|discriminate].
    + unfold push_down_timer_callback. cbv zeta.
      destruct (negb _); [|discriminate].
      destruct (button_find_by_gpio _ _); discriminate.
  - split.
    + rewrite (push_up_null tick_ms st Hok). split; [tauto|].
      intros [[H _]|[_ H]]; [discriminate|exact H].
    + intros H. exfalso. revert H.
      unfold push_up_timer_callback, call_fn. cbv zeta.
      repeat match goal with
             | |- context [if ?c then _ else _] => destruct c
             | |- context [match ?x with Some _ => _ | None => _ end] =>
                 destruct x
             end; discriminate.
  - destruct (timer_fires_single_runs g st Hok) as [st' E]. rewrite E.
    split; [split; [discriminate|intros [[H _]|[H _]]; discriminate]
           |discriminate].
  - destruct (timer_fires_hold_runs g st) as [st' E]. rewrite E.
    split; [split; [discriminate|intros [[H _]|[H _]]; discriminate]
           |discriminate].
Qed.

Lemma event_failures_witness :
  state_ok (state_after 10 edge_then_destroy)
  /\ gpio_read (used_gpio (state_after 10 edge_then_destroy))
       (state_after 10 edge_then_destroy) = false
  /\ registered (used_gpio (state_after 10 edge_then_destroy))
       (state_after 10 edge_then_destroy) = None
  /\ step 10 2 DownDebounce (state_after 10 edge_then_destroy) = NullDeref.
Proof.
  assert (Hrun : run 10 2 edge_then_destroy initial_state
                 = Ok (state_after 10 edge_then_destroy))
    by (vm_compute; reflexivity).
  assert (Hok : state_ok (state_after 10 edge_then_destroy))
    by exact (run_ok _ _ _ _ _ Hrun initial_ok).
  assert (Hlow : gpio_read (used_gpio (state_after 10 edge_then_destroy))
                   (state_after 10 edge_then_destroy) = false)
    by (vm_compute; reflexivity).
  assert (Hnone : registered (used_gpio (state_after 10 edge_then_destroy))
                    (state_after 10 edge_then_destroy) = None)
    by (vm_compute; reflexivity).
  split; [exact Hok|]. split; [exact Hlow|]. split; [exact Hnone|].
  apply (proj1 (event_failures 10 2 DownDebounce _ Hok)).
  left. split; [reflexivity|]. split; [exact Hlow|exact Hnone].
Defined.

Lemma destroy_unlinked_frame (b : adv_button_t) (s : state) :
  buttons (destroy_unlinked b s) = buttons s
  /\ used_gpio (destroy_unlinked b s) = used_gpio s
  /\ gpio_level (destroy_unlinked b s) = gpio_level s
  /\ tick_count (destroy_unlinked b s) = tick_count s
  /\ frc_timers (destroy_unlinked b s) = frc_timers s
  /\ isr_table (destroy_unlinked b s) = isr_table s.
Proof.
  unfold destroy_unlinked. cbn -[Z.eqb].
  destruct (gpio b =? 0); repeat split.
Qed.

(** X10: [adv_button_destroy] neither stops a debounce timer nor clears
    [used_gpio].  So when the head button of the registry is destroyed
    between the edge interrupt of its pin and the fire of the debounce timer
    that interrupt started, the timer is still running after the destruction
    and its fire, finding no button for the active pin, dereferences
    NULL. *)
Theorem destroy_during_debounce (tick_ms : Z) (fuel : nat) (g : Z)
        (st : state) (b : adv_button_t) (rest : list adv_button_t) :
  buttons st = b :: rest ->
  gpio b = g ->
  ~ In g (map gpio rest) ->
  (exists st',
      run tick_ms fuel [Edge g; Destroy g] st = Ok st'
      /\ frc_timers st' = frc_timers (adv_button_intr_callback g st)
      /\ used_gpio st' = g
      /\ registered g st' = None)
  /\ (gpio_read g st = false ->
      frc_run (frc_timers (adv_button_intr_callback g st) FRC1) = true
      /\ run tick_ms fuel [Edge g; Destroy g; DownDebounce] st = NullDeref)
  /\ (gpio_read g st = true ->
      frc_run (frc_timers (adv_button_intr_callback g st) FRC2) = true
      /\ run tick_ms fuel [Edge g; Destroy g; UpDebounce] st = NullDeref).
Proof.
  intros Eb Hg Hrest.
  assert (Hreg : registered g st = Some b).
  { unfold registered. rewrite Eb. simpl. rewrite Hg. now rewrite Z.eqb_refl. }
  destruct (edge_registered g st b Hreg) as (Eb1 & Eu1 & El1 & _ & _).
  set (s1 := adv_button_intr_callback g st) in *.
  assert (Hd : adv_button_destroy fuel g s1
               = Ok (destroy_unlinked b (set_buttons rest s1))).
  { unfold adv_button_destroy. rewrite Eb1, Eb, Hg. now rewrite Z.eqb_refl. }
  destruct (destroy_unlinked_frame b (set_buttons rest s1))
    as (Fb & Fu & Fl & _ & Ff & _).
  set (s2 := destroy_unlinked b (set_buttons rest s1)) in *.
  assert (Hnone : registered g s2 = None).
  { unfold registered. rewrite Fb. simpl. now apply find_none_pins. }
  assert (Hu2 : used_gpio s2 = g) by (rewrite Fu; exact Eu1).
  assert (Hl2 : gpio_read g s2 = gpio_read g st).
  { unfold gpio_read. rewrite Fl. simpl. now rewrite El1. }
  split; [|split].
  - exists s2. split.
    + simpl. fold s1. rewrite Hd. reflexivity.
    + split; [exact Ff|]. split; [exact Hu2|exact Hnone].
  - intros Hlow. split.
    + unfold s1, adv_button_intr_callback. unfold registered in Hreg.
      rewrite Hreg. simpl. unfold gpio_read in Hlow. now rewrite Hlow.
    + simpl. fold s1. rewrite Hd. simpl.
      assert (E : push_down_timer_callback s2 = NullDeref).
      { apply push_down_null. rewrite Hu2, Hl2. now split. }
      now rewrite E.
  - intros Hhigh. split.
    + unfold s1, adv_button_intr_callback. unfold registered in Hreg.
      rewrite Hreg. simpl. unfold gpio_read in Hhigh. now rewrite Hhigh.
    + simpl. fold s1. rewrite Hd. simpl.
      assert (E : push_up_timer_callback tick_ms s2 = NullDeref).
      { unfold push_up_timer_callback. cbv zeta.
        change (gpio_read (used_gpio (timer_set_interrupts FRC2 false
                                        (timer_set_run FRC2 false s2)))
                  (timer_set_interrupts FRC2 false
                     (timer_set_run FRC2 false s2)))
          with (gpio_read (used_gpio s2) s2).
        change (button_find_by_gpio
                  (used_gpio (timer_set_interrupts FRC2 false
                                (timer_set_run FRC2 false s2)))
                  (buttons (timer_set_interrupts FRC2 false
                              (timer_set_run FRC2 false s2))))
          with (registered (used_gpio s2) s2).
        now rewrite Hu2, Hl2, Hhigh, Hnone. }
      now rewrite E.
Qed.

Lemma destroy_during_debounce_witness :
  buttons (state_after 10 (two_buttons ++ [Level 2 false]))
    = [created_button 2; created_button 1]
  /\ gpio (created_button 2) = 2
  /\ gpio_read 2 (state_after 10 (two_buttons ++ [Level 2 false])) = false
  /\ run 10 2 [Edge 2; Destroy 2; DownDebounce]
       (state_after 10 (two_buttons ++ [Level 2 false])) = NullDeref.
Proof.
  assert (Eb : buttons (state_after 10 (two_buttons ++ [Level 2 false]))
               = [created_button 2; created_button 1])
    by (vm_compute; reflexivity).
  assert (Hlow : gpio_read 2 (state_after 10 (two_buttons ++ [Level 2 false]))
                 = false) by (vm_compute; reflexivity).
  assert (Hrest : In 2 (map gpio [created_button 1]) -> False).
  { simpl. intros [H|[]]. discriminate H. }
  split; [exact Eb|]. split; [reflexivity|]. split; [exact Hlow|].
  exact (proj2 (proj1 (proj2 (destroy_during_debounce 10 2 2 _ _ _ Eb eq_refl
                                Hrest)) Hlow)).
Defined.

(** ** One active pin for all buttons *)

Lemma push_down_others (st st' : state) :
  push_down_timer_callback st = Ok st' ->
  forall g', g' <> used_gpio st -> registered g' st' = registered g' st.
Proof.
  unfold push_down_timer_callback. cbv zeta. intros H g' Hne.
  destruct (negb _); [|now inversion H].
  destruct (button_find_by_gpio _ _) as [b|] eqn:Hfind; [|discriminate].
  inversion H; subst st'. unfold registered. simpl.
  apply find_store_other; [exact (find_gpio _ _ _ Hfind)|exact Hne].
Qed.

(** X11: the pin under debounce is the one of the last edge.  When two pins
    with buttons go low and raise their interrupts one after the other
    before the down-debounce timer fires, the fire confirms the press of the
    second pin only: its button gets its hold timer armed and its
    [last_event_time] set, and the button of the first pin is left as it
    was, its press unrecorded. *)
Theorem last_edge_is_debounced (tick_ms : Z) (fuel : nat) (g1 g2 : Z)
        (st : state) (b1 b2 : adv_button_t) :
  registered g1 st = Some b1 ->
  registered g2 st = Some b2 ->
  g1 <> g2 ->
  gpio_read g1 st = false ->
  gpio_read g2 st = false ->
  exists st',
    run tick_ms fuel [Edge g1; Edge g2; DownDebounce] st = Ok st'
    /\ used_gpio st' = g2
    /\ registered g2 st' = Some (pressed_at (tick_count st) b2)
    /\ registered g1 st' = Some b1
    /\ dispatched st' = dispatched st.
Proof.
  intros Hr1 Hr2 Hne Hl1 Hl2.
  destruct (edge_registered g1 st b1 Hr1) as (Eb1 & Eu1 & El1 & Et1 & Ed1).
  set (s1 := adv_button_intr_callback g1 st) in *.
  assert (Hr2' : registered g2 s1 = Some b2).
  { unfold registered. rewrite Eb1. exact Hr2. }
  destruct (edge_registered g2 s1 b2 Hr2') as (Eb2 & Eu2 & El2 & Et2 & Ed2).
  set (s2 := adv_button_intr_callback g2 s1) in *.
  destruct (push_down_confirmed s2 b2) as (st' & E & Hb2 & Hu & _ & _ & Hd).
  { unfold registered. rewrite Eu2, Eb2. exact Hr2'. }
  { unfold gpio_read. rewrite Eu2, El2, El1. exact Hl2. }
  exists st'. split.
  - simpl. fold s1. fold s2. rewrite E. reflexivity.
  - rewrite Eu2 in Hb2, Hu. rewrite Et2, Et1 in Hb2.
    split; [exact Hu|]. split; [exact Hb2|]. split.
    + rewrite (push_down_others _ _ E) by (rewrite Eu2; exact Hne).
      unfold registered. rewrite Eb2, Eb1. exact Hr1.
    + rewrite Hd, Ed2, Ed1. reflexivity.
Qed.

Lemma last_edge_is_debounced_witness :
  registered 1 (state_after 10 (two_buttons ++ [Level 1 false; Level 2 false]))
    = Some (created_button 1)
  /\ registered 2
       (state_after 10 (two_buttons ++ [Level 1 false; Level 2 false]))
     = Some (created_button 2)
  /\ 1 <> 2
  /\ gpio_read 1 (state_after 10 (two_buttons ++ [Level 1 false; Level 2 false]))
     = false
  /\ gpio_read 2 (state_after 10 (two_buttons ++ [Level 1 false; Level 2 false]))
     = false
  /\ exists st',
       run 10 2 [Edge 1; Edge 2; DownDebounce]
         (state_after 10 (two_buttons ++ [Level 1 false; Level 2 false]))
       = Ok st'
       /\ registered 2 st' = Some (pressed_at 0 (created_button 2))
       /\ registered 1 st' = Some (created_button 1).
Proof.
  assert (H1 : registered 1
                 (state_after 10 (two_buttons ++ [Level 1 false; Level 2 false]))
               = Some (created_button 1)) by (vm_compute; reflexivity).
  assert (H2 : registered 2
                 (state_after 10 (two_buttons ++ [Level 1 false; Level 2 false]))
               = Some (created_button 2)) by (vm_compute; reflexivity).
  assert (Hne : 1 <> 2) by lia.
  assert (L1 : gpio_read 1
                 (state_after 10 (two_buttons ++ [Level 1 false; Level 2 false]))
               = false) by (vm_compute; reflexivity).
  assert (L2 : gpio_read 2
                 (state_after 10 (two_buttons ++ [Level 1 false; Level 2 false]))
               = false) by (vm_compute; reflexivity).
  split; [exact H1|]. split; [exact H2|]. split; [exact Hne|].
  split; [exact L1|]. split; [exact L2|].
  destruct (last_edge_is_debounced 10 2 1 2 _ _ _ H1 H2 Hne L1 L2)
    as (st' & E & _ & Hb2 & Hb1 & _).
  exists st'. split; [exact E|]. split; [exact Hb2|exact Hb1].
Defined.

(** ** More timelines *)

(** The pin takes a level at a tick and raises its interrupt. *)
Lemma edge_arrives (tick_ms : Z) (fuel : nat) (g : Z) (high : bool) (t : Z)
      (st : state) (b : adv_button_t) :
  registered g st = Some b ->
  exists st1,
    run tick_ms fuel [Level g high; Tick t; Edge g] st = Ok st1
    /\ registered g st1 = Some b
    /\ gpio_read g st1 = high
    /\ tick_count st1 = uint32 t
    /\ used_gpio st1 = g
    /\ dispatched st1 = dispatched st.
Proof.
  intros Hreg.
  set (s1 := set_tick_count (uint32 t)
               (set_gpio_level (upd (gpio_level st) g high) st)).
  assert (Hreg1 : registered g s1 = Some b) by exact Hreg.
  destruct (edge_registered g s1 b Hreg1) as (Eb & Eu & El & Et & Ed).
  exists (adv_button_intr_callback g s1).
  split; [reflexivity|]. split; [|split; [|split; [|split]]].
  - unfold registered. rewrite Eb. exact Hreg1.
  - unfold gpio_read. rewrite El. simpl. apply upd_same.
  - rewrite Et. reflexivity.
  - exact Eu.
  - rewrite Ed. reflexivity.
Qed.

(** A short press and release of a button with a double-press handler and a
    [press_count] of 0, followed by the fire of the press timer. *)
Lemma short_pair_then_timer (tick_ms : Z) (fuel : nat) (g t0 t1 : Z)
      (st : state) (b : adv_button_t) (s d : callback) :
  0 < tick_ms ->
  registered g st = Some b ->
  singlepress_callback_fn b = Some s ->
  doublepress_callback_fn b = Some d ->
  press_count b = 0 ->
  0 <= t0 <= t1 -> t1 < 2 ^ 32 ->
  (t1 - t0) * tick_ms < LONGPRESS_TIME ->
  exists st' b',
    run tick_ms fuel (press_release_pair g t0 t1 ++ [PressTimer g]) st = Ok st'
    /\ dispatched_since st st' [(s, g)]
    /\ registered g st' = Some b'
    /\ singlepress_callback_fn b' = Some s
    /\ doublepress_callback_fn b' = Some d
    /\ press_count b' = 0.
Proof.
  intros HP Hreg Hs Hd Hpc Ht0 Ht1 Hshort.
  destruct (short_pair_run tick_ms fuel g t0 t1 st b d HP Hreg Hd Ht0 Ht1 Hshort)
    as (st1 & E1 & Hres).
  rewrite Hpc in Hres. change (uint8 (0 + 1) >? 1) with false in Hres.
  destruct Hres as [Hdis1 Hreg1].
  destruct (press_timer_event tick_ms fuel g st1 _ s Hreg1 Hs)
    as (st2 & E2 & Hdis2 & Hreg2).
  exists st2. eexists. split.
  - rewrite run_app, E1. simpl. simpl in E2. rewrite E2. reflexivity.
  - split; [|split; [exact Hreg2|split; [exact Hs|split; [exact Hd|reflexivity]]]].
    unfold dispatched_since in *. rewrite Hdis2, Hdis1, app_nil_r. reflexivity.
Qed.

(** X12: with a double-press handler bound, a short press is delivered by
    the press timer, not at the release: a short press/release pair calls
    nothing, and the fire of the press timer then calls the single-press
    handler once and brings [press_count] back to 0.  Two such pairs, each
    followed by the fire of the press timer (the second release came after
    the window of the first), call the single-press handler twice and the
    double-press handler never. *)
Theorem single_press_after_window (tick_ms : Z) (fuel : nat) (g : Z)
        (st : state) (b : adv_button_t) (s d : callback)
        (t0 t1 t2 t3 : Z) :
  0 < tick_ms ->
  registered g st = Some b ->
  singlepress_callback_fn b = Some s ->
  doublepress_callback_fn b = Some d ->
  press_count b = 0 ->
  0 <= t0 <= t1 -> t1 <= t2 <= t3 -> t3 < 2 ^ 32 ->
  (t1 - t0) * tick_ms < LONGPRESS_TIME ->
  (t3 - t2) * tick_ms < LONGPRESS_TIME ->
  (exists st1,
      run tick_ms fuel (press_release_pair g t0 t1) st = Ok st1
      /\ dispatched_since st st1 []
      /\ exists st2 b2,
           step tick_ms fuel (PressTimer g) st1 = Ok st2
           /\ dispatched_since st st2 [(s, g)]
           /\ registered g st2 = Some b2
           /\ press_count b2 = 0)
  /\ exists st' b',
       run tick_ms fuel
         (press_release_pair g t0 t1 ++ [PressTimer g]
            ++ press_release_pair g t2 t3 ++ [PressTimer g]) st = Ok st'
       /\ dispatched_since st st' [(s, g); (s, g)]
       /\ registered g st' = Some b'
       /\ press_count b' = 0.
Proof.
  intros HP Hreg Hs Hd Hpc H01 H23 H3 Hs1 Hs2.
  split.
  - destruct (short_pair_run tick_ms fuel g t0 t1 st b d)
      as (st1 & E1 & Hres); try assumption; try lia.
    rewrite Hpc in Hres. change (uint8 (0 + 1) >? 1) with false in Hres.
    destruct Hres as [Hdis1 Hreg1].
    exists st1. split; [exact E1|]. split; [exact Hdis1|].
    destruct (press_timer_event tick_ms fuel g st1 _ s Hreg1 Hs)
      as (st2 & E2 & Hdis2 & Hreg2).
    exists st2. eexists. split; [exact E2|].
    split; [|split; [exact Hreg2|reflexivity]].
    unfold dispatched_since in *. rewrite Hdis2, Hdis1, app_nil_r. reflexivity.
  - destruct (short_pair_then_timer tick_ms fuel g t0 t1 st b s d)
      as (st1 & b1 & E1 & Hdis1 & Hreg1 & Hsb1 & Hdb1 & Hpc1);
      try assumption; try lia.
    destruct (short_pair_then_timer tick_ms fuel g t2 t3 st1 b1 s d)
      as (st2 & b2 & E2 & Hdis2 & Hreg2 & _ & _ & Hpc2);
      try assumption; try lia.
    exists st2, b2. split.
    + rewrite app_assoc, run_app, E1. simpl bind. exact E2.
    + split; [|split; [exact Hreg2|exact Hpc2]].
      unfold dispatched_since in *. rewrite Hdis2, Hdis1, <- app_assoc.
      reflexivity.
Qed.

Lemma single_press_after_window_witness :
  0 < 10
  /\ registered 7 (state_after 10 single_and_double_bound) = Some pin7_idle
  /\ singlepress_callback_fn pin7_idle = Some (user_callback 1)
  /\ doublepress_callback_fn pin7_idle = Some (user_callback 2)
  /\ press_count pin7_idle = 0
  /\ 0 <= 0 <= 5 /\ 5 <= 45 <= 50 /\ 50 < 2 ^ 32
  /\ (5 - 0) * 10 < LONGPRESS_TIME
  /\ (50 - 45) * 10 < LONGPRESS_TIME
  /\ exists st' b',
       run 10 2
         (press_release_pair 7 0 5 ++ [PressTimer 7]
            ++ press_release_pair 7 45 50 ++ [PressTimer 7])
         (state_after 10 single_and_double_bound) = Ok st'
       /\ dispatched st' = [(user_callback 1, 7); (user_callback 1, 7)]
       /\ registered 7 st' = Some b'
       /\ press_count b' = 0.
Proof.
  assert (HP : 0 < 10) by lia.
  assert (Hreg : registered 7 (state_after 10 single_and_double_bound)
                 = Some pin7_idle) by (vm_compute; reflexivity).
  assert (H01 : 0 <= 0 <= 5) by lia.
  assert (H23 : 5 <= 45 <= 50) by lia.
  assert (H3 : 50 < 2 ^ 32) by lia.
  assert (Hs1 : (5 - 0) * 10 < LONGPRESS_TIME) by (vm_compute; reflexivity).
  assert (Hs2 : (50 - 45) * 10 < LONGPRESS_TIME) by (vm_compute; reflexivity).
  split; [exact HP|]. split; [exact Hreg|]. split; [reflexivity|].
  split; [reflexivity|]. split; [reflexivity|]. split; [exact H01|].
  split; [exact H23|]. split; [exact H3|]. split; [exact Hs1|].
  split; [exact Hs2|].
  exact (proj2 (single_press_after_window 10 2 7 _ pin7_idle (user_callback 1)
                  (user_callback 2) 0 5 45 50 HP Hreg eq_refl eq_refl eq_refl
                  H01 H23 H3 Hs1 Hs2)).
Defined.

(** X13: a hold does not end the gesture.  When the hold timer fires while
    the pin is still low, the hold-press handler (or [no_function_callback])
    is called; when the pin is then released more than 1200 ms after the
    press, the release is classified as well and the very-long-press handler
    (or its fallback) is called too: two calls for one press, in that
    order. *)
Theorem hold_then_release (tick_ms : Z) (fuel : nat) (g : Z) (st : state)
        (b : adv_button_t) (s : callback) (t0 t1 : Z) :
  0 < tick_ms ->
  registered g st = Some b ->
  singlepress_callback_fn b = Some s ->
  0 <= t0 <= t1 -> t1 < 2 ^ 32 ->
  VERYLONGPRESS_TIME < (t1 - t0) * tick_ms ->
  exists st' b',
    run tick_ms fuel (hold_and_release g t0 t1) st = Ok st'
    /\ dispatched_since st st'
         [(hold_handler b, g); (very_long_handler b s, g)]
    /\ registered g st' = Some b'
    /\ press_count b' = 0
    /\ timer_armed (hold_timer b') = None.
Proof.
  intros HP Hreg Hs Ht0 Ht1 Hlong.
  destruct (edge_arrives tick_ms fuel g false t0 st b Hreg)
    as (s1 & E1 & Hr1 & Hl1 & Hk1 & Hu1 & Hd1).
  destruct (push_down_confirmed s1 b) as (s2 & E2 & Hr2 & Hu2 & Hl2 & _ & Hd2).
  { now rewrite Hu1. }
  { now rewrite Hu1. }
  rewrite Hu1 in Hr2. rewrite Hk1 in Hr2.
  destruct (hold_event_pressed tick_ms fuel g s2 _ Hr2)
    as (s3 & E3 & Hd3 & Hr3).
  { unfold gpio_read. rewrite Hl2. exact Hl1. }
  destruct (edge_arrives tick_ms fuel g true t1 s3 _ Hr3)
    as (s4 & E4 & Hr4 & Hl4 & Hk4 & Hu4 & Hd4).
  assert (Hrel : confirmed_release s4
                   (set_press_count 0 (pressed_at (uint32 t0) b))).
  { split; rewrite Hu4; assumption. }
  destruct (push_up_very_long tick_ms s4 _ s HP Hrel Hs)
    as (s5 & E5 & Hd5 & Hr5).
  { unfold elapsed_ms, elapsed_ticks, xTaskGetTickCountFromISR. rewrite Hk4.
    simpl. rewrite uint32_diff by assumption. exact Hlong. }
  exists s5. eexists. split.
  - unfold hold_and_release.
    change [Level g false; Tick t0; Edge g; DownDebounce; HoldTimer g;
            Level g true; Tick t1; Edge g; UpDebounce]
      with ([Level g false; Tick t0; Edge g]
              ++ [DownDebounce; HoldTimer g]
              ++ [Level g true; Tick t1; Edge g] ++ [UpDebounce]).
    rewrite run_app, E1. cbn [bind].
    rewrite run_app. cbn [run bind step]. rewrite E2. cbn [bind].
    cbn [step] in E3. rewrite E3. cbn [bind].
    rewrite run_app, E4. cbn [bind run step]. rewrite E5. reflexivity.
  - rewrite Hu4 in Hd5, Hr5.
    split; [|split; [exact Hr5|split; reflexivity]].
    unfold dispatched_since in *.
    rewrite Hd5, Hd4, Hd3, Hd2, Hd1, <- app_assoc. reflexivity.
Qed.

Lemma hold_then_release_witness :
  0 < 10
  /\ registered 7 (state_after 10 single_and_double_bound) = Some pin7_idle
  /\ singlepress_callback_fn pin7_idle = Some (user_callback 1)
  /\ 0 <= 0 <= 1100 /\ 1100 < 2 ^ 32
  /\ VERYLONGPRESS_TIME < (1100 - 0) * 10
  /\ exists st' b',
       run 10 2 (hold_and_release 7 0 1100)
         (state_after 10 single_and_double_bound) = Ok st'
       /\ dispatched st'
          = [(no_function_callback, 7); (user_callback 1, 7)]
       /\ registered 7 st' = Some b'
       /\ press_count b' = 0.
Proof.
  assert (HP : 0 < 10) by lia.
  assert (Hreg : registered 7 (state_after 10 single_and_double_bound)
                 = Some pin7_idle) by (vm_compute; reflexivity).
  assert (Ht0 : 0 <= 0 <= 1100) by lia.
  assert (Ht1 : 1100 < 2 ^ 32) by lia.
  assert (Hlong : VERYLONGPRESS_TIME < (1100 - 0) * 10)
    by (vm_compute; reflexivity).
  split; [exact HP|]. split; [exact Hreg|]. split; [reflexivity|].
  split; [exact Ht0|]. split; [exact Ht1|]. split; [exact Hlong|].
  destruct (hold_then_release 10 2 7 _ pin7_idle (user_callback 1) 0 1100
              HP Hreg eq_refl Ht0 Ht1 Hlong)
    as (st' & b' & E & Hd & Hr & Hc & _).
  exists st', b'. split; [exact E|]. split; [exact Hd|].
  split; [exact Hr|exact Hc].
Defined.

(** ** Calls of handlers *)

Lemma timer_fires_call
      (f : adv_button_t -> state -> result (adv_button_t * state))
      (g : Z) (st st' : state) :
  (forall b b' s s', f b s = Ok (b', s') ->
      dispatched s' = dispatched s
      \/ exists h, dispatched s' = dispatched s ++ [(h, gpio b)]) ->
  timer_fires f g st = Ok st' ->
  dispatched st' = dispatched st
  \/ exists h, dispatched st' = dispatched st ++ [(h, g)].
Proof.
  unfold timer_fires. intros Hf H.
  destruct (button_find_by_gpio g (buttons st)) as [b|] eqn:Hfind;
    [|inversion H; now left].
  destruct (f b st) as [[b' s']| |] eqn:E; simpl in H; try discriminate.
  inversion H; subst st'. simpl.
  rewrite <- (find_gpio _ _ _ Hfind). exact (Hf _ _ _ _ E).
Qed.

(** X14: an event calls at most one handler, and only three kinds of event
    call any: the fire of the up-debounce timer, with the active pin, and
    the fires of the press timer and of the hold timer of a button, with the
    pin of that button.  Creation, registration, destruction, the edge
    interrupt and the fire of the down-debounce timer call none. *)
Theorem one_call_per_event (tick_ms : Z) (fuel : nat) (e : event)
        (st st' : state) :
  step tick_ms fuel e st = Ok st' ->
  match e with
  | UpDebounce =>
      dispatched st' = dispatched st
      \/ exists h, dispatched st' = dispatched st ++ [(h, used_gpio st)]
  | PressTimer g | HoldTimer g =>
      dispatched st' = dispatched st
      \/ exists h, dispatched st' = dispatched st ++ [(h, g)]
  | _ => dispatched st' = dispatched st
  end.
Proof.
  destruct e; simpl; intros H.
  - inversion H; subst st'. unfold adv_button_create.
    destruct (button_find_by_gpio g (buttons st)); [reflexivity|].
    destruct (buttons st); cbn -[Z.eqb]; now destruct (g =? 0).
  - inversion H; subst st'. unfold adv_button_register_callback_fn.
    destruct (button_find_by_gpio g (buttons st)); [|reflexivity].
    destruct button_callback_type as [|p|p]; try reflexivity.
    destruct p as [[[|p|]|[|p|]|]|[[|p|]|[|p|]|]|]; try reflexivity.
    now destruct cb.
  - unfold adv_button_destroy in H.
    destruct (buttons st) as [|head next]; [now inversion H|].
    assert (Hun : forall b s, dispatched (destroy_unlinked b s) = dispatched s).
    { intros b s. unfold destroy_unlinked. cbn -[Z.eqb].
      now destruct (gpio b =? 0). }
    destruct (gpio head =? g).
    + inversion H; subst st'. now rewrite Hun.
    + destruct (destroy_loop fuel g next) as [[[button next']|]| |];
        simpl in H; try discriminate; inversion H; subst st';
        [now rewrite Hun|reflexivity].
  - inversion H; subst st'. unfold adv_button_intr_callback.
    destruct (button_find_by_gpio g (buttons st)); [|reflexivity].
    now destruct (gpio_read _ _).
  - unfold push_down_timer_callback in H. cbv zeta in H.
    destruct (negb _); [|now inversion H].
    destruct (button_find_by_gpio _ _); [|discriminate].
    now inversion H.
  - unfold push_up_timer_callback, call_fn in H. cbv zeta in H.
    destruct (gpio_read _ _); [|inversion H; now left].
    destruct (button_find_by_gpio _ _) as [b|]; [|discriminate].
    repeat match type of H with
           | context [if ?c then _ else _] => destruct c eqn:?
           | context [match ?x with Some _ => _ | None => _ end] =>
               destruct x eqn:?
           end;
      try discriminate; inversion H; subst st'; clear H;
      first [left; reflexivity | right; eexists; reflexivity].
  - refine (timer_fires_call _ _ _ _ _ H).
    intros b b' s s'. unfold adv_button_single_callback, call_fn. simpl.
    destruct (singlepress_callback_fn b); simpl; [|discriminate].
    intros [= <- <-]. right. eexists. reflexivity.
  - refine (timer_fires_call _ _ _ _ _ H).
    intros b b' s s'. unfold adv_button_hold_callback, call_fn.
    destruct (negb _); [simpl; destruct (holdpress_callback_fn b)|]; simpl;
      intros [= <- <-]; first [left; reflexivity | right; eexists; reflexivity].
  - now inversion H.
  - now inversion H.
Qed.

Lemma one_call_per_event_witness :
  step 10 2 UpDebounce (state_after 10 (single_only_release 1060))
  = Ok (state_after 10 (single_only_release 1060 ++ [UpDebounce]))
  /\ (dispatched (state_after 10 (single_only_release 1060 ++ [UpDebounce]))
      = dispatched (state_after 10 (single_only_release 1060))
      \/ exists h,
           dispatched (state_after 10 (single_only_release 1060 ++ [UpDebounce]))
           = dispatched (state_after 10 (single_only_release 1060)) ++ [(h, 7)]).
Proof.
  assert (H : step 10 2 UpDebounce (state_after 10 (single_only_release 1060))
              = Ok (state_after 10 (single_only_release 1060 ++ [UpDebounce])))
    by (vm_compute; reflexivity).
  split; [exact H|].
  exact (one_call_per_event 10 2 UpDebounce _ _ H).
Defined.

(** ** Configuration of the pins *)

Lemma destroy_unlinked_config (b : adv_button_t) (s : state) (p : Z) :
  gpio_input (destroy_unlinked b s) 0 = gpio_input s 0
  /\ (p <> gpio b -> pin_config (destroy_unlinked b s) p = pin_config s p).
Proof.
  unfold destroy_unlinked, pin_config. cbn -[Z.eqb upd].
  destruct (gpio b =? 0) eqn:E0; cbn -[Z.eqb upd].
  - split; [reflexivity|]. intros Hp. now rewrite upd_other.
  - apply Z.eqb_neq in E0. split.
    + apply upd_other. congruence.
    + intros Hp. now rewrite !upd_other.
Qed.

Lemma step_config (tick_ms : Z) (fuel : nat) (e : event) (st st' : state) :
  step tick_ms fuel e st = Ok st' ->
  gpio_input st' 0 = gpio_input st 0
  /\ forall p, leaves_pin p e -> pin_config st' p = pin_config st p.
Proof.
  unfold leaves_pin. destruct e; simpl; intros H.
  - inversion H; subst st'. unfold adv_button_create, pin_config.
    destruct (button_find_by_gpio g (buttons st)); [now split|].
    destruct (buttons st); cbn -[Z.eqb upd];
      (destruct (g =? 0) eqn:E0;
       [apply Z.eqb_eq in E0|apply Z.eqb_neq in E0]);
      cbn -[Z.eqb upd];
      (split; [try reflexivity; apply upd_other; congruence|]);
      intros p [Hc _]; assert (p <> g) by congruence;
      now rewrite ?upd_other.
  - inversion H; subst st'. unfold adv_button_register_callback_fn, pin_config.
    destruct (button_find_by_gpio g (buttons st)); [|now split].
    destruct button_callback_type as [|p|p]; try now split.
    destruct p as [[[|p|]|[|p|]|]|[[|p|]|[|p|]|]|]; try now split.
    now destruct cb.
  - unfold adv_button_destroy in H.
    destruct (buttons st) as [|head next] eqn:Eb; [now inversion H|].
    destruct (gpio head =? g) eqn:Eh.
    + apply Z.eqb_eq in Eh. inversion H; subst st'.
      destruct (destroy_unlinked_config head (set_buttons next st) 0) as [H0 _].
      split; [exact H0|]. intros p [_ Hd].
      apply (destroy_unlinked_config head (set_buttons next st) p). congruence.
    + destruct (destroy_loop fuel g next) as [[[button next']|]| |] eqn:El;
        simpl in H; try discriminate; inversion H; subst st'; [|now split].
      apply destroy_loop_unlinks in El. destruct El as [_ Hg].
      destruct (destroy_unlinked_config button
                  (set_buttons (head :: next') st) 0) as [H0 _].
      split; [exact H0|]. intros p [_ Hd].
      apply (destroy_unlinked_config button (set_buttons (head :: next') st) p).
      congruence.
  - inversion H; subst st'. unfold adv_button_intr_callback, pin_config.
    destruct (button_find_by_gpio g (buttons st)); [|now split].
    now destruct (gpio_read _ _).
  - unfold push_down_timer_callback in H. cbv zeta in H.
    destruct (negb _); [|now inversion H].
    destruct (button_find_by_gpio _ _); [|discriminate].
    now inversion H.
  - unfold push_up_timer_callback, call_fn in H. cbv zeta in H.
    destruct (gpio_read _ _); [|now inversion H].
    destruct (button_find_by_gpio _ _) as [b|]; [|discriminate].
    repeat match type of H with
           | context [if ?c then _ else _] => destruct c eqn:?
           | context [match ?x with Some _ => _ | None => _ end] =>
               destruct x eqn:?
           end;
      try discriminate; inversion H; subst st'; clear H; now split.
  - unfold timer_fires, adv_button_single_callback, call_fn in H.
    destruct (button_find_by_gpio _ _) as [b|]; [|now inversion H].
    simpl in H. destruct (singlepress_callback_fn b); [|discriminate].
    now inversion H.
  - unfold timer_fires, adv_button_hold_callback, call_fn in H.
    destruct (button_find_by_gpio _ _) as [b|]; [|now inversion H].
    destruct (negb _); simpl in H; [destruct (holdpress_callback_fn b)|];
      now inversion H.
  - now inversion H.
  - now inversion H.
Qed.

(** X15: the library never enables or disables pin 0 as an input; and the
    configuration of a pin (input enabled, pull-up, edge interrupt) changes
    only at a creation or a destruction of that pin: a sequence of events
    with neither leaves it as it was. *)
Theorem pin_configuration (tick_ms : Z) (fuel : nat) (es : list event)
        (st st' : state) :
  run tick_ms fuel es st = Ok st' ->
  gpio_input st' 0 = gpio_input st 0
  /\ forall p, Forall (leaves_pin p) es -> pin_config st' p = pin_config st p.
Proof.
  revert st. induction es as [|e es IH]; simpl; intros st H.
  - inversion H; subst st'. now split.
  - destruct (step tick_ms fuel e st) as [s1| |] eqn:E; try discriminate.
    simpl in H. destruct (step_config _ _ _ _ _ E) as [H0 Hp].
    destruct (IH _ H) as [H0' Hp']. split.
    + now rewrite H0', H0.
    + intros p HF. inversion HF as [|? ? He Hes]; subst.
      now rewrite (Hp' p Hes), (Hp p He).
Qed.

Lemma pin_configuration_witness :
  run 10 2 (Create 0 :: press_release_pair 0 0 5 ++ [Destroy 0]) initial_state
  = Ok (state_after 10 (Create 0 :: press_release_pair 0 0 5 ++ [Destroy 0]))
  /\ gpio_input
       (state_after 10 (Create 0 :: press_release_pair 0 0 5 ++ [Destroy 0])) 0
     = false
  /\ leaked (state_after 10 (Create 0 :: press_release_pair 0 0 5 ++ [Destroy 0]))
     <> [].
Proof.
  assert (H : run 10 2 (Create 0 :: press_release_pair 0 0 5 ++ [Destroy 0])
                initial_state
              = Ok (state_after 10
                      (Create 0 :: press_release_pair 0 0 5 ++ [Destroy 0])))
    by (vm_compute; reflexivity).
  split; [exact H|]. split.
  - exact (proj1 (pin_configuration 10 2 _ _ _ H)).
  - vm_compute. discriminate.
Defined.

(** ** The tick counter wraps around *)

(** X16: the time since the press is an unsigned 32-bit difference, so a
    release confirmed after the tick counter has wrapped around (the count is
    below [last_event_time]) is classified by the ticks really elapsed: very
    long above 1200 ms, and, with no double-press handler, a single press up
    to 450 ms. *)
Theorem release_across_tick_wrap (tick_ms : Z) (st : state)
        (b : adv_button_t) (s : callback) :
  0 < tick_ms ->
  confirmed_release st b ->
  singlepress_callback_fn b = Some s ->
  0 <= tick_count st < last_event_time b ->
  last_event_time b < 2 ^ 32 ->
  elapsed_ticks st b = tick_count st + 2 ^ 32 - last_event_time b
  /\ (VERYLONGPRESS_TIME
        < (tick_count st + 2 ^ 32 - last_event_time b) * tick_ms ->
      exists st',
        push_up_timer_callback tick_ms st = Ok st'
        /\ dispatched_since st st' [(very_long_handler b s, used_gpio st)])
  /\ ((tick_count st + 2 ^ 32 - last_event_time b) * tick_ms
        <= LONGPRESS_TIME ->
      doublepress_callback_fn b = None ->
      exists st',
        push_up_timer_callback tick_ms st = Ok st'
        /\ dispatched_since st st' [(s, used_gpio st)]).
Proof.
  intros HP Hrel Hs Hnow Hlast.
  assert (He : elapsed_ticks st b
               = tick_count st + 2 ^ 32 - last_event_time b).
  { unfold elapsed_ticks, xTaskGetTickCountFromISR, uint32.
    rewrite <- (Z.mod_add _ 1) by lia.
    rewrite Z.mod_small; lia. }
  split; [exact He|]. split.
  - intros Hlong.
    destruct (push_up_very_long tick_ms st b s HP Hrel Hs) as (st' & E & Hd & _).
    { unfold elapsed_ms. now rewrite He. }
    now exists st'.
  - intros Hshort Hdouble.
    destruct (push_up_short_single tick_ms st b s HP Hrel Hs)
      as (st' & E & Hd & _).
    { unfold elapsed_ms. now rewrite He. }
    { exact Hdouble. }
    now exists st'.
Qed.

Lemma release_across_tick_wrap_witness :
  0 < 10
  /\ confirmed_release (state_after 10 (press_before_wrap 2)) pin7_before_wrap
  /\ singlepress_callback_fn pin7_before_wrap = Some (user_callback 1)
  /\ 0 <= tick_count (state_after 10 (press_before_wrap 2))
       < last_event_time pin7_before_wrap
  /\ last_event_time pin7_before_wrap < 2 ^ 32
  /\ elapsed_ticks (state_after 10 (press_before_wrap 2)) pin7_before_wrap = 5
  /\ exists st',
       push_up_timer_callback 10 (state_after 10 (press_before_wrap 2)) = Ok st'
       /\ dispatched st' = [(user_callback 1, 7)].
Proof.
  assert (HP : 0 < 10) by lia.
  assert (Hrel : confirmed_release (state_after 10 (press_before_wrap 2))
                   pin7_before_wrap) by (split; vm_compute; reflexivity).
  assert (Hnow : 0 <= tick_count (state_after 10 (press_before_wrap 2))
                 < last_event_time pin7_before_wrap)
    by (split; vm_compute; [discriminate|reflexivity]).
  assert (Hlast : last_event_time pin7_before_wrap < 2 ^ 32)
    by (vm_compute; reflexivity).
  destruct (release_across_tick_wrap 10 _ _ (user_callback 1) HP Hrel eq_refl
              Hnow Hlast) as (He & _ & Hshort).
  split; [exact HP|]. split; [exact Hrel|]. split; [reflexivity|].
  split; [exact Hnow|]. split; [exact Hlast|]. split.
  - rewrite He. vm_compute. reflexivity.
  - apply Hshort; [vm_compute; discriminate|reflexivity].
Defined.

(** ** Destructions that return *)

Lemma destroy_returns_iff_witness :
  pins (state_after 10 three_buttons) = [3; 2; 1]
  /\ exists fuel st',
       adv_button_destroy fuel 2 (state_after 10 three_buttons) = Ok st'.
Proof.
  split; [vm_compute; reflexivity|].
  apply (proj2 (destroy_returns_iff 2 (state_after 10 three_buttons))).
  vm_compute. right. reflexivity.
Defined.

Lemma destroy_registered_returns_witness :
  NoDup (pins (state_after 10 three_buttons))
  /\ registered 2 (state_after 10 three_buttons) = Some (created_button 2)
  /\ adv_button_destroy 1 2 (state_after 10 three_buttons)
     = Ok (state_after 10 (three_buttons ++ [Destroy 2]))
  /\ registered 2 (state_after 10 (three_buttons ++ [Destroy 2])) = None
  /\ pins (state_after 10 (three_buttons ++ [Destroy 2])) = [3; 1]
  /\ gpio_interrupt (state_after 10 (three_buttons ++ [Destroy 2])) 2 = false
  /\ gpio_input (state_after 10 (three_buttons ++ [Destroy 2])) 2 = false.
Proof.
  assert (Hrun : run 10 2 three_buttons initial_state
                 = Ok (state_after 10 three_buttons))
    by (vm_compute; reflexivity).
  assert (Hu : NoDup (pins (state_after 10 three_buttons))).
  { eapply run_unique; [exact Hrun|]. constructor. }
  assert (Hreg : registered 2 (state_after 10 three_buttons)
                 = Some (created_button 2)) by (vm_compute; reflexivity).
  assert (Hd : adv_button_destroy 1 2 (state_after 10 three_buttons)
               = Ok (state_after 10 (three_buttons ++ [Destroy 2])))
    by (vm_compute; reflexivity).
  destruct (destroy_registered_returns 1 2 _ _ _ Hu Hreg Hd)
    as (Hnone & _ & _ & _ & Hi & Hin & _).
  split; [exact Hu|]. split; [exact Hreg|]. split; [exact Hd|].
  split; [exact Hnone|]. split; [vm_compute; reflexivity|].
  split; [exact Hi|]. apply Hin. discriminate.
Defined.

Lemma destroy_unregistered_returns_witness :
  registered 5 (state_after 10 [Create 1]) = None
  /\ adv_button_destroy 1 5 (state_after 10 [Create 1])
     = Ok (state_after 10 [Create 1]).
Proof.
  assert (Hfree : registered 5 (state_after 10 [Create 1]) = None)
    by (vm_compute; reflexivity).
  split; [exact Hfree|].
  destruct (adv_button_destroy 1 5 (state_after 10 [Create 1]))
    as [st'| |] eqn:E.
  - now rewrite (destroy_unregistered_returns 1 5 _ st' Hfree E).
  - vm_compute in E. discriminate E.
  - vm_compute in E. discriminate E.
Defined.

(** ** The debounce timers are set up before they are used *)

Lemma step_ready (tick_ms : Z) (fuel : nat) (e : event) (st st' : state) :
  step tick_ms fuel e st = Ok st' ->
  (debounce_ready st -> debounce_ready st')
  /\ (buttons st = [] -> buttons st' = [] \/ debounce_ready st').
Proof.
  unfold debounce_ready. destruct e; simpl; intros H.
  - inversion H; subst st'.
    destruct (create_debounce_setup g st) as [Hempty Hmore].
    destruct (buttons st) as [|x l] eqn:Eb.
    + destruct (Hempty eq_refl) as (H1 & _ & H3 & H4).
      assert (R : debounce_ready (snd (adv_button_create g st))).
      { unfold debounce_ready. rewrite H1, H3, H4. now repeat split. }
      split; [intros _; exact R|intros _; right; exact R].
    + destruct Hmore as [Hf Hi]; [discriminate|]. rewrite Hf, Hi.
      split; [tauto|discriminate].
  - inversion H; subst st'. unfold adv_button_register_callback_fn.
    split.
    + destruct (button_find_by_gpio g (buttons st)); [|tauto].
      destruct button_callback_type as [|p|p]; try tauto.
      destruct p as [[[|p|]|[|p|]|]|[[|p|]|[|p|]|]|]; try tauto.
      now destruct cb.
    + intros Eb. rewrite Eb. now left.
  - unfold adv_button_destroy in H.
    destruct (buttons st) as [|head next] eqn:Eb.
    + inversion H; subst st'. rewrite Eb. tauto.
    + split; [|discriminate].
      destruct (gpio head =? g).
      * inversion H; subst st'.
        destruct (destroy_unlinked_frame head (set_buttons next st))
          as (_ & _ & _ & _ & Ff & Fi).
        now rewrite Ff, Fi.
      * destruct (destroy_loop fuel g next) as [[[button next']|]| |];
          simpl in H; try discriminate; inversion H; subst st'; [|tauto].
        destruct (destroy_unlinked_frame button (set_buttons (head :: next') st))
          as (_ & _ & _ & _ & Ff & Fi).
        now rewrite Ff, Fi.
  - inversion H; subst st'. unfold adv_button_intr_callback.
    destruct (button_find_by_gpio g (buttons st)) eqn:Hfind.
    + split; [|intros Eb; rewrite Eb in Hfind; discriminate].
      now destruct (gpio_read _ _).
    + tauto.
  - unfold push_down_timer_callback in H. cbv zeta in H.
    destruct (negb _); [|inversion H; subst st'; simpl; tauto].
    destruct (button_find_by_gpio _ _) eqn:Hfind; [|discriminate].
    inversion H; subst st'. simpl.
    split; [tauto|]. intros Eb. simpl in Hfind. rewrite Eb in Hfind.
    discriminate.
  - unfold push_up_timer_callback, call_fn in H. cbv zeta in H.
    destruct (gpio_read _ _); [|inversion H; subst st'; simpl; tauto].
    destruct (button_find_by_gpio _ _) as [b|] eqn:Hfind; [|discriminate].
    split.
    + repeat match type of H with
             | context [if ?c then _ else _] => destruct c eqn:?
             | context [match ?x with Some _ => _ | None => _ end] =>
                 destruct x eqn:?
             end;
        try discriminate; inversion H; subst st'; clear H; simpl; tauto.
    + intros Eb. simpl in Hfind. rewrite Eb in Hfind. discriminate.
  - unfold timer_fires in H.
    destruct (button_find_by_gpio _ _) as [b|] eqn:Hfind;
      [|inversion H; subst st'; tauto].
    split; [|intros Eb; rewrite Eb in Hfind; discriminate].
    unfold adv_button_single_callback, call_fn in H. simpl in H.
    destruct (singlepress_callback_fn b); [|discriminate].
    inversion H; subst st'. simpl. tauto.
  - unfold timer_fires in H.
    destruct (button_find_by_gpio _ _) as [b|] eqn:Hfind;
      [|inversion H; subst st'; tauto].
    split; [|intros Eb; rewrite Eb in Hfind; discriminate].
    unfold adv_button_hold_callback, call_fn in H.
    destruct (negb _); simpl in H; [destruct (holdpress_callback_fn b)|];
      inversion H; subst st'; simpl; tauto.
  - inversion H; subst st'. simpl. tauto.
  - inversion H; subst st'. simpl. tauto.
Qed.

(** X4: the edge interrupt of a pin that reads low starts FRC1 without
    setting its frequency, and the timer fires call handlers that only the
    first creation attaches.  After any sequence of events from start-up
    that the code runs through, if the registry has a button then both
    debounce interrupt handlers are attached and FRC1 has the debounce
    frequency of 50, so that the edge interrupt of a registered pin that
    reads low leaves FRC1 running at 50 with its interrupt on. *)
Theorem debounce_set_up (tick_ms : Z) (fuel : nat) (es : list event)
        (st : state) :
  run tick_ms fuel es initial_state = Ok st ->
  buttons st <> [] ->
  debounce_ready st
  /\ forall g b,
       registered g st = Some b ->
       gpio_read g st = false ->
       frc_timers (adv_button_intr_callback g st) FRC1
       = mkFrc true true DEBOUNCE_FRECUENCY.
Proof.
  intros Hrun Hne.
  assert (Hinv : forall es st0 st1,
             run tick_ms fuel es st0 = Ok st1 ->
             buttons st0 = [] \/ debounce_ready st0 ->
             buttons st1 = [] \/ debounce_ready st1).
  { clear. induction es as [|e es IH]; simpl; intros st0 st1 H Hj.
    - now inversion H; subst.
    - destruct (step tick_ms fuel e st0) as [s| |] eqn:E; try discriminate.
      simpl in H. apply (IH _ _ H).
      destruct (step_ready _ _ _ _ _ E) as [Hr He].
      destruct Hj as [Hj|Hj]; [exact (He Hj)|right; exact (Hr Hj)]. }
  destruct (Hinv es initial_state st Hrun) as [Hb|Hr];
    [now left|contradiction|].
  split; [exact Hr|]. intros g b Hreg Hlow.
  destruct Hr as (_ & _ & Hf).
  unfold adv_button_intr_callback. unfold registered in Hreg. rewrite Hreg.
  simpl. unfold gpio_read in Hlow. rewrite Hlow. simpl. now rewrite Hf.
Qed.

Lemma debounce_set_up_witness :
  run 10 2 (two_buttons ++ [Destroy 2; Level 1 false]) initial_state
  = Ok (state_after 10 (two_buttons ++ [Destroy 2; Level 1 false]))
  /\ buttons (state_after 10 (two_buttons ++ [Destroy 2; Level 1 false])) <> []
  /\ debounce_ready (state_after 10 (two_buttons ++ [Destroy 2; Level 1 false]))
  /\ frc_timers
       (adv_button_intr_callback 1
          (state_after 10 (two_buttons ++ [Destroy 2; Level 1 false]))) FRC1
     = mkFrc true true 50.
Proof.
  assert (Hrun : run 10 2 (two_buttons ++ [Destroy 2; Level 1 false])
                   initial_state
                 = Ok (state_after 10
                         (two_buttons ++ [Destroy 2; Level 1 false])))
    by (vm_compute; reflexivity).
  assert (Hne : buttons (state_after 10
                           (two_buttons ++ [Destroy 2; Level 1 false])) <> [])
    by (vm_compute; discriminate).
  destruct (debounce_set_up 10 2 _ _ Hrun Hne) as [Hr Hedge].
  split; [exact Hrun|]. split; [exact Hne|]. split; [exact Hr|].
  apply (Hedge 1 (created_button 1)); vm_compute; reflexivity.
Defined.
